(** * Weather collection and history lambdas: a shallow embedding

    The two Go handlers of the repository ([cmd/weather-lambda] and
    [cmd/weather-history-api]) together with the services and storage
    accessors they call ([internal/services], [internal/handlers],
    [internal/models]) are embedded as Rocq functions, and the properties
    the specification states about them are proved or refuted on the
    embedding.  The readers of the table store, the constructors and the
    earlier history endpoint (without input checks) are embedded as well,
    with the properties their code shows.

    Go strings are byte sequences: they are modelled as [string], whose
    characters are the bytes.  Go [int] and [int64] are modelled as [Z];
    [float64] as the primitive binary64 [float].

    The functions of [regexp], [strings], [strconv] and [unicode/utf8] the
    handlers call are written out.  The calendar formatting of [time],
    [sort.Slice] and the encoders and decoders of the AWS SDK and of
    [encoding/json] are parameters (type classes), so that what is proved
    holds for every behaviour they may have.  The provider, the table
    store and the blob store answer through oracles held by the clients;
    a handler runs in a state monad over the [World], which records the
    clock, the committed writes, the service calls and the log. *)

From Stdlib Require Import ZArith Ascii String List Bool Lia.
From Stdlib Require Import Floats.PrimFloat Floats.FloatOps Floats.SpecFloat.
From Stdlib Require Import Numbers.Cyclic.Int63.Uint63.
From Stdlib Require Import DecimalString.
From Stdlib Require Sorting.Sorted DecimalPos DecimalZ.
From stdpp Require Import base option list sorting gmap strings.

Local Open Scope string_scope.
Local Open Scope Z_scope.

(** ** Bytes, runes and the [unicode/utf8] decoder *)

Module utf8.

Definition byte (c : ascii) : Z := Z.of_N (N_of_ascii c).

Definition RuneError : Z := 0xFFFD.
Definition RuneSelf : Z := 0x80.

Definition maskx : Z := 0x3F.
Definition mask2 : Z := 0x1F.
Definition mask3 : Z := 0x0F.
Definition mask4 : Z := 0x07.
Definition locb : Z := 0x80.
Definition hicb : Z := 0xBF.

(** The [first] table joined with [acceptRanges]: for a leading byte, the
    length of the sequence it starts and the range the second byte must
    lie in; [None] for the bytes marked [xx] (never a valid start). *)
Definition first (b0 : Z) : option (Z * Z * Z) :=
  if (0xC2 <=? b0) && (b0 <=? 0xDF) then Some (2, locb, hicb)
  else if b0 =? 0xE0 then Some (3, 0xA0, hicb)
  else if (0xE1 <=? b0) && (b0 <=? 0xEC) then Some (3, locb, hicb)
  else if b0 =? 0xED then Some (3, locb, 0x9F)
  else if (0xEE <=? b0) && (b0 <=? 0xEF) then Some (3, locb, hicb)
  else if b0 =? 0xF0 then Some (4, 0x90, hicb)
  else if (0xF1 <=? b0) && (b0 <=? 0xF3) then Some (4, locb, hicb)
  else if b0 =? 0xF4 then Some (4, locb, 0x8F)
  else None.

Definition is_cont (b : Z) : bool := (locb <=? b) && (b <=? hicb).

Definition rune2 (b0 b1 : Z) : Z :=
  Z.lor (Z.shiftl (Z.land b0 mask2) 6) (Z.land b1 maskx).
Definition rune3 (b0 b1 b2 : Z) : Z :=
  Z.lor (Z.lor (Z.shiftl (Z.land b0 mask3) 12) (Z.shiftl (Z.land b1 maskx) 6))
        (Z.land b2 maskx).
Definition rune4 (b0 b1 b2 b3 : Z) : Z :=
  Z.lor (Z.lor (Z.lor (Z.shiftl (Z.land b0 mask4) 18)
                      (Z.shiftl (Z.land b1 maskx) 12))
               (Z.shiftl (Z.land b2 maskx) 6))
        (Z.land b3 maskx).

(** [DecodeRuneInString] applied from the front until the text is
    consumed: the runes of [s], each with the bytes that encode it.  An
    ill-formed byte decodes to [RuneError] of width 1. *)
Fixpoint decode (s : list ascii) : list (Z * list ascii) :=
  match s with
  | [] => []
  | c0 :: t0 =>
    let b0 := byte c0 in
    if b0 <? RuneSelf then (b0, [c0]) :: decode t0
    else
      match first b0, t0 with
      | Some (sz, lo, hi), c1 :: t1 =>
        let b1 := byte c1 in
        if (b1 <? lo) || (hi <? b1) then (RuneError, [c0]) :: decode t0
        else if sz <=? 2 then (rune2 b0 b1, [c0; c1]) :: decode t1
        else
          match t1 with
          | c2 :: t2 =>
            let b2 := byte c2 in
            if negb (is_cont b2) then (RuneError, [c0]) :: decode t0
            else if sz <=? 3 then (rune3 b0 b1 b2, [c0; c1; c2]) :: decode t2
            else
              match t2 with
              | c3 :: t3 =>
                let b3 := byte c3 in
                if negb (is_cont b3) then (RuneError, [c0]) :: decode t0
                else (rune4 b0 b1 b2 b3, [c0; c1; c2; c3]) :: decode t3
              | [] => (RuneError, [c0]) :: decode t0
              end
          | [] => (RuneError, [c0]) :: decode t0
          end
      | _, _ => (RuneError, [c0]) :: decode t0
      end
  end.

Definition runes (s : string) : list Z :=
  map fst (decode (list_ascii_of_string s)).

Definition encoded (segs : list (Z * list ascii)) : string :=
  string_of_list_ascii (concat (map snd segs)).

End utf8.

(** ** [unicode.IsSpace] and the functions of [strings] and [strconv] *)

Module unicode.

Definition IsSpace (r : Z) : bool :=
  if r <=? 0xFF then
    ((0x09 <=? r) && (r <=? 0x0D)) || (r =? 0x20) || (r =? 0x85) || (r =? 0xA0)
  else
    (r =? 0x1680) || ((0x2000 <=? r) && (r <=? 0x200A)) || (r =? 0x2028)
    || (r =? 0x2029) || (r =? 0x202F) || (r =? 0x205F) || (r =? 0x3000).

End unicode.

Module strings.

Fixpoint drop_while {A} (f : A -> bool) (l : list A) : list A :=
  match l with
  | [] => []
  | x :: l' => if f x then drop_while f l' else l
  end.

(** [strings.TrimSpace]: the text without its leading and trailing runes
    that satisfy [unicode.IsSpace].  (The library scans the tail of the
    text backwards with [DecodeLastRuneInString]; a space rune found
    there starts at a byte that is no continuation byte, so it is also a
    rune of the forward decoding used here.) *)
Definition TrimSpace (s : string) : string :=
  let is_space (seg : Z * list ascii) := unicode.IsSpace (fst seg) in
  let segs := drop_while is_space (utf8.decode (list_ascii_of_string s)) in
  utf8.encoded (rev (drop_while is_space (rev segs))).

End strings.

Module strconv.

Definition maxInt64 : Z := 2 ^ 63 - 1.
Definition minInt64 : Z := - 2 ^ 63.

Definition digit (c : ascii) : option Z :=
  let b := utf8.byte c in
  if (48 <=? b) && (b <=? 57) then Some (b - 48) else None.

Fixpoint digits (acc : Z) (s : list ascii) : option Z :=
  match s with
  | [] => Some acc
  | c :: s' =>
    match digit c with
    | Some d => digits (acc * 10 + d) s'
    | None => None
    end
  end.

(** [strconv.Atoi]: an optional sign and at least one decimal digit;
    [None] stands for the syntax and range errors. *)
Definition Atoi (s : string) : option Z :=
  let parse (neg : bool) (ds : list ascii) :=
    match ds with
    | [] => None
    | _ =>
      match digits 0 ds with
      | Some n =>
        let n := if neg then - n else n in
        if (minInt64 <=? n) && (n <=? maxInt64) then Some n else None
      | None => None
      end
    end in
  match list_ascii_of_string s with
  | [] => None
  | c :: rest =>
    if Ascii.eqb c "-" then parse true rest
    else if Ascii.eqb c "+" then parse false rest
    else parse false (c :: rest)
  end.

(** The decimal text of an integer, as [%d] prints it. *)
Definition Itoa (n : Z) : string := NilZero.string_of_int (Z.to_int n).

End strconv.

(** ** The fragment of [regexp] the handlers use *)

Module regexp.

(** Regular expressions over runes.  The two patterns of the program
    need literals, bracket classes (possibly negated), concatenation and
    alternation. *)
Inductive re : Type :=
| Lit (c : ascii)
| Class (negated : bool) (ranges : list (Z * Z))
| Cat (a b : re)
| Alt (a b : re).

Definition in_ranges (ranges : list (Z * Z)) (r : Z) : bool :=
  existsb (fun '(lo, hi) => (lo <=? r) && (r <=? hi)) ranges.

Definition class_matches (negated : bool) (ranges : list (Z * Z)) (r : Z) : bool :=
  xorb negated (in_ranges ranges r).

(** Backtracking matcher: [matchK e s k] holds when [e] matches a prefix
    of [s] whose remainder is accepted by [k]. *)
Fixpoint matchK (e : re) (s : list Z) (k : list Z -> bool) : bool :=
  match e with
  | Lit c =>
    match s with
    | r :: s' => (r =? utf8.byte c) && k s'
    | [] => false
    end
  | Class negated ranges =>
    match s with
    | r :: s' => class_matches negated ranges r && k s'
    | [] => false
    end
  | Cat a b => matchK a s (fun s' => matchK b s' k)
  | Alt a b => matchK a s k || matchK b s k
  end.

Definition is_nil (s : list Z) : bool :=
  match s with [] => true | _ => false end.

(** [regexp.MatchString] for a pattern of the form [^(e)$]: without
    flags the two anchors are the beginning and the end of the text, so
    the pattern matches exactly when [e] matches the whole text. *)
Definition MatchString_anchored (e : re) (s : string) : bool :=
  matchK e (utf8.runes s) is_nil.

(** [ReplaceAllString] for a pattern that is one bracket class: every
    rune in the class is replaced by [repl], the bytes of the other runes
    are kept. *)
Definition ReplaceAllString_class (negated : bool) (ranges : list (Z * Z))
    (src repl : string) : string :=
  string_of_list_ascii
    (concat (map (fun '(r, bytes) =>
                    if class_matches negated ranges r
                    then list_ascii_of_string repl else bytes)
                 (utf8.decode (list_ascii_of_string src)))).

Definition range (lo hi : ascii) : Z * Z := (utf8.byte lo, utf8.byte hi).
Definition single (c : ascii) : Z * Z := (utf8.byte c, utf8.byte c).

(** The Perl class [\s] of RE2: tab, newline, form feed, carriage return
    and space. *)
Definition perl_space : list (Z * Z) := [(9, 10); (12, 13); (32, 32)].

End regexp.

(** ** Input validation of the history endpoint
    ([cmd/weather-history-api/main.go]) *)

Module Validation.
Import regexp.

Definition digit_1_9 : re := Class false [range "1" "9"].
Definition digit_0_9 : re := Class false [range "0" "9"].

(** The body of [^(6h|24h|1d|[1-9]|[1-9][0-9]|1[0-6][0-8])$]. *)
Definition periodPattern : re :=
  Alt (Cat (Lit "6") (Lit "h"))
 (Alt (Cat (Lit "2") (Cat (Lit "4") (Lit "h")))
 (Alt (Cat (Lit "1") (Lit "d"))
 (Alt digit_1_9
 (Alt (Cat digit_1_9 digit_0_9)
      (Cat (Lit "1") (Cat (Class false [range "0" "6"])
                           (Class false [range "0" "8"]))))))).

Definition isValidPeriod (period : string) : bool :=
  MatchString_anchored periodPattern period.

(** The ranges of the class [[^a-zA-Z\s\-]] (before negation). *)
Definition cityKeep : list (Z * Z) :=
  [range "a" "z"; range "A" "Z"] ++ perl_space ++ [single "-"].

Definition sanitizeCityName (city : string) : string :=
  let city := strings.TrimSpace city in
  let city := ReplaceAllString_class true cityKeep city EmptyString in
  if (50 <? Z.of_nat (String.length city))%Z
  then String.substring 0 50 city
  else city.

End Validation.

(** ** The fragment of [time] the program uses *)

Module time.

(** An instant: seconds since the Unix epoch and the nanoseconds within
    that second.  The location of a [time.Time] only matters to [Format],
    which is kept abstract below. *)
Record Time : Type := mkTime { sec : Z; nsec : Z }.

(** [time.Duration] is an [int64] count of nanoseconds. *)
Definition int64 (z : Z) : Z := (z + 2 ^ 63) mod 2 ^ 64 - 2 ^ 63.

Definition Second : Z := 1000000000.
Definition Hour : Z := 3600 * Second.

(** Product and negation of durations, on [int64]. *)
Definition mul (a b : Z) : Z := int64 (a * b).
Definition neg (a : Z) : Z := int64 (- a).

(** [Time.Add]: whole seconds and the remainder are added separately and
    the nanoseconds are brought back into their range. *)
Definition Add (t : Time) (d : Z) : Time :=
  let dsec := Z.quot d Second in
  let n := nsec t + Z.rem d Second in
  if Second <=? n then mkTime (sec t + dsec + 1) (n - Second)
  else if n <? 0 then mkTime (sec t + dsec - 1) (n + Second)
  else mkTime (sec t + dsec) n.

Definition Unix (t : Time) : Z := sec t.

Definition RFC3339 : string := "2006-01-02T15:04:05Z07:00".

(** [Time.Format]: the calendar text of an instant in its location. *)
Class Formatter : Type := { Format : Time -> string -> string }.

End time.

(** ** [internal/models] *)

Module models.

Module Coord.
Record t : Type := mk { Lon : float; Lat : float }.
End Coord.

Module Main.
Record t : Type := mk {
  Temp : float; FeelsLike : float; TempMin : float; TempMax : float;
  Pressure : Z; Humidity : Z }.
End Main.

Module Weather.
Record t : Type := mk {
  ID : Z; Main : string; Description : string; Icon : string }.
End Weather.

Module Wind.
Record t : Type := mk { Speed : float; Deg : Z }.
End Wind.

Module Clouds.
Record t : Type := mk { All : Z }.
End Clouds.

Module Sys.
Record t : Type := mk { Country : string; Sunrise : Z; Sunset : Z }.
End Sys.

(** The weather API response. *)
Module WeatherResponse.
Record t : Type := mk {
  Name : string;
  Coord : Coord.t;
  Main : Main.t;
  Weather : list Weather.t;
  Wind : Wind.t;
  Clouds : Clouds.t;
  Sys : Sys.t;
  Dt : Z }.
End WeatherResponse.

(** The record stored in DynamoDB. *)
Module WeatherRecord.
Record t : Type := mk {
  ID : string;
  Timestamp : string;
  CityName : string;
  Temperature : float;
  Description : string;
  Humidity : Z;
  Pressure : Z;
  WindSpeed : float;
  Country : string;
  CreatedAt : time.Time;
  TTL : Z }.
End WeatherRecord.

(** The document stored in S3: the record (embedded) and the raw response. *)
Module S3WeatherData.
Record t : Type := mk {
  WeatherRecord : WeatherRecord.t;
  RawResponse : WeatherResponse.t }.
End S3WeatherData.

End models.

(** ** [internal/config] *)

Module config.

(** Modelled from the spec: the configuration surface (the package
    [internal/config] is not among the sources): weather-provider API key,
    API base URL, default city name, bucket, table and region, under the
    field names the handlers read them by. *)
Record WeatherConfig : Type := mkWeather {
  APIKey : string; APIURL : string; CityName : string }.

(** Modelled from the spec: the AWS part of the configuration surface. *)
Record AWSConfig : Type := mkAWS {
  Region : string; S3Bucket : string; DynamoDBTable : string }.

(** Modelled from the spec: the configuration value handed to the
    handlers. *)
Record Config : Type := mk { Weather : WeatherConfig; AWS : AWSConfig }.

End config.

(** ** Library functions kept abstract

    An [error] is represented by its message; wrapping with [%w] or
    printing with [%v] prefixes the message. *)

Definition error : Type := string.

Definition Errorf (prefix : string) (err : error) : error := prefix ++ err.

(** [sort.Slice] by its contract: for a [less] that is a strict weak
    order the result is a rearrangement of the slice in which no element
    is less than an earlier one.  The sort need not be stable. *)
Record StrictWeakOrder {A} (less : A -> A -> bool) : Prop := {
  swo_irrefl : forall a, less a a = false;
  swo_trans : forall a b c, less a b = true -> less b c = true -> less a c = true;
  swo_incomp : forall a b c, less a b = false -> less b c = false -> less a c = false }.

Class Sorter : Type := {
  sort_Slice : forall {A}, (A -> A -> bool) -> list A -> list A;
  sort_Slice_perm : forall A (less : A -> A -> bool) (l : list A),
    Permutation (sort_Slice less l) l;
  sort_Slice_sorted : forall A (less : A -> A -> bool) (l : list A),
    StrictWeakOrder less ->
    StronglySorted (fun a b => less b a = false) (sort_Slice less l) }.


(** ** The external services and the world of an invocation *)

(** A printed argument of [log.Printf], and a JSON value of the collector's
    response data. *)
Inductive Any : Type :=
| AStr (s : string)
| AInt (n : Z)
| AFloat (f : float).

Module dynamodb.

#[warnings="-register-all"]
Inductive AttributeValue : Type :=
| AttrS (s : string)
| AttrN (n : string)
| AttrB (b : string)
| AttrBOOL (b : bool)
| AttrNULL
| AttrSS (ss : list string)
| AttrNS (ns : list string)
| AttrBS (bs : list string)
| AttrL (l : list AttributeValue)
| AttrM (m : list (string * AttributeValue)).

Abbreviation Item := (gmap string AttributeValue).

Record PutItemInput : Type := mkPutItemInput {
  put_TableName : string;
  put_Item : Item }.

Record ScanInput : Type := mkScanInput {
  TableName : string;
  FilterExpression : string;
  ExpressionAttributeNames : gmap string string;
  ExpressionAttributeValues : gmap string AttributeValue }.

Record ScanOutput : Type := mkScanOutput { Items : list Item }.

(** What the service answers to a paginated scan: the pages it delivers
    and, possibly, the error that ends the iteration after them. *)
Record ScanResult : Type := mkScanResult {
  pages : list ScanOutput;
  failure : option error }.

(** The service behind a client: the answer to each scan, and the error,
    if any, it answers a put with. *)
Record DynamoDB : Type := mkDynamoDB {
  scan_answer : ScanInput -> ScanResult;
  put_error : PutItemInput -> option error }.

End dynamodb.

Module s3.

Record PutObjectInput : Type := mkPutObjectInput {
  Bucket : string;
  Key : string;
  Body : string;
  ContentType : string;
  Metadata : gmap string string }.

Record S3 : Type := mkS3 { put_error : PutObjectInput -> option error }.

End s3.

Module http.

Definition StatusOK : Z := 200.
Definition StatusBadRequest : Z := 400.
Definition StatusUnauthorized : Z := 401.
Definition StatusMethodNotAllowed : Z := 405.
Definition StatusInternalServerError : Z := 500.

(** A response: its status, the bytes of its body and the error reading
    the body ended with, if any. *)
Record Response : Type := mkResponse {
  StatusCode : Z;
  Body : string;
  ReadErr : option error }.

Record Client : Type := mkClient { get_answer : string -> error + Response }.

End http.

(** The encoders and decoders of [dynamodbattribute], [encoding/json],
    [net/url] and [fmt] the program calls. *)
Class Codec : Type := {
  MarshalMap : models.WeatherRecord.t -> error + dynamodb.Item;
  UnmarshalMap : dynamodb.Item -> error + models.WeatherRecord.t;
  (** [json.Unmarshal] into a [WeatherResponse] *)
  json_Unmarshal : string -> error + models.WeatherResponse.t;
  (** [json.MarshalIndent] of the S3 document *)
  json_MarshalIndent : models.S3WeatherData.t -> error + string;
  (** the error [json.Marshal] reports on a record it cannot encode
      (a non-finite float, a year outside 0..9999), if any *)
  json_unsupported : models.WeatherRecord.t -> option error;
  (** [url.Parse], setting [RawQuery] to the encoded parameters, and
      [URL.String] *)
  url_with_query : string -> list (string * string) -> error + string;
  (** [fmt.Sprintf] of a float with the verb [%.2f] *)
  Sprintf_2f : float -> string }.

Inductive Call : Type :=
| CallGet (url : string)
| CallScan (input : dynamodb.ScanInput)
| CallPutItem (input : dynamodb.PutItemInput)
| CallPutObject (input : s3.PutObjectInput).

(** The state an invocation reads and changes: the wall clock (the n-th
    call of [time.Now] returns [clock n]), the items committed to the
    table, the objects committed to the bucket, the service calls made so
    far, oldest first, and the lines logged. *)
Record World : Type := mkWorld {
  clock : nat -> time.Time;
  ticks : nat;
  table : list dynamodb.PutItemInput;
  bucket : list s3.PutObjectInput;
  calls : list Call;
  logs : list (string * list Any) }.

(** A Go function body: it returns a value or panics, and changes the
    world on the way. *)
Inductive Result (A : Type) : Type :=
| Return (a : A)
| Panic (msg : string).
Arguments Return {A} a.
Arguments Panic {A} msg.

Definition M (A : Type) : Type := World -> Result A * World.

#[global] Instance M_ret : MRet M := fun A a w => (Return a, w).
#[global] Instance M_bind : MBind M := fun A B f m w =>
  match m w with
  | (Return a, w') => f a w'
  | (Panic msg, w') => (Panic msg, w')
  end.
#[global] Instance M_fmap : FMap M := fun A B f m => a ← m; mret (f a).

Definition panic {A} (msg : string) : M A := fun w => (Panic msg, w).

Definition record_call (c : Call) : M unit := fun w =>
  (Return tt, mkWorld (clock w) (ticks w) (table w) (bucket w) (calls w ++ [c]) (logs w)).

Definition log_Printf (format : string) (args : list Any) : M unit := fun w =>
  (Return tt, mkWorld (clock w) (ticks w) (table w) (bucket w) (calls w)
                      (logs w ++ [(format, args)])).

Definition time_Now : M time.Time := fun w =>
  (Return (clock w (ticks w)),
   mkWorld (clock w) (S (ticks w)) (table w) (bucket w) (calls w) (logs w)).

(** Indexing a slice: a run-time panic when the index is out of range. *)
Definition index {A} (l : list A) (i : nat) : M A :=
  match l !! i with
  | Some x => mret x
  | None => panic "runtime error: index out of range"
  end.

Definition http_Get (c : http.Client) (url : string) : M (error + http.Response) :=
  record_call (CallGet url);; mret (http.get_answer c url).

Definition PutItem (c : dynamodb.DynamoDB) (input : dynamodb.PutItemInput)
    : M (option error) :=
  record_call (CallPutItem input);;
  match dynamodb.put_error c input with
  | Some err => mret (Some err)
  | None => fun w =>
      (Return None,
       mkWorld (clock w) (ticks w) (table w ++ [input]) (bucket w) (calls w) (logs w))
  end.

Definition PutObject (c : s3.S3) (input : s3.PutObjectInput) : M (option error) :=
  record_call (CallPutObject input);;
  match s3.put_error c input with
  | Some err => mret (Some err)
  | None => fun w =>
      (Return None,
       mkWorld (clock w) (ticks w) (table w) (bucket w ++ [input]) (calls w) (logs w))
  end.

(** [ScanPagesWithContext]: the callback sees every page the service
    delivers, with [lastPage] set on the final one, until it returns
    false; the error that ended the iteration, if any, is returned. *)
Fixpoint each_page {S} (fn : dynamodb.ScanOutput -> bool -> S -> S * bool)
    (ps : list dynamodb.ScanOutput) (failed : bool) (acc : S) : S :=
  match ps with
  | [] => acc
  | p :: rest =>
    let lastPage := match rest with [] => negb failed | _ => false end in
    let '(acc', continue) := fn p lastPage acc in
    if continue then each_page fn rest failed acc' else acc'
  end.

Definition ScanPagesWithContext {S} (c : dynamodb.DynamoDB)
    (input : dynamodb.ScanInput)
    (fn : dynamodb.ScanOutput -> bool -> S -> S * bool) (acc : S)
    : M (S * option error) :=
  record_call (CallScan input);;
  let answer := dynamodb.scan_answer c input in
  mret (each_page fn (dynamodb.pages answer)
                  (bool_decide (is_Some (dynamodb.failure answer))) acc,
        dynamodb.failure answer).

(** ** [internal/services]: the weather service *)

Module services.
Import models.

Section WithLibraries.
Context `{!time.Formatter, !Codec}.

Record WeatherService : Type := mkWeatherService {
  config : config.Config;
  client : http.Client }.

(** [GetWeatherData] fetches weather data from the API. *)
Definition GetWeatherData (w : WeatherService) : M (error + WeatherResponse.t) :=
  let cfg := config.Weather (config w) in
  let params := [("q", config.CityName cfg); ("appid", config.APIKey cfg);
                 ("units", "metric")] in
  match url_with_query (config.APIURL cfg) params with
  | inl err => mret (inl (Errorf "invalid weather API URL: " err))
  | inr url =>
    resp ← http_Get (client w) url;
    match resp with
    | inl err => mret (inl (Errorf "failed to make weather API request: " err))
    | inr resp =>
      if negb (http.StatusCode resp =? http.StatusOK) then
        mret (inl ("weather API returned status "
                   ++ strconv.Itoa (http.StatusCode resp) ++ ": " ++ http.Body resp))
      else
        match http.ReadErr resp with
        | Some err => mret (inl (Errorf "failed to read weather API response: " err))
        | None =>
          match json_Unmarshal (http.Body resp) with
          | inl err => mret (inl (Errorf "failed to parse weather API response: " err))
          | inr weatherResponse => mret (inr weatherResponse)
          end
        end
    end
  end.

Definition set_Temperature (r : WeatherRecord.t) (v : float) : WeatherRecord.t :=
  let 'WeatherRecord.mk id ts city _ desc hum pres wind country created ttl := r in
  WeatherRecord.mk id ts city v desc hum pres wind country created ttl.

Definition set_Description (r : WeatherRecord.t) (v : string) : WeatherRecord.t :=
  let 'WeatherRecord.mk id ts city temp _ hum pres wind country created ttl := r in
  WeatherRecord.mk id ts city temp v hum pres wind country created ttl.

Definition set_WindSpeed (r : WeatherRecord.t) (v : float) : WeatherRecord.t :=
  let 'WeatherRecord.mk id ts city temp desc hum pres _ country created ttl := r in
  WeatherRecord.mk id ts city temp desc hum pres v country created ttl.

(** [ConvertToWeatherRecord] converts the API response to a DynamoDB
    record. *)
Definition ConvertToWeatherRecord (w : WeatherService) (response : WeatherResponse.t)
    : M WeatherRecord.t :=
  now ← time_Now;
  let ttl := time.Unix (time.Add now (30 * 24 * time.Hour)) in
  let record := {|
    WeatherRecord.ID :=
      WeatherResponse.Name response ++ "-" ++ strconv.Itoa (time.Unix now);
    WeatherRecord.Timestamp := time.Format now time.RFC3339;
    WeatherRecord.CityName := WeatherResponse.Name response;
    WeatherRecord.Temperature := 0%float;
    WeatherRecord.Description := EmptyString;
    WeatherRecord.Humidity := Main.Humidity (WeatherResponse.Main response);
    WeatherRecord.Pressure := Main.Pressure (WeatherResponse.Main response);
    WeatherRecord.WindSpeed := 0%float;
    WeatherRecord.Country := Sys.Country (WeatherResponse.Sys response);
    WeatherRecord.CreatedAt := now;
    WeatherRecord.TTL := ttl |} in
  let record := set_Temperature record (Main.Temp (WeatherResponse.Main response)) in
  record ←
    (if (0 <? Z.of_nat (length (WeatherResponse.Weather response)))%Z then
       first ← index (WeatherResponse.Weather response) 0;
       mret (set_Description record (Weather.Description first))
     else mret record);
  let record := set_WindSpeed record (Wind.Speed (WeatherResponse.Wind response)) in
  mret record.

(** [ConvertToS3Data] converts the API response to the S3 storage format. *)
Definition ConvertToS3Data (w : WeatherService) (response : WeatherResponse.t)
    (record : WeatherRecord.t) : S3WeatherData.t :=
  {| S3WeatherData.WeatherRecord := record;
     S3WeatherData.RawResponse := response |}.

End WithLibraries.
End services.

(** ** [internal/handlers]: the storage accessors *)

Module handlers.
Import models.

Section WithLibraries.
Context `{!time.Formatter, !Sorter, !Codec}.

Record S3Handler : Type := mkS3Handler {
  s3_client : s3.S3;
  bucket : string }.

Record DynamoDBHandler : Type := mkDynamoDBHandler {
  client : dynamodb.DynamoDB;
  tableName : string }.

(** [StoreWeatherData] stores weather data to S3. *)
Definition StoreWeatherData (h : S3Handler) (data : S3WeatherData.t)
    : M (option error) :=
  match json_MarshalIndent data with
  | inl err => mret (Some (Errorf "failed to marshal weather data: " err))
  | inr jsonData =>
    now ← time_Now;
    let record := S3WeatherData.WeatherRecord data in
    let key := "weather-data/" ++ time.Format now "2006" ++ "/"
               ++ time.Format now "01-02" ++ "/" ++ WeatherRecord.ID record ++ ".json" in
    err ← PutObject (s3_client h) {|
      s3.Bucket := bucket h;
      s3.Key := key;
      s3.Body := jsonData;
      s3.ContentType := "application/json";
      s3.Metadata :=
        {[ "city" := WeatherRecord.CityName record;
           "country" := WeatherRecord.Country record;
           "temperature" := Sprintf_2f (WeatherRecord.Temperature record);
           "timestamp" := WeatherRecord.Timestamp record ]} |};
    match err with
    | Some err => mret (Some (Errorf "failed to upload to S3: " err))
    | None => mret None
    end
  end.

(** [StoreWeatherRecord] stores a weather record to DynamoDB. *)
Definition StoreWeatherRecord (h : DynamoDBHandler) (record : WeatherRecord.t)
    : M (option error) :=
  match MarshalMap record with
  | inl err => mret (Some (Errorf "failed to marshal weather record: " err))
  | inr av =>
    err ← PutItem (client h) {|
      dynamodb.put_TableName := tableName h;
      dynamodb.put_Item := av |};
    match err with
    | Some err => mret (Some (Errorf "failed to put item to DynamoDB: " err))
    | None => mret None
    end
  end.

(** The callback [GetWeatherHistory] hands to the paginated scan: the
    items of the page that unmarshal are appended, the others skipped. *)
Fixpoint collect_items (items : list dynamodb.Item) (records : list WeatherRecord.t)
    : list WeatherRecord.t :=
  match items with
  | [] => records
  | item :: rest =>
    match UnmarshalMap item with
    | inl _ => collect_items rest records
    | inr record => collect_items rest (records ++ [record])
    end
  end.

Definition collect_page (page : dynamodb.ScanOutput) (lastPage : bool)
    (records : list WeatherRecord.t) : list WeatherRecord.t * bool :=
  (collect_items (dynamodb.Items page) records, negb lastPage).

Definition timestamp_less (a b : WeatherRecord.t) : bool :=
  String.ltb (WeatherRecord.Timestamp a) (WeatherRecord.Timestamp b).

(** The scan [GetWeatherHistory] issues: the whole table, filtered by
    city and by the inclusive range of timestamps. *)
Definition history_scan_input (h : DynamoDBHandler) (cityName : string)
    (startTimeStr endTimeStr : string) : dynamodb.ScanInput := {|
  dynamodb.TableName := tableName h;
  dynamodb.FilterExpression := "cityName = :city AND #ts BETWEEN :start AND :end";
  dynamodb.ExpressionAttributeNames := {[ "#ts" := "timestamp" ]};
  dynamodb.ExpressionAttributeValues :=
    {[ ":city" := dynamodb.AttrS cityName;
       ":start" := dynamodb.AttrS startTimeStr;
       ":end" := dynamodb.AttrS endTimeStr ]} |}.

(** [GetWeatherHistory] retrieves weather records for a specific city
    within a time range. *)
Definition GetWeatherHistory (h : DynamoDBHandler) (cityName : string)
    (startTime endTime : time.Time) : M (error + list WeatherRecord.t) :=
  let startTimeStr := time.Format startTime time.RFC3339 in
  let endTimeStr := time.Format endTime time.RFC3339 in
  let input := history_scan_input h cityName startTimeStr endTimeStr in
  '(records, err) ← ScanPagesWithContext (client h) input collect_page [];
  match err with
  | Some err => mret (inl (Errorf "failed to scan weather history: " err))
  | None => mret (inr (sort_Slice timestamp_less records))
  end.

End WithLibraries.
End handlers.

(** ** [cmd/weather-lambda/main.go]: the collector *)

Module weather_lambda.
Import models.

Section WithLibraries.
Context `{!time.Formatter, !Sorter, !Codec}.

(** The input to the Lambda function. *)
Record Event : Type := mkEvent { Detail : string }.

(** The output from the Lambda function. *)
Record Response : Type := mkResponse {
  StatusCode : Z;
  Message : string;
  Data : option (gmap string Any) }.

Record Handler : Type := mkHandler {
  weatherService : services.WeatherService;
  s3Handler : handlers.S3Handler;
  dynamoDBHandler : handlers.DynamoDBHandler;
  config : config.Config }.

(** [HandleRequest] handles the Lambda function request. *)
Definition HandleRequest (h : Handler) (event : Event) : M Response :=
  log_Printf "Processing weather data collection for city: %s"
             [AStr (config.CityName (config.Weather (config h)))];;
  fetched ← services.GetWeatherData (weatherService h);
  match fetched with
  | inl err =>
    log_Printf "Error fetching weather data: %v" [AStr err];;
    mret (mkResponse 500 ("Failed to fetch weather data: " ++ err) None)
  | inr weatherResponse =>
    first ← index (WeatherResponse.Weather weatherResponse) 0;
    log_Printf "Successfully fetched weather data for %s: %.2f°C, %s"
               [AStr (WeatherResponse.Name weatherResponse);
                AFloat (Main.Temp (WeatherResponse.Main weatherResponse));
                AStr (Weather.Description first)];;
    weatherRecord ←
      services.ConvertToWeatherRecord (weatherService h) weatherResponse;
    let s3Data :=
      services.ConvertToS3Data (weatherService h) weatherResponse weatherRecord in
    err ← handlers.StoreWeatherRecord (dynamoDBHandler h) weatherRecord;
    match err with
    | Some err =>
      log_Printf "Error storing to DynamoDB: %v" [AStr err];;
      mret (mkResponse 500 ("Failed to store to DynamoDB: " ++ err) None)
    | None =>
      log_Printf "Successfully stored weather record to DynamoDB: %s"
                 [AStr (WeatherRecord.ID weatherRecord)];;
      err ← handlers.StoreWeatherData (s3Handler h) s3Data;
      match err with
      | Some err =>
        log_Printf "Error storing to S3: %v" [AStr err];;
        mret (mkResponse 500 ("Failed to store to S3: " ++ err) None)
      | None =>
        log_Printf "Successfully stored weather data to S3 for record: %s"
                   [AStr (WeatherRecord.ID weatherRecord)];;
        mret (mkResponse 200 "Weather data processed successfully"
                (Some {[ "city" := AStr (WeatherRecord.CityName weatherRecord);
                         "temperature" := AFloat (WeatherRecord.Temperature weatherRecord);
                         "description" := AStr (WeatherRecord.Description weatherRecord);
                         "timestamp" := AStr (WeatherRecord.Timestamp weatherRecord);
                         "recordId" := AStr (WeatherRecord.ID weatherRecord) ]}))
      end
    end
  end.

End WithLibraries.
End weather_lambda.

(** ** [cmd/weather-history-api/main.go]: the history endpoint *)

Module weather_history_api.
Import models Validation.

Section WithLibraries.
Context `{!time.Formatter, !Sorter, !Codec}.

Record Handler : Type := mkHandler {
  dynamoHandler : handlers.DynamoDBHandler;
  config : config.Config }.

Record WeatherHistoryResponse : Type := mkWeatherHistoryResponse {
  StatusCode : Z;
  Message : string;
  Data : list WeatherRecord.t;
  Count : Z;
  Period : string;
  StartTime : string;
  EndTime : string }.

(** The fields of [events.APIGatewayProxyRequest] the handler reads.  A
    key that is absent from a Go map reads as the empty string. *)
Record APIGatewayProxyRequest : Type := mkRequest {
  HTTPMethod : string;
  Headers : gmap string string;
  QueryStringParameters : gmap string string }.

(** The body of a response: a literal text, or the JSON encoding of a
    [WeatherHistoryResponse]. *)
Inductive ResponseBody : Type :=
| Text (s : string)
| JSON (r : WeatherHistoryResponse).

Record APIGatewayProxyResponse : Type := mkProxyResponse {
  resp_StatusCode : Z;
  resp_Headers : gmap string string;
  resp_Body : ResponseBody }.

(** [json.Marshal] of the response: it fails on the first record of the
    data it cannot encode. *)
Definition json_Marshal (r : WeatherHistoryResponse) : error + ResponseBody :=
  match list_find (fun rec => bool_decide (is_Some (json_unsupported rec))) (Data r) with
  | Some (_, rec) => inl (default EmptyString (json_unsupported rec))
  | None => inr (JSON r)
  end.

Definition cors_headers : gmap string string :=
  {[ "Access-Control-Allow-Origin" := "*";
     "Access-Control-Allow-Headers" :=
       "Content-Type,X-Amz-Date,Authorization,X-Api-Key,X-Amz-Security-Token";
     "Access-Control-Allow-Methods" := "GET,OPTIONS";
     "Content-Type" := "application/json" ]}.

(** The double quote character, as a one-character text. *)
Definition quote : string := String (ascii_of_nat 34) EmptyString.

Definition error_response (status : Z) (message : string) : APIGatewayProxyResponse :=
  mkProxyResponse status cors_headers
    (Text ("{" ++ quote ++ "error" ++ quote ++ ": " ++ quote ++ message ++ quote ++ "}")).

(** What every accepting case of the [switch period] does: the window
    ends now and starts the (negative) duration [d] earlier. *)
Definition query_window (h : Handler) (city : string) (d : Z)
    : M ((error + list WeatherRecord.t) * time.Time * time.Time) :=
  endTime ← time_Now;
  let startTime := time.Add endTime d in
  res ← handlers.GetWeatherHistory (dynamoHandler h) city startTime endTime;
  mret (res, startTime, endTime).

(** The [switch period] of [HandleRequest]: the records and the time
    window, or the response of the rejecting branch. *)
Definition query_period (h : Handler) (period city : string)
    : M (APIGatewayProxyResponse
         + (error + list WeatherRecord.t) * time.Time * time.Time) :=
  let rejected :=
    error_response http.StatusBadRequest
      "Invalid period. Use '6h', '24h', or number of hours (1-168)" in
  if String.eqb period "6h" then inr <$> query_window h city (-6 * time.Hour)
  else if String.eqb period "24h" || String.eqb period "1d" then
    inr <$> query_window h city (-24 * time.Hour)
  else
    match strconv.Atoi period with
    | Some hours =>
      if (0 <? hours) && (hours <=? 168)
      then inr <$> query_window h city (time.mul (time.neg hours) time.Hour)
      else mret (inl rejected)
    | None => mret (inl rejected)
    end.

Definition HandleRequest (h : Handler) (request : APIGatewayProxyRequest)
    : M APIGatewayProxyResponse :=
  let headers := cors_headers in
  if String.eqb (HTTPMethod request) "OPTIONS" then
    mret (mkProxyResponse http.StatusOK headers (Text EmptyString))
  else if negb (String.eqb (HTTPMethod request) "GET") then
    mret (error_response http.StatusMethodNotAllowed "Method not allowed")
  else if String.eqb (Headers request !!! "X-API-Key") EmptyString
          && String.eqb (Headers request !!! "x-api-key") EmptyString then
    log_Printf "Missing API key in request" [];;
    mret (error_response http.StatusUnauthorized "API key required")
  else
    let period := QueryStringParameters request !!! "period" in
    let period := if String.eqb period EmptyString then "6h" else period in
    if negb (isValidPeriod period) then
      mret (error_response http.StatusBadRequest "Invalid period parameter")
    else
      let city := QueryStringParameters request !!! "city" in
      let city :=
        if String.eqb city EmptyString then config.CityName (config.Weather (config h))
        else city in
      let city := sanitizeCityName city in
      queried ← query_period h period city;
      match queried with
      | inl rejected => mret rejected
      | inr (inl err, _, _) =>
        log_Printf "Error getting weather history: %v" [AStr err];;
        mret (error_response http.StatusInternalServerError
                "Failed to retrieve weather history")
      | inr (inr records, startTime, endTime) =>
        let response := {|
          StatusCode := http.StatusOK;
          Message := "Weather history retrieved successfully";
          Data := records;
          Count := Z.of_nat (length records);
          Period := period;
          StartTime := time.Format startTime time.RFC3339;
          EndTime := time.Format endTime time.RFC3339 |} in
        match json_Marshal response with
        | inl err =>
          log_Printf "Error marshaling response: %v" [AStr err];;
          mret (error_response http.StatusInternalServerError
                  "Failed to create response")
        | inr responseBody => mret (mkProxyResponse http.StatusOK headers responseBody)
        end
      end.

End WithLibraries.
End weather_history_api.

(** ** [internal/handlers]: the readers of the table store *)

(** The read operations of the DynamoDB client and what they exchange. *)
Module dynamodbiface.

Module GetItemInput.
Record t : Type := mk {
  TableName : string;
  Key : dynamodb.Item }.
End GetItemInput.

(** [Item] is nil when the table holds no item with the key. *)
Module GetItemOutput.
Record t : Type := mk { Item : option dynamodb.Item }.
End GetItemOutput.

(** The input of a single [Scan]: the fields of [dynamodb.ScanInput] and
    the optional [Limit]. *)
Module ScanInput.
Record t : Type := mk {
  Input : dynamodb.ScanInput;
  Limit : option Z }.
End ScanInput.

Module QueryInput.
Record t : Type := mk {
  TableName : string;
  KeyConditionExpression : string;
  ExpressionAttributeNames : gmap string string;
  ExpressionAttributeValues : gmap string dynamodb.AttributeValue;
  ScanIndexForward : bool;
  Limit : option Z }.
End QueryInput.

Module QueryOutput.
Record t : Type := mk { Items : list dynamodb.Item }.
End QueryOutput.

(** What the service answers to a paginated query: the pages it delivers
    and, possibly, the error that ends the iteration after them. *)
Module QueryResult.
Record t : Type := mk {
  pages : list QueryOutput.t;
  failure : option error }.
End QueryResult.

(** The service behind a client, for the operations that read. *)
Record DynamoDBAPI : Type := mkDynamoDBAPI {
  GetItem : GetItemInput.t -> error + GetItemOutput.t;
  Scan : ScanInput.t -> error + dynamodb.ScanOutput;
  Query : QueryInput.t -> error + QueryOutput.t;
  query_answer : QueryInput.t -> QueryResult.t }.

(** [QueryPagesWithContext]: as for the paginated scan, the callback sees
    every page the service delivers, with [lastPage] set on the final one,
    until it returns false. *)
Fixpoint each_page {S} (fn : QueryOutput.t -> bool -> S -> S * bool)
    (ps : list QueryOutput.t) (failed : bool) (acc : S) : S :=
  match ps with
  | [] => acc
  | p :: rest =>
    let lastPage := match rest with [] => negb failed | _ => false end in
    let '(acc', continue) := fn p lastPage acc in
    if continue then each_page fn rest failed acc' else acc'
  end.

Definition QueryPagesWithContext {S} (c : DynamoDBAPI) (input : QueryInput.t)
    (fn : QueryOutput.t -> bool -> S -> S * bool) (acc : S) : S * option error :=
  let answer := query_answer c input in
  (each_page fn (QueryResult.pages answer)
             (bool_decide (is_Some (QueryResult.failure answer))) acc,
   QueryResult.failure answer).

End dynamodbiface.

(** The readers change nothing in the world of an invocation: they are
    functions of what the service answers. *)
Module readers.
Import models dynamodbiface.

Section WithLibraries.
Context `{!time.Formatter, !Codec}.
Context (api : DynamoDBAPI).

(** [GetWeatherRecord] retrieves a weather record from DynamoDB. *)
Definition GetWeatherRecord (h : handlers.DynamoDBHandler) (id timestamp : string)
    : error + WeatherRecord.t :=
  match GetItem api {|
          GetItemInput.TableName := handlers.tableName h;
          GetItemInput.Key := {[ "id" := dynamodb.AttrS id;
                                 "timestamp" := dynamodb.AttrS timestamp ]} |} with
  | inl err => inl (Errorf "failed to get item from DynamoDB: " err)
  | inr result =>
    match GetItemOutput.Item result with
    | None => inl "weather record not found"
    | Some item =>
      match UnmarshalMap item with
      | inl err => inl (Errorf "failed to unmarshal weather record: " err)
      | inr record => inr record
      end
    end
  end.

(** [QueryWeatherRecordsByCity] queries weather records by city name,
    with a scan of the table.  Its loop over the items is the one of the
    callback of [GetWeatherHistory]: the items that unmarshal are appended,
    the others skipped. *)
Definition QueryWeatherRecordsByCity (h : handlers.DynamoDBHandler)
    (cityName : string) (limit : Z) : error + list WeatherRecord.t :=
  let input := {|
    ScanInput.Input := {|
      dynamodb.TableName := handlers.tableName h;
      dynamodb.FilterExpression := "cityName = :city";
      dynamodb.ExpressionAttributeNames := ∅;
      dynamodb.ExpressionAttributeValues := {[ ":city" := dynamodb.AttrS cityName ]} |};
    ScanInput.Limit := if 0 <? limit then Some limit else None |} in
  match Scan api input with
  | inl err => inl (Errorf "failed to scan DynamoDB table: " err)
  | inr result => inr (handlers.collect_items (dynamodb.Items result) [])
  end.

(** [QueryRecentWeatherRecords] queries the records of an identifier,
    most recent first. *)
Definition QueryRecentWeatherRecords (h : handlers.DynamoDBHandler)
    (id : string) (limit : Z) : error + list WeatherRecord.t :=
  let input := {|
    QueryInput.TableName := handlers.tableName h;
    QueryInput.KeyConditionExpression := "id = :id";
    QueryInput.ExpressionAttributeNames := ∅;
    QueryInput.ExpressionAttributeValues := {[ ":id" := dynamodb.AttrS id ]};
    QueryInput.ScanIndexForward := false;
    QueryInput.Limit := if 0 <? limit then Some limit else None |} in
  match Query api input with
  | inl err => inl (Errorf "failed to query DynamoDB table: " err)
  | inr result => inr (handlers.collect_items (QueryOutput.Items result) [])
  end.

Definition collect_page (page : QueryOutput.t) (lastPage : bool)
    (records : list WeatherRecord.t) : list WeatherRecord.t * bool :=
  (handlers.collect_items (QueryOutput.Items page) records, negb lastPage).

(** The query [GetWeatherHistoryByCityID] issues: the items of one
    identifier within the inclusive range of timestamps, oldest first. *)
Definition history_query_input (h : handlers.DynamoDBHandler) (cityID : string)
    (startTimeStr endTimeStr : string) : QueryInput.t := {|
  QueryInput.TableName := handlers.tableName h;
  QueryInput.KeyConditionExpression := "id = :id AND #ts BETWEEN :start AND :end";
  QueryInput.ExpressionAttributeNames := {[ "#ts" := "timestamp" ]};
  QueryInput.ExpressionAttributeValues :=
    {[ ":id" := dynamodb.AttrS cityID;
       ":start" := dynamodb.AttrS startTimeStr;
       ":end" := dynamodb.AttrS endTimeStr ]};
  QueryInput.ScanIndexForward := true;
  QueryInput.Limit := None |}.

(** [GetWeatherHistoryByCityID] retrieves weather records for a specific
    city ID within a time range. *)
Definition GetWeatherHistoryByCityID (h : handlers.DynamoDBHandler) (cityID : string)
    (startTime endTime : time.Time) : error + list WeatherRecord.t :=
  let startTimeStr := time.Format startTime time.RFC3339 in
  let endTimeStr := time.Format endTime time.RFC3339 in
  let input := history_query_input h cityID startTimeStr endTimeStr in
  let '(records, err) := QueryPagesWithContext api input collect_page [] in
  match err with
  | Some err => inl (Errorf "failed to query weather history: " err)
  | None => inr records
  end.

End WithLibraries.
End readers.

(** ** The history endpoint before its input checks (the earlier
    [main.go] of [weather-history-api]) *)

Module weather_history_api_v1.
Import models weather_history_api.

Section WithLibraries.
Context `{!time.Formatter, !Sorter, !Codec}.

(** [HandleRequest] of the earlier program: the same types, headers and
    [switch period], without the check for an API key, the validation of
    the period and the sanitization of the city. *)
Definition HandleRequest (h : Handler) (request : APIGatewayProxyRequest)
    : M APIGatewayProxyResponse :=
  let headers := cors_headers in
  if String.eqb (HTTPMethod request) "OPTIONS" then
    mret (mkProxyResponse http.StatusOK headers (Text EmptyString))
  else if negb (String.eqb (HTTPMethod request) "GET") then
    mret (error_response http.StatusMethodNotAllowed "Method not allowed")
  else
    let period := QueryStringParameters request !!! "period" in
    let period := if String.eqb period EmptyString then "6h" else period in
    let city := QueryStringParameters request !!! "city" in
    let city :=
      if String.eqb city EmptyString then config.CityName (config.Weather (config h))
      else city in
    queried ← query_period h period city;
    match queried with
    | inl rejected => mret rejected
    | inr (inl err, _, _) =>
      log_Printf "Error getting weather history: %v" [AStr err];;
      mret (error_response http.StatusInternalServerError
              "Failed to retrieve weather history")
    | inr (inr records, startTime, endTime) =>
      let response := {|
        StatusCode := http.StatusOK;
        Message := "Weather history retrieved successfully";
        Data := records;
        Count := Z.of_nat (length records);
        Period := period;
        StartTime := time.Format startTime time.RFC3339;
        EndTime := time.Format endTime time.RFC3339 |} in
      match json_Marshal response with
      | inl err =>
        log_Printf "Error marshaling response: %v" [AStr err];;
        mret (error_response http.StatusInternalServerError
                "Failed to create response")
      | inr responseBody => mret (mkProxyResponse http.StatusOK headers responseBody)
      end
    end.

End WithLibraries.
End weather_history_api_v1.

(** ** The constructors *)

(** A session gives the clients of the two stores ([dynamodb.New] and
    [s3.New]). *)
Module session.
Record Session : Type := mkSession {
  dynamodb_New : dynamodb.DynamoDB;
  s3_New : s3.S3 }.
End session.

(** What a process finds when it starts: the outcome of [config.Load],
    the outcome of [session.NewSession] for each region, and the network
    its HTTP clients reach. *)
Record Startup : Type := mkStartup {
  config_Load : error + config.Config;
  session_NewSession : string -> error + session.Session;
  http_network : http.Client }.

Module startup.

Section WithStartup.
Context (env : Startup).

(** [NewWeatherService] creates a new weather service. *)
Definition NewWeatherService (cfg : config.Config) : services.WeatherService :=
  services.mkWeatherService cfg (http_network env).

(** [NewS3Handler] creates a new S3 handler. *)
Definition NewS3Handler (cfg : config.Config) (sess : session.Session)
    : handlers.S3Handler :=
  handlers.mkS3Handler (session.s3_New sess) (config.S3Bucket (config.AWS cfg)).

(** [NewDynamoDBHandler] creates a new DynamoDB handler, on the first of
    the sessions it is given if that is not nil, on a session of its own
    otherwise. *)
Definition NewDynamoDBHandler (cfg : config.Config)
    (sess : list (option session.Session)) : error + handlers.DynamoDBHandler :=
  let created :=
    match sess with
    | Some sess0 :: _ => inr sess0
    | _ =>
      match session_NewSession env (config.Region (config.AWS cfg)) with
      | inl err => inl (Errorf "failed to create AWS session: " err)
      | inr sess_client => inr sess_client
      end
    end in
  match created with
  | inl err => inl err
  | inr sess_client =>
    inr (handlers.mkDynamoDBHandler (session.dynamodb_New sess_client)
           (config.DynamoDBTable (config.AWS cfg)))
  end.

(** [NewHandler] of the collector. *)
Definition lambda_NewHandler : error + weather_lambda.Handler :=
  match config_Load env with
  | inl err => inl (Errorf "failed to load configuration: " err)
  | inr cfg =>
    if String.eqb (config.APIKey (config.Weather cfg)) EmptyString then
      inl "WEATHER_API_KEY environment variable is required"
    else if String.eqb (config.S3Bucket (config.AWS cfg)) EmptyString then
      inl "S3_BUCKET environment variable is required"
    else if String.eqb (config.DynamoDBTable (config.AWS cfg)) EmptyString then
      inl "DYNAMODB_TABLE environment variable is required"
    else
      match session_NewSession env (config.Region (config.AWS cfg)) with
      | inl err => inl (Errorf "failed to create AWS session: " err)
      | inr sess =>
        let weatherService := NewWeatherService cfg in
        let s3Handler := NewS3Handler cfg sess in
        match NewDynamoDBHandler cfg [Some sess] with
        | inl err => inl (Errorf "failed to create DynamoDB handler: " err)
        | inr dynamoDBHandler =>
          inr (weather_lambda.mkHandler weatherService s3Handler dynamoDBHandler cfg)
        end
      end
  end.

(** [NewHandler] of the history endpoint. *)
Definition history_NewHandler : error + weather_history_api.Handler :=
  match config_Load env with
  | inl err => inl err
  | inr cfg =>
    match NewDynamoDBHandler cfg [] with
    | inl err => inl err
    | inr dynamoHandler => inr (weather_history_api.mkHandler dynamoHandler cfg)
    end
  end.

End WithStartup.
End startup.

(** ** Concrete libraries

    [sort.Slice] sorts a slice of at most 12 elements by insertion
    ([insertionSortLessFunc]): each element in turn is swapped towards the
    front while it is less than its predecessor. *)

Module sort.

(** The inner loop, on the already sorted prefix held in reverse. *)
Fixpoint insert_back {A} (less : A -> A -> bool) (x : A) (rev_prefix : list A)
    : list A :=
  match rev_prefix with
  | [] => [x]
  | y :: ys => if less x y then y :: insert_back less x ys else x :: y :: ys
  end.

Definition insertionSort {A} (less : A -> A -> bool) (data : list A) : list A :=
  rev (fold_left (fun rev_prefix x => insert_back less x rev_prefix) data []).

End sort.

Lemma insert_back_perm {A} (less : A -> A -> bool) (x : A) (l : list A) :
  Permutation (sort.insert_back less x l) (x :: l).
Proof.
  induction l as [|y l IH]; simpl; [reflexivity|].
  destruct (less x y); [|reflexivity].
  rewrite IH. apply perm_swap.
Qed.

Lemma insertion_fold_perm {A} (less : A -> A -> bool) (l acc : list A) :
  Permutation (fold_left (fun p x => sort.insert_back less x p) l acc) (l ++ acc)%list.
Proof.
  revert acc. induction l as [|x l IH]; intros acc; simpl; [reflexivity|].
  rewrite IH, insert_back_perm. now rewrite Permutation_middle.
Qed.

Lemma insertionSort_perm {A} (less : A -> A -> bool) (l : list A) :
  Permutation (sort.insertionSort less l) l.
Proof.
  unfold sort.insertionSort. rewrite <- Permutation_rev, insertion_fold_perm.
  now rewrite app_nil_r.
Qed.

Section InsertionSorted.
Context {A} (less : A -> A -> bool) (Hless : StrictWeakOrder less).

(** The prefix in reverse is sorted downwards. *)
Let down (a b : A) : Prop := less a b = false.

Lemma less_asym (a b : A) : less a b = true -> less b a = false.
Proof.
  intros Hab. destruct (less b a) eqn:Hba; [|reflexivity].
  pose proof (swo_trans less Hless _ _ _ Hab Hba) as Haa.
  now rewrite (swo_irrefl less Hless) in Haa.
Qed.

Lemma insert_back_sorted (x : A) (l : list A) :
  StronglySorted down l -> StronglySorted down (sort.insert_back less x l).
Proof.
  induction 1 as [|y l Hl IH Hy]; simpl.
  - repeat constructor.
  - destruct (less x y) eqn:Hxy.
    + constructor; [exact IH|].
      rewrite Forall_forall in Hy |- *. intros z Hz.
      rewrite (insert_back_perm less x l) in Hz.
      apply elem_of_cons in Hz as [->|Hz]; [now apply less_asym | now apply Hy].
    + constructor; [now constructor|].
      constructor; [exact Hxy|].
      rewrite Forall_forall in Hy |- *. intros z Hz.
      exact (swo_incomp less Hless _ _ _ Hxy (Hy z Hz)).
Qed.

Lemma insertion_fold_sorted (l acc : list A) :
  StronglySorted down acc ->
  StronglySorted down (fold_left (fun p x => sort.insert_back less x p) l acc).
Proof.
  revert acc. induction l as [|x l IH]; intros acc Hacc; simpl; [exact Hacc|].
  apply IH. now apply insert_back_sorted.
Qed.

Lemma rev_sorted (l : list A) :
  StronglySorted down l -> StronglySorted (fun a b => less b a = false) (rev l).
Proof.
  induction 1 as [|y l Hl IH Hy]; simpl; [constructor|].
  apply StronglySorted_app_2; [|exact IH|repeat constructor].
  intros x1 x2 Hx1 Hx2. apply list_elem_of_singleton in Hx2 as ->.
  rewrite Forall_forall in Hy. apply Hy.
  apply list_elem_of_In in Hx1. apply list_elem_of_In. now apply in_rev.
Qed.

Lemma insertionSort_sorted (l : list A) :
  StronglySorted (fun a b => less b a = false) (sort.insertionSort less l).
Proof.
  unfold sort.insertionSort. apply rev_sorted, insertion_fold_sorted. constructor.
Qed.

End InsertionSorted.

Definition insertion_Sorter : Sorter := {|
  sort_Slice := @sort.insertionSort;
  sort_Slice_perm := @insertionSort_perm;
  sort_Slice_sorted := fun A less l Hless => insertionSort_sorted less Hless l |}.

(** ** A sample runtime

    Stand-ins for the abstract library functions, used to run the handlers
    on concrete inputs: a formatter for a process whose zone is UTC, the
    verb [%.2f], and a codec that covers the attribute maps and the
    provider documents of the examples. *)

Module Sample.
Import models.

(** The civil date of a day count from the Unix epoch (proleptic
    Gregorian calendar). *)
Definition civil_from_days (days : Z) : Z * Z * Z :=
  let z := days + 719468 in
  let era := z / 146097 in
  let doe := z - era * 146097 in
  let yoe := (doe - doe / 1460 + doe / 36524 - doe / 146096) / 365 in
  let doy := doe - (365 * yoe + yoe / 4 - yoe / 100) in
  let mp := (5 * doy + 2) / 153 in
  let d := doy - (153 * mp + 2) / 5 + 1 in
  let m := if mp <? 10 then mp + 3 else mp - 9 in
  let y := yoe + era * 400 + (if m <=? 2 then 1 else 0) in
  (y, m, d).

Fixpoint zeros (n : nat) : string :=
  match n with O => EmptyString | S n' => String "0" (zeros n') end.

(** A non-negative number in decimal, padded with zeros to [width]. *)
Definition pad (width : nat) (n : Z) : string :=
  let s := strconv.Itoa n in
  zeros (width - String.length s) ++ s.

Definition utc_Format (t : time.Time) (layout : string) : string :=
  let days := time.sec t / 86400 in
  let secs := time.sec t mod 86400 in
  let '(y, m, d) := civil_from_days days in
  if String.eqb layout time.RFC3339 then
    pad 4 y ++ "-" ++ pad 2 m ++ "-" ++ pad 2 d ++ "T" ++ pad 2 (secs / 3600)
    ++ ":" ++ pad 2 (secs mod 3600 / 60) ++ ":" ++ pad 2 (secs mod 60) ++ "Z"
  else if String.eqb layout "2006" then pad 4 y
  else if String.eqb layout "01-02" then pad 2 m ++ "-" ++ pad 2 d
  else layout.

#[local] Instance utc_Formatter : time.Formatter := {| time.Format := utc_Format |}.

(** Rounding of [num / den] to the nearest integer, ties to even. *)
Definition round_half_even (num den : Z) : Z :=
  let q := num / den in
  let r := num mod den in
  if 2 * r <? den then q
  else if den <? 2 * r then q + 1
  else if Z.even q then q else q + 1.

Definition sprintf_2f (f : float) : string :=
  match FloatOps.Prim2SF f with
  | SpecFloat.S754_nan => "NaN"
  | SpecFloat.S754_infinity s => if s then "-Inf" else "+Inf"
  | SpecFloat.S754_zero s => if s then "-0.00" else "0.00"
  | SpecFloat.S754_finite s m e =>
    let n := if 0 <=? e then Z.pos m * 2 ^ e * 100
             else round_half_even (Z.pos m * 100) (2 ^ (- e)) in
    (if s then "-" else EmptyString)
    ++ strconv.Itoa (n / 100) ++ "." ++ pad 2 (n mod 100)
  end.

(** A short decimal numeral: an optional minus sign, digits, and
    optionally a point and more digits. *)
Fixpoint split_point (s : list ascii) : list ascii * option (list ascii) :=
  match s with
  | [] => ([], None)
  | c :: s' =>
    if Ascii.eqb c "." then ([], Some s')
    else let '(int_part, frac) := split_point s' in (c :: int_part, frac)
  end.

Definition float_of_Z (z : Z) : float := PrimFloat.of_uint63 (Uint63.of_Z z).

Definition parse_float (s : string) : option float :=
  let '(negative, body) :=
    match list_ascii_of_string s with
    | c :: rest => if Ascii.eqb c "-" then (true, rest) else (false, c :: rest)
    | [] => (false, [])
    end in
  let '(int_part, frac) := split_point body in
  let frac := default [] frac in
  match int_part, strconv.digits 0 (int_part ++ frac)%list with
  | _ :: _, Some mantissa =>
    let v := (float_of_Z mantissa / float_of_Z (10 ^ Z.of_nat (length frac)))%float in
    Some (if negative then (- v)%float else v)
  | _, _ => None
  end.

Definition attr_string (item : dynamodb.Item) (key : string) : error + string :=
  match item !! key with
  | None => inr EmptyString
  | Some (dynamodb.AttrS s) => inr s
  | Some _ => inl ("cannot unmarshal attribute " ++ key ++ " into a string")
  end.

Definition attr_int (item : dynamodb.Item) (key : string) : error + Z :=
  match item !! key with
  | None => inr 0
  | Some (dynamodb.AttrN n) =>
    match strconv.Atoi n with
    | Some z => inr z
    | None => inl ("cannot unmarshal attribute " ++ key ++ " into an int")
    end
  | Some _ => inl ("cannot unmarshal attribute " ++ key ++ " into an int")
  end.

Definition attr_float (item : dynamodb.Item) (key : string) : error + float :=
  match item !! key with
  | None => inr 0%float
  | Some (dynamodb.AttrN n) =>
    match parse_float n with
    | Some f => inr f
    | None => inl ("cannot unmarshal attribute " ++ key ++ " into a float64")
    end
  | Some _ => inl ("cannot unmarshal attribute " ++ key ++ " into a float64")
  end.

Definition and_then {A B} (x : error + A) (k : A -> error + B) : error + B :=
  match x with inl err => inl err | inr a => k a end.

Definition unmarshal_map (item : dynamodb.Item) : error + WeatherRecord.t :=
  and_then (attr_string item "id") (fun id =>
  and_then (attr_string item "timestamp") (fun ts =>
  and_then (attr_string item "cityName") (fun city =>
  and_then (attr_float item "temperature") (fun temp =>
  and_then (attr_string item "description") (fun desc =>
  and_then (attr_int item "humidity") (fun hum =>
  and_then (attr_int item "pressure") (fun pres =>
  and_then (attr_float item "windSpeed") (fun wind =>
  and_then (attr_string item "country") (fun country =>
  and_then (attr_int item "createdAt") (fun created =>
  and_then (attr_int item "ttl") (fun ttl =>
  inr (WeatherRecord.mk id ts city temp desc hum pres wind country
                        (time.mkTime created 0) ttl)))))))))))).

Definition marshal_map (r : WeatherRecord.t) : error + dynamodb.Item :=
  inr (list_to_map
    [("id", dynamodb.AttrS (WeatherRecord.ID r));
     ("timestamp", dynamodb.AttrS (WeatherRecord.Timestamp r));
     ("cityName", dynamodb.AttrS (WeatherRecord.CityName r));
     ("temperature", dynamodb.AttrN (sprintf_2f (WeatherRecord.Temperature r)));
     ("description", dynamodb.AttrS (WeatherRecord.Description r));
     ("humidity", dynamodb.AttrN (strconv.Itoa (WeatherRecord.Humidity r)));
     ("pressure", dynamodb.AttrN (strconv.Itoa (WeatherRecord.Pressure r)));
     ("windSpeed", dynamodb.AttrN (sprintf_2f (WeatherRecord.WindSpeed r)));
     ("country", dynamodb.AttrS (WeatherRecord.Country r));
     ("createdAt",
      dynamodb.AttrN (strconv.Itoa (time.Unix (WeatherRecord.CreatedAt r))));
     ("ttl", dynamodb.AttrN (strconv.Itoa (WeatherRecord.TTL r)))]).

(** The reading of the repository's unit test. *)
Definition tokyo_reading : WeatherResponse.t := {|
  WeatherResponse.Name := "Tokyo";
  WeatherResponse.Coord := Coord.mk 0 0;
  WeatherResponse.Main := Main.mk 25.5 0 0 0 1013 60;
  WeatherResponse.Weather := [Weather.mk 0 EmptyString "Clear sky" EmptyString];
  WeatherResponse.Wind := Wind.mk 3.5 0;
  WeatherResponse.Clouds := Clouds.mk 0;
  WeatherResponse.Sys := Sys.mk "JP" 0 0;
  WeatherResponse.Dt := 0 |}.

(** The same reading with an empty condition list. *)
Definition tokyo_no_conditions : WeatherResponse.t := {|
  WeatherResponse.Name := "Tokyo";
  WeatherResponse.Coord := Coord.mk 0 0;
  WeatherResponse.Main := Main.mk 25.5 0 0 0 1013 60;
  WeatherResponse.Weather := [];
  WeatherResponse.Wind := Wind.mk 3.5 0;
  WeatherResponse.Clouds := Clouds.mk 0;
  WeatherResponse.Sys := Sys.mk "JP" 0 0;
  WeatherResponse.Dt := 0 |}.

Definition quoted (s : string) : string :=
  String (ascii_of_nat 34) EmptyString ++ s ++ String (ascii_of_nat 34) EmptyString.

Definition tokyo_document : string :=
  "{" ++ quoted "name" ++ ":" ++ quoted "Tokyo" ++ ","
  ++ quoted "main" ++ ":{" ++ quoted "temp" ++ ":25.5,"
  ++ quoted "pressure" ++ ":1013," ++ quoted "humidity" ++ ":60},"
  ++ quoted "weather" ++ ":[{" ++ quoted "description" ++ ":"
  ++ quoted "Clear sky" ++ "}],"
  ++ quoted "wind" ++ ":{" ++ quoted "speed" ++ ":3.5},"
  ++ quoted "sys" ++ ":{" ++ quoted "country" ++ ":" ++ quoted "JP" ++ "}}".

Definition tokyo_no_conditions_document : string :=
  "{" ++ quoted "name" ++ ":" ++ quoted "Tokyo" ++ ","
  ++ quoted "main" ++ ":{" ++ quoted "temp" ++ ":25.5,"
  ++ quoted "pressure" ++ ":1013," ++ quoted "humidity" ++ ":60},"
  ++ quoted "weather" ++ ":[],"
  ++ quoted "wind" ++ ":{" ++ quoted "speed" ++ ":3.5},"
  ++ quoted "sys" ++ ":{" ++ quoted "country" ++ ":" ++ quoted "JP" ++ "}}".

Definition unmarshal_document (body : string) : error + WeatherResponse.t :=
  if String.eqb body tokyo_document then inr tokyo_reading
  else if String.eqb body tokyo_no_conditions_document then inr tokyo_no_conditions
  else inl "unexpected end of JSON input".

Definition marshal_document (data : S3WeatherData.t) : error + string :=
  inr ("{" ++ quoted "id" ++ ": "
       ++ quoted (WeatherRecord.ID (S3WeatherData.WeatherRecord data)) ++ "}").

Definition unsupported (r : WeatherRecord.t) : option error :=
  if PrimFloat.is_finite (WeatherRecord.Temperature r)
     && PrimFloat.is_finite (WeatherRecord.WindSpeed r)
  then None else Some "json: unsupported value".

Fixpoint encode_query (params : list (string * string)) : string :=
  match params with
  | [] => EmptyString
  | [(k, v)] => k ++ "=" ++ v
  | (k, v) :: rest => k ++ "=" ++ v ++ "&" ++ encode_query rest
  end.

Definition with_query (base : string) (params : list (string * string))
    : error + string :=
  if String.eqb base EmptyString then inl "empty url"
  else inr (base ++ "?" ++ encode_query params).

#[local] Instance codec : Codec := {|
  MarshalMap := marshal_map;
  UnmarshalMap := unmarshal_map;
  json_Unmarshal := unmarshal_document;
  json_MarshalIndent := marshal_document;
  json_unsupported := unsupported;
  url_with_query := with_query;
  Sprintf_2f := sprintf_2f |}.

End Sample.

(** ** Sample deployments *)

Module Scenario.
Import models.

#[local] Existing Instance Sample.utc_Formatter.
#[local] Existing Instance insertion_Sorter.
#[local] Existing Instance Sample.codec.

(** Invocations start at 2023-11-14T22:13:20Z; every reading of the clock
    is a second later than the one before. *)
Definition world0 : World :=
  mkWorld (fun n => time.mkTime (1700000000 + Z.of_nat n) 0) 0 [] [] [] [].

Definition cfg : config.Config :=
  config.mk (config.mkWeather "secret" "https://api.openweathermap.org/data/2.5/weather" "Tokyo")
            (config.mkAWS "ap-northeast-1" "weather-bucket" "weather").

(** A table whose scans deliver the given pages, and whose puts succeed. *)
Definition table_of (ps : list dynamodb.ScanOutput) : dynamodb.DynamoDB :=
  dynamodb.mkDynamoDB (fun _ => dynamodb.mkScanResult ps None) (fun _ => None).

Definition history_handler (ps : list dynamodb.ScanOutput) : handlers.DynamoDBHandler :=
  handlers.mkDynamoDBHandler (table_of ps) "weather".

Definition item (id ts : string) : dynamodb.Item :=
  {[ "id" := dynamodb.AttrS id;
     "timestamp" := dynamodb.AttrS ts;
     "cityName" := dynamodb.AttrS "Tokyo";
     "temperature" := dynamodb.AttrN "25.5" ]}.

(** An item whose humidity is a text: it does not unmarshal. *)
Definition malformed : dynamodb.Item :=
  {[ "id" := dynamodb.AttrS "Tokyo-3";
     "humidity" := dynamodb.AttrS "sixty" ]}.

Definition record (id ts : string) : WeatherRecord.t :=
  WeatherRecord.mk id ts "Tokyo" 25.5 EmptyString 0 0 0 EmptyString (time.mkTime 0 0) 0.

(** The history of Tokyo over the six hours before the start of
    [world0], read from a table delivering the pages [ps]. *)
Definition history (ps : list dynamodb.ScanOutput)
    : Result (error + list WeatherRecord.t) :=
  fst (handlers.GetWeatherHistory (history_handler ps) "Tokyo"
         (time.mkTime (1700000000 - 21600) 0) (time.mkTime 1700000000 0) world0).

(** The history endpoint over such a table. *)
Definition api (ps : list dynamodb.ScanOutput) : weather_history_api.Handler :=
  weather_history_api.mkHandler (history_handler ps) cfg.

Definition get (headers params : list (string * string))
    : weather_history_api.APIGatewayProxyRequest :=
  weather_history_api.mkRequest "GET" (list_to_map headers) (list_to_map params).

Definition serve (ps : list dynamodb.ScanOutput)
    (request : weather_history_api.APIGatewayProxyRequest)
    : Result weather_history_api.APIGatewayProxyResponse :=
  fst (weather_history_api.HandleRequest (api ps) request world0).

(** The collector against a provider answering with [document], a table
    and a bucket whose puts fail with the given errors, if any. *)
Definition collector (document : string) (table_error bucket_error : option error)
    : weather_lambda.Handler :=
  weather_lambda.mkHandler
    (services.mkWeatherService cfg
       (http.mkClient (fun _ => inr (http.mkResponse 200 document None))))
    (handlers.mkS3Handler (s3.mkS3 (fun _ => bucket_error)) "weather-bucket")
    (handlers.mkDynamoDBHandler
       (dynamodb.mkDynamoDB (fun _ => dynamodb.mkScanResult [] None)
                            (fun _ => table_error)) "weather")
    cfg.

Definition collect (document : string) (table_error bucket_error : option error)
    : Result weather_lambda.Response * World :=
  weather_lambda.HandleRequest (collector document table_error bucket_error)
    (weather_lambda.mkEvent EmptyString) world0.

Definition convert (response : WeatherResponse.t) : Result WeatherRecord.t * World :=
  services.ConvertToWeatherRecord
    (services.mkWeatherService cfg (http.mkClient (fun _ => inl "offline")))
    response world0.

End Scenario.


(** * Properties *)

(** ** Bytes and the decoder *)

Lemma byte_range (c : ascii) : 0 <= utf8.byte c < 256.
Proof.
  unfold utf8.byte. pose proof (N_ascii_bounded c). lia.
Qed.

Lemma byte_inj (c d : ascii) : utf8.byte c = utf8.byte d -> c = d.
Proof.
  unfold utf8.byte. intros Heq.
  rewrite <- (ascii_N_embedding c), <- (ascii_N_embedding d).
  f_equal. lia.
Qed.

Lemma lor_bounds (a b : Z) : 0 <= a -> 0 <= b -> a <= Z.lor a b /\ b <= Z.lor a b.
Proof.
  intros Ha Hb. split.
  - pose proof (Z.sub_lor_l_same_l b a) as Hsub.
    assert (0 <= Z.land b (Z.lnot a)) by (apply Z.land_nonneg; lia). lia.
  - pose proof (Z.sub_lor_l_same_r a b) as Hsub.
    assert (0 <= Z.land a (Z.lnot b)) by (apply Z.land_nonneg; lia). lia.
Qed.

Lemma land_mask (b : Z) (k : Z) : 0 <= k -> Z.land b (Z.ones k) = b mod 2 ^ k.
Proof. intros. now apply Z.land_ones. Qed.

Lemma rune2_ge (b0 b1 : Z) : 194 <= b0 <= 223 -> 128 <= utf8.rune2 b0 b1.
Proof.
  intros Hb0. unfold utf8.rune2, utf8.mask2, utf8.maskx.
  change 31 with (Z.ones 5). change 63 with (Z.ones 6).
  rewrite !land_mask, Z.shiftl_mul_pow2 by lia.
  pose proof (Z.mod_pos_bound b1 (2 ^ 6) ltac:(lia)).
  assert (2 <= b0 mod 2 ^ 5) by (change (2 ^ 5) with 32; Z.div_mod_to_equations; lia).
  pose proof (lor_bounds (b0 mod 2 ^ 5 * 2 ^ 6) (b1 mod 2 ^ 6) ltac:(lia) ltac:(lia)).
  lia.
Qed.

Lemma rune3_ge (b0 b1 b2 : Z) :
  (b0 = 224 /\ 160 <= b1 <= 191) \/ 225 <= b0 <= 239 ->
  128 <= utf8.rune3 b0 b1 b2.
Proof.
  intros Hb. unfold utf8.rune3, utf8.mask3, utf8.maskx.
  change 15 with (Z.ones 4). change 63 with (Z.ones 6).
  rewrite !land_mask, !Z.shiftl_mul_pow2 by lia.
  pose proof (Z.mod_pos_bound b0 (2 ^ 4) ltac:(lia)).
  pose proof (Z.mod_pos_bound b1 (2 ^ 6) ltac:(lia)).
  pose proof (Z.mod_pos_bound b2 (2 ^ 6) ltac:(lia)).
  assert (1 <= b0 mod 2 ^ 4 \/ 32 <= b1 mod 2 ^ 6)
    by (change (2 ^ 4) with 16; change (2 ^ 6) with 64; Z.div_mod_to_equations; lia).
  pose proof (lor_bounds (b0 mod 2 ^ 4 * 2 ^ 12) (b1 mod 2 ^ 6 * 2 ^ 6)
                ltac:(lia) ltac:(lia)).
  pose proof (lor_bounds
                (Z.lor (b0 mod 2 ^ 4 * 2 ^ 12) (b1 mod 2 ^ 6 * 2 ^ 6))
                (b2 mod 2 ^ 6) ltac:(lia) ltac:(lia)).
  lia.
Qed.

Lemma rune4_ge (b0 b1 b2 b3 : Z) :
  (b0 = 240 /\ 144 <= b1 <= 191) \/ 241 <= b0 <= 244 ->
  128 <= utf8.rune4 b0 b1 b2 b3.
Proof.
  intros Hb. unfold utf8.rune4, utf8.mask4, utf8.maskx.
  change 7 with (Z.ones 3). change 63 with (Z.ones 6).
  rewrite !land_mask, !Z.shiftl_mul_pow2 by lia.
  pose proof (Z.mod_pos_bound b0 (2 ^ 3) ltac:(lia)).
  pose proof (Z.mod_pos_bound b1 (2 ^ 6) ltac:(lia)).
  pose proof (Z.mod_pos_bound b2 (2 ^ 6) ltac:(lia)).
  pose proof (Z.mod_pos_bound b3 (2 ^ 6) ltac:(lia)).
  assert (1 <= b0 mod 2 ^ 3 \/ 16 <= b1 mod 2 ^ 6)
    by (change (2 ^ 3) with 8; change (2 ^ 6) with 64; Z.div_mod_to_equations; lia).
  set (x0 := b0 mod 2 ^ 3 * 2 ^ 18) in *. set (x1 := b1 mod 2 ^ 6 * 2 ^ 12) in *.
  set (x2 := b2 mod 2 ^ 6 * 2 ^ 6) in *. set (x3 := b3 mod 2 ^ 6) in *.
  assert (0 <= x0 /\ 0 <= x1 /\ 0 <= x2 /\ 0 <= x3) as (? & ? & ? & ?)
    by (unfold x0, x1, x2, x3; lia).
  assert (128 <= x0 \/ 128 <= x1) by (unfold x0, x1; lia).
  pose proof (lor_bounds x0 x1 ltac:(lia) ltac:(lia)).
  pose proof (lor_bounds (Z.lor x0 x1) x2 ltac:(lia) ltac:(lia)).
  pose proof (lor_bounds (Z.lor (Z.lor x0 x1) x2) x3 ltac:(lia) ltac:(lia)).
  lia.
Qed.

Lemma first_inv (b0 sz lo hi : Z) :
  utf8.first b0 = Some (sz, lo, hi) ->
  hi <= 191 /\
  ((sz = 2 /\ 194 <= b0 <= 223)
  \/ (sz = 3 /\ ((b0 = 224 /\ lo = 160) \/ 225 <= b0 <= 239))
  \/ (sz = 4 /\ ((b0 = 240 /\ lo = 144) \/ 241 <= b0 <= 244))).
Proof.
  unfold utf8.first, utf8.locb, utf8.hicb.
  repeat case_match; intros [= <- <- <-]; lia.
Qed.

(** A decoded rune is either outside ASCII or is the single byte that
    encodes it. *)
Definition seg_ok (p : Z * list ascii) : Prop :=
  128 <= fst p \/ exists c, p = (utf8.byte c, [c]) /\ utf8.byte c < 128.

Lemma decode_spec (n : nat) (s : list ascii) :
  (length s <= n)%nat ->
  concat (map snd (utf8.decode s)) = s /\ Forall seg_ok (utf8.decode s).
Proof.
  revert s. induction n as [|n IH]; intros s Hlen.
  { destruct s; [split; [reflexivity | constructor] | simpl in Hlen; lia]. }
  destruct s as [|c0 t0]; [split; [reflexivity | constructor]|].
  assert (Hstep : forall (r : Z) (seg rest : list ascii),
             (seg ++ rest)%list = c0 :: t0 -> seg <> [] -> seg_ok (r, seg) ->
             concat (map snd ((r, seg) :: utf8.decode rest)) = c0 :: t0
             /\ Forall seg_ok ((r, seg) :: utf8.decode rest)).
  { intros r seg rest Happ Hne Hok.
    assert (length rest <= n)%nat as Hrest.
    { apply (f_equal (@length ascii)) in Happ. rewrite length_app in Happ.
      simpl in Happ, Hlen. destruct seg; [congruence | simpl in Happ; lia]. }
    destruct (IH rest Hrest) as [Hcat Hall]. split.
    - simpl. rewrite Hcat. exact Happ.
    - constructor; assumption. }
  assert (Herr : seg_ok (utf8.RuneError, [c0])) by (left; simpl; unfold utf8.RuneError; lia).
  cbn [utf8.decode].
  destruct (utf8.byte c0 <? utf8.RuneSelf) eqn:Hself.
  { apply Hstep; [reflexivity | discriminate |].
    right. exists c0. split; [reflexivity|]. unfold utf8.RuneSelf in Hself. lia. }
  destruct (utf8.first (utf8.byte c0)) as [[[sz lo] hi]|] eqn:Hfirst;
    [|destruct t0; apply Hstep; (reflexivity || discriminate || assumption)].
  apply first_inv in Hfirst as [Hhi191 Hfirst].
  destruct t0 as [|c1 t1]; [apply Hstep; (reflexivity || discriminate || assumption)|].
  destruct ((utf8.byte c1 <? lo) || (hi <? utf8.byte c1)) eqn:Hacc;
    [apply Hstep; (reflexivity || discriminate || assumption)|].
  apply orb_false_elim in Hacc as [Hlo Hhi].
  destruct (sz <=? 2) eqn:Hsz2.
  { apply Hstep; [reflexivity | discriminate |]. left. simpl. apply rune2_ge. lia. }
  destruct t1 as [|c2 t2]; [apply Hstep; (reflexivity || discriminate || assumption)|].
  destruct (utf8.is_cont (utf8.byte c2)) eqn:Hc2; simpl negb; cbv iota;
    [|apply Hstep; (reflexivity || discriminate || assumption)].
  pose proof (byte_range c1) as Hr1.
  unfold utf8.hicb in *.
  destruct (sz <=? 3) eqn:Hsz3.
  { apply Hstep; [reflexivity | discriminate |]. left. simpl. apply rune3_ge.
    destruct Hfirst as [?|[[? [[? ?]|?]]|?]]; try lia. }
  destruct t2 as [|c3 t3]; [apply Hstep; (reflexivity || discriminate || assumption)|].
  destruct (utf8.is_cont (utf8.byte c3)) eqn:Hc3; simpl negb; cbv iota;
    [|apply Hstep; (reflexivity || discriminate || assumption)].
  apply Hstep; [reflexivity | discriminate |]. left. simpl. apply rune4_ge.
  destruct Hfirst as [?|[?|[? [[? ?]|?]]]]; try lia.
Qed.

Lemma decode_concat (s : list ascii) : concat (map snd (utf8.decode s)) = s.
Proof. exact (proj1 (decode_spec (length s) s (le_n _))). Qed.

Lemma decode_seg_ok (s : list ascii) : Forall seg_ok (utf8.decode s).
Proof. exact (proj2 (decode_spec (length s) s (le_n _))). Qed.

(** ** City-name sanitization *)

Definition is_letter (c : ascii) : bool :=
  let b := utf8.byte c in
  ((65 <=? b) && (b <=? 90)) || ((97 <=? b) && (b <=? 122)).

(** Tab, line feed, form feed, carriage return and space. *)
Definition is_whitespace (c : ascii) : bool :=
  let b := utf8.byte c in
  (b =? 9) || (b =? 10) || (b =? 12) || (b =? 13) || (b =? 32).

Definition is_hyphen (c : ascii) : bool := utf8.byte c =? 45.

Definition city_char (c : ascii) : bool :=
  is_letter c || is_whitespace c || is_hyphen c.

Lemma cityKeep_spec (r : Z) :
  regexp.in_ranges Validation.cityKeep r = true <->
  (65 <= r <= 90) \/ (97 <= r <= 122) \/ r = 9 \/ r = 10 \/ r = 12 \/ r = 13
  \/ r = 32 \/ r = 45.
Proof.
  change Validation.cityKeep
    with [(97, 122); (65, 90); (9, 10); (12, 13); (32, 32); (45, 45)].
  unfold regexp.in_ranges. simpl existsb.
  rewrite !orb_true_iff, !andb_true_iff, !Z.leb_le. lia.
Qed.

Lemma city_char_spec (c : ascii) :
  city_char c = true <-> regexp.in_ranges Validation.cityKeep (utf8.byte c) = true.
Proof.
  rewrite cityKeep_spec. unfold city_char, is_letter, is_whitespace, is_hyphen.
  rewrite !orb_true_iff, !andb_true_iff, !Z.leb_le, !Z.eqb_eq. lia.
Qed.

Lemma replace_class_chars (s : list ascii) :
  Forall (fun c => city_char c = true)
    (concat (map (fun '(r, bytes) =>
                    if regexp.class_matches true Validation.cityKeep r
                    then list_ascii_of_string EmptyString else bytes)
                 (utf8.decode s))).
Proof.
  pose proof (decode_seg_ok s) as Hok.
  induction Hok as [|[r seg] segs Hseg _ IH]; [constructor|].
  cbn [map concat]. apply Forall_app. split; [|exact IH].
  unfold regexp.class_matches. cbn [xorb].
  destruct (regexp.in_ranges Validation.cityKeep r) eqn:Hin; cbn [negb];
    [|constructor].
  destruct Hseg as [Hbig|(c & [= -> ->] & _)].
  - apply cityKeep_spec in Hin. simpl in Hbig. lia.
  - repeat constructor. now apply city_char_spec.
Qed.

Lemma substring_firstn (n : nat) (s : string) :
  list_ascii_of_string (String.substring 0 n s) = firstn n (list_ascii_of_string s).
Proof.
  revert s. induction n as [|n IH]; intros [|c s]; simpl; try reflexivity.
  now rewrite IH.
Qed.

Lemma length_list_ascii (s : string) :
  length (list_ascii_of_string s) = String.length s.
Proof. induction s; simpl; congruence. Qed.

Lemma sanitize_chars (city : string) :
  Forall (fun c => city_char c = true)
         (list_ascii_of_string (Validation.sanitizeCityName city)).
Proof.
  unfold Validation.sanitizeCityName, regexp.ReplaceAllString_class.
  set (kept := concat _).
  assert (Forall (fun c => city_char c = true) kept) as Hkept
    by apply replace_class_chars.
  case_match.
  - rewrite substring_firstn, list_ascii_of_string_of_list_ascii.
    now apply Forall_take.
  - now rewrite list_ascii_of_string_of_list_ascii.
Qed.

Lemma sanitize_length (city : string) :
  (String.length (Validation.sanitizeCityName city) <= 50)%nat.
Proof.
  unfold Validation.sanitizeCityName.
  set (kept := regexp.ReplaceAllString_class _ _ _ _).
  destruct (50 <? Z.of_nat (String.length kept)) eqn:Hlen.
  - rewrite <- length_list_ascii, substring_firstn, length_take. lia.
  - lia.
Qed.

(** Texts made of ASCII letters only. *)
Lemma decode_letters (l : list ascii) :
  Forall (fun c => is_letter c = true) l ->
  utf8.decode l = map (fun c => (utf8.byte c, [c])) l.
Proof.
  induction 1 as [|c l Hc _ IH]; [reflexivity|].
  cbn [utf8.decode map]. rewrite IH.
  unfold is_letter in Hc. unfold utf8.RuneSelf.
  destruct (utf8.byte c <? 128) eqn:Hlt; [reflexivity|].
  rewrite orb_true_iff, !andb_true_iff, !Z.leb_le in Hc. lia.
Qed.

Lemma drop_while_none {A} (f : A -> bool) (l : list A) :
  Forall (fun x => f x = false) l -> strings.drop_while f l = l.
Proof. destruct 1 as [|x l Hx _]; simpl; [reflexivity | now rewrite Hx]. Qed.

Lemma concat_singletons (l : list ascii) :
  concat (map snd (map (fun c => (utf8.byte c, [c])) l)) = l.
Proof. induction l; simpl; congruence. Qed.

Lemma sanitize_letters (city : string) :
  Forall (fun c => is_letter c = true) (list_ascii_of_string city) ->
  Validation.sanitizeCityName city =
  if 50 <? Z.of_nat (String.length city) then String.substring 0 50 city else city.
Proof.
  intros Hall.
  assert (Hnospace : Forall (fun seg : Z * list ascii => unicode.IsSpace (fst seg) = false)
                       (map (fun c => (utf8.byte c, [c])) (list_ascii_of_string city))).
  { apply Forall_map. eapply Forall_impl; [exact Hall|].
    intros c Hc. simpl. unfold is_letter in Hc. unfold unicode.IsSpace.
    rewrite orb_true_iff, !andb_true_iff, !Z.leb_le in Hc.
    repeat case_match; lia. }
  assert (Htrim : strings.TrimSpace city = city).
  { unfold strings.TrimSpace. rewrite decode_letters by assumption.
    rewrite (drop_while_none _ _ Hnospace).
    rewrite (drop_while_none _ _ (Forall_rev Hnospace)).
    rewrite rev_involutive. unfold utf8.encoded.
    now rewrite concat_singletons, string_of_list_ascii_of_string. }
  assert (Hrepl : regexp.ReplaceAllString_class true Validation.cityKeep city EmptyString
                  = city).
  { unfold regexp.ReplaceAllString_class. rewrite decode_letters by assumption.
    rewrite <- (string_of_list_ascii_of_string city) at 2. f_equal.
    clear Hnospace Htrim. induction Hall as [|c l Hc _ IH]; [reflexivity|].
    cbn [map concat]. rewrite IH. unfold regexp.class_matches.
    assert (regexp.in_ranges Validation.cityKeep (utf8.byte c) = true) as ->.
    { apply city_char_spec. unfold city_char. now rewrite Hc. }
    reflexivity. }
  unfold Validation.sanitizeCityName. now rewrite Htrim, Hrepl.
Qed.

(** C6: for every city input, [sanitizeCityName] returns a text of at most
    50 characters, each an ASCII letter, a whitespace character or a
    hyphen; [Tokyo123!] sanitizes to [Tokyo]; and a 60-character alphabetic
    input is truncated to its first 50 characters. *)
Theorem C6_sanitizeCityName :
  (forall city : string,
      Forall (fun c => city_char c = true)
             (list_ascii_of_string (Validation.sanitizeCityName city))
      /\ (String.length (Validation.sanitizeCityName city) <= 50)%nat)
  /\ Validation.sanitizeCityName "Tokyo123!" = "Tokyo"
  /\ (forall city : string,
        String.length city = 60%nat ->
        Forall (fun c => is_letter c = true) (list_ascii_of_string city) ->
        Validation.sanitizeCityName city = String.substring 0 50 city).
Proof.
  split; [|split].
  - intros city. split; [apply sanitize_chars | apply sanitize_length].
  - vm_compute. reflexivity.
  - intros city Hlen Hall. rewrite sanitize_letters by assumption.
    now rewrite Hlen.
Qed.

Lemma C6_sanitizeCityName_witness :
  Validation.sanitizeCityName
    "abcdefghijklmnopqrstuvwxyzABCDEFGHIJKLMNOPQRSTUVWXYZabcdefgh"
  = "abcdefghijklmnopqrstuvwxyzABCDEFGHIJKLMNOPQRSTUVWX".
Proof.
  apply (proj2 (proj2 C6_sanitizeCityName)
           "abcdefghijklmnopqrstuvwxyzABCDEFGHIJKLMNOPQRSTUVWXYZabcdefgh").
  - reflexivity.
  - repeat constructor.
Defined.

(** ** Running the monad *)

Definition add_call (w : World) (c : Call) : World :=
  mkWorld (clock w) (ticks w) (table w) (bucket w) (calls w ++ [c]) (logs w).

Definition add_log (w : World) (format : string) (args : list Any) : World :=
  mkWorld (clock w) (ticks w) (table w) (bucket w) (calls w) (logs w ++ [(format, args)]).

Definition tick (w : World) : World :=
  mkWorld (clock w) (S (ticks w)) (table w) (bucket w) (calls w) (logs w).

Lemma bind_run {A B} (m : M A) (k : A -> M B) (w : World) :
  (x ← m; k x) w =
  match m w with
  | (Return a, w') => k a w'
  | (Panic msg, w') => (Panic msg, w')
  end.
Proof. reflexivity. Qed.

Lemma bind_return {A B} (m : M A) (k : A -> M B) (w w' : World) (a : A) :
  m w = (Return a, w') -> (x ← m; k x) w = k a w'.
Proof. intros Hm. rewrite bind_run, Hm. reflexivity. Qed.

Lemma ret_run {A} (a : A) (w : World) : (mret a : M A) w = (Return a, w).
Proof. reflexivity. Qed.

Lemma fmap_run {A B} (f : A -> B) (m : M A) (w w' : World) (a : A) :
  m w = (Return a, w') -> (f <$> m) w = (Return (f a), w').
Proof. intros Hm. unfold fmap, M_fmap. now rewrite (bind_return _ _ _ _ _ Hm). Qed.

Lemma log_run (format : string) (args : list Any) (w : World) :
  log_Printf format args w = (Return tt, add_log w format args).
Proof. reflexivity. Qed.

Lemma now_run (w : World) : time_Now w = (Return (clock w (ticks w)), tick w).
Proof. reflexivity. Qed.

(** ** The history query of the table store *)

Section History.
Context `{!time.Formatter, !Sorter, !Codec}.
Import models.

(** The records of a list of items: those that unmarshal, in order. *)
Definition unmarshalled (items : list dynamodb.Item) : list WeatherRecord.t :=
  omap (fun item => match UnmarshalMap item with
                    | inr record => Some record
                    | inl _ => None
                    end) items.

Definition scanned_items (ps : list dynamodb.ScanOutput) : list dynamodb.Item :=
  concat (dynamodb.Items <$> ps).

Lemma collect_items_spec (items : list dynamodb.Item) (acc : list WeatherRecord.t) :
  handlers.collect_items items acc = (acc ++ unmarshalled items)%list.
Proof.
  revert acc. induction items as [|item items IH]; intros acc; simpl.
  - unfold unmarshalled. simpl. now rewrite app_nil_r.
  - unfold unmarshalled. simpl. destruct (UnmarshalMap item) as [err|record].
    + apply IH.
    + rewrite IH, <- app_assoc. reflexivity.
Qed.

Lemma unmarshalled_app (l1 l2 : list dynamodb.Item) :
  unmarshalled (l1 ++ l2) = (unmarshalled l1 ++ unmarshalled l2)%list.
Proof. apply omap_app. Qed.

(** The callback never stops the iteration early: every delivered page is
    collected. *)
Lemma each_page_collect (ps : list dynamodb.ScanOutput) (failed : bool)
    (acc : list WeatherRecord.t) :
  each_page handlers.collect_page ps failed acc
  = (acc ++ unmarshalled (scanned_items ps))%list.
Proof.
  assert (Hcons : forall p ps,
             unmarshalled (scanned_items (p :: ps))
             = (unmarshalled (dynamodb.Items p) ++ unmarshalled (scanned_items ps))%list)
    by (intros; apply unmarshalled_app).
  revert acc. induction ps as [|p ps IH]; intros acc.
  - change (unmarshalled (scanned_items [])) with (@nil WeatherRecord.t).
    simpl. now rewrite app_nil_r.
  - rewrite Hcons, app_assoc, <- (collect_items_spec (dynamodb.Items p) acc).
    destruct ps as [|p' ps'].
    + change (unmarshalled (scanned_items [])) with (@nil WeatherRecord.t).
      rewrite app_nil_r. simpl. now destruct failed.
    + rewrite <- IH. reflexivity.
Qed.

Lemma GetWeatherHistory_run (h : handlers.DynamoDBHandler) (city : string)
    (startTime endTime : time.Time) (w : World) :
  let input := handlers.history_scan_input h city
                 (time.Format startTime time.RFC3339)
                 (time.Format endTime time.RFC3339) in
  let answer := dynamodb.scan_answer (handlers.client h) input in
  handlers.GetWeatherHistory h city startTime endTime w =
  (Return match dynamodb.failure answer with
          | Some err => inl (Errorf "failed to scan weather history: " err)
          | None => inr (sort_Slice handlers.timestamp_less
                           (unmarshalled (scanned_items (dynamodb.pages answer))))
          end,
   add_call w (CallScan input)).
Proof.
  intros input answer. unfold handlers.GetWeatherHistory, ScanPagesWithContext.
  fold input. fold answer. rewrite each_page_collect.
  simpl. destruct (dynamodb.failure answer); reflexivity.
Qed.

End History.

(** ** The order on timestamps *)

Lemma ascii_compare_lt_trans (a b c : ascii) :
  Ascii.compare a b = Lt -> Ascii.compare b c = Lt -> Ascii.compare a c = Lt.
Proof.
  unfold Ascii.compare. rewrite !N.compare_lt_iff. lia.
Qed.

Lemma string_compare_lt_trans (s1 s2 s3 : string) :
  String.compare s1 s2 = Lt -> String.compare s2 s3 = Lt -> String.compare s1 s3 = Lt.
Proof.
  revert s2 s3. induction s1 as [|a s1 IH]; intros [|b s2] [|c s3]; simpl;
    try congruence.
  destruct (Ascii.compare a b) eqn:Hab; try discriminate;
    destruct (Ascii.compare b c) eqn:Hbc; try discriminate; intros H12 H23.
  - apply Ascii.compare_eq_iff in Hab as ->. apply Ascii.compare_eq_iff in Hbc as ->.
    assert (Ascii.compare c c = Eq) as ->
      by (unfold Ascii.compare; apply N.compare_refl).
    eauto.
  - apply Ascii.compare_eq_iff in Hab as ->. now rewrite Hbc.
  - apply Ascii.compare_eq_iff in Hbc as <-. now rewrite Hab.
  - now rewrite (ascii_compare_lt_trans _ _ _ Hab Hbc).
Qed.

Lemma string_compare_refl (s : string) : String.compare s s = Eq.
Proof.
  induction s as [|a s IH]; simpl; [reflexivity|].
  assert (Ascii.compare a a = Eq) as -> by (unfold Ascii.compare; apply N.compare_refl).
  exact IH.
Qed.

Lemma ltb_false_leb (s1 s2 : string) :
  String.ltb s2 s1 = false <-> String.leb s1 s2 = true.
Proof.
  unfold String.ltb, String.leb. rewrite (String.compare_antisym s1 s2).
  destruct (String.compare s2 s1); simpl; intuition congruence.
Qed.

Lemma string_ltb_swo : StrictWeakOrder String.ltb.
Proof.
  split.
  - intros s. unfold String.ltb. now rewrite string_compare_refl.
  - intros s1 s2 s3. unfold String.ltb.
    destruct (String.compare s1 s2) eqn:H12; try discriminate.
    destruct (String.compare s2 s3) eqn:H23; try discriminate.
    now rewrite (string_compare_lt_trans _ _ _ H12 H23).
  - intros s1 s2 s3. unfold String.ltb. intros H12 H23.
    destruct (String.compare s1 s3) eqn:H13; try reflexivity. exfalso.
    destruct (String.compare s1 s2) eqn:E12; try discriminate;
      destruct (String.compare s2 s3) eqn:E23; try discriminate.
    + apply String.compare_eq_iff in E12 as ->. apply String.compare_eq_iff in E23 as ->.
      rewrite string_compare_refl in H13. discriminate.
    + apply String.compare_eq_iff in E12 as ->. congruence.
    + apply String.compare_eq_iff in E23 as ->. congruence.
    + rewrite String.compare_antisym in E12, E23.
      apply (f_equal CompOpp) in E12, E23. rewrite CompOpp_involutive in E12, E23.
      simpl in E12, E23.
      pose proof (string_compare_lt_trans _ _ _ E23 E12) as H31.
      rewrite String.compare_antisym, H13 in H31. discriminate.
Qed.

Lemma timestamp_less_swo : StrictWeakOrder handlers.timestamp_less.
Proof.
  destruct string_ltb_swo as [Hirr Htrans Hinc].
  unfold handlers.timestamp_less. split; eauto.
Qed.

(** Ascending by the timestamp text (bytewise order of strings). *)
Definition timestamp_le (a b : models.WeatherRecord.t) : Prop :=
  String.leb (models.WeatherRecord.Timestamp a) (models.WeatherRecord.Timestamp b) = true.

Lemma NoDup_fmap_inj_on {A B} (f : A -> B) (l : list A) (x y : A) :
  NoDup (f <$> l) -> x ∈ l -> y ∈ l -> f x = f y -> x = y.
Proof.
  induction l as [|z l IH]; simpl; intros Hnd Hx Hy Hxy; [now inversion Hx|].
  apply NoDup_cons in Hnd as [Hz Hnd].
  apply elem_of_cons in Hx as [->|Hx]; apply elem_of_cons in Hy as [->|Hy]; auto.
  - exfalso. apply Hz. rewrite Hxy. now apply list_elem_of_fmap_2.
  - exfalso. apply Hz. rewrite <- Hxy. now apply list_elem_of_fmap_2.
Qed.

Section HistoryClaims.
Context `{!time.Formatter, !Sorter, !Codec}.
Import models.

Lemma history_sorted (records : list WeatherRecord.t) :
  StronglySorted timestamp_le (sort_Slice handlers.timestamp_less records).
Proof.
  pose proof (sort_Slice_sorted _ _ records timestamp_less_swo) as Hsorted.
  induction Hsorted as [|a l Hl IH Ha]; constructor; [exact IH|].
  eapply Forall_impl; [exact Ha|]. intros b Hab. apply ltb_false_leb. exact Hab.
Qed.

Lemma history_result (h : handlers.DynamoDBHandler) (city : string)
    (startTime endTime : time.Time) (w : World) (ps : list dynamodb.ScanOutput) :
  dynamodb.scan_answer (handlers.client h)
    (handlers.history_scan_input h city (time.Format startTime time.RFC3339)
                                 (time.Format endTime time.RFC3339))
  = dynamodb.mkScanResult ps None ->
  fst (handlers.GetWeatherHistory h city startTime endTime w)
  = Return (inr (sort_Slice handlers.timestamp_less (unmarshalled (scanned_items ps)))).
Proof.
  intros Hscan. rewrite GetWeatherHistory_run. simpl. now rewrite Hscan.
Qed.

(** C7 (amended): whatever the order and the page partition in which the
    store delivers the records, [GetWeatherHistory] returns them all,
    sorted ascending by the timestamp text; two deliveries of the same
    multiset of records yield the same sequence when the timestamps in it
    are pairwise distinct. *)
Theorem C7_history_sorted_by_timestamp
    (h1 h2 : handlers.DynamoDBHandler) (city1 city2 : string)
    (start1 end1 start2 end2 : time.Time) (w1 w2 : World)
    (ps1 ps2 : list dynamodb.ScanOutput) :
  dynamodb.scan_answer (handlers.client h1)
    (handlers.history_scan_input h1 city1 (time.Format start1 time.RFC3339)
                                 (time.Format end1 time.RFC3339))
  = dynamodb.mkScanResult ps1 None ->
  dynamodb.scan_answer (handlers.client h2)
    (handlers.history_scan_input h2 city2 (time.Format start2 time.RFC3339)
                                 (time.Format end2 time.RFC3339))
  = dynamodb.mkScanResult ps2 None ->
  unmarshalled (scanned_items ps1) ≡ₚ unmarshalled (scanned_items ps2) ->
  exists l1 l2 : list WeatherRecord.t,
    fst (handlers.GetWeatherHistory h1 city1 start1 end1 w1) = Return (inr l1)
    /\ fst (handlers.GetWeatherHistory h2 city2 start2 end2 w2) = Return (inr l2)
    /\ l1 ≡ₚ unmarshalled (scanned_items ps1)
    /\ l2 ≡ₚ l1
    /\ StronglySorted timestamp_le l1
    /\ StronglySorted timestamp_le l2
    /\ (NoDup (WeatherRecord.Timestamp <$> l1) -> l1 = l2).
Proof.
  intros Hscan1 Hscan2 Hperm.
  eexists _, _. split; [exact (history_result _ _ _ _ w1 _ Hscan1)|].
  split; [exact (history_result _ _ _ _ w2 _ Hscan2)|].
  set (l1 := sort_Slice _ (unmarshalled (scanned_items ps1))).
  set (l2 := sort_Slice _ (unmarshalled (scanned_items ps2))).
  assert (Hl1 : l1 ≡ₚ unmarshalled (scanned_items ps1)) by apply sort_Slice_perm.
  assert (Hl2 : l2 ≡ₚ l1).
  { unfold l2. rewrite sort_Slice_perm, <- Hperm. symmetry. exact Hl1. }
  repeat split; try assumption; try apply history_sorted.
  intros Hnodup. apply (StronglySorted_unique_strong timestamp_le);
    try apply history_sorted; [|symmetry; exact Hl2].
  intros x1 x2 Hx1 Hx2 H12 H21. rewrite Hl2 in Hx2.
  apply (NoDup_fmap_inj_on WeatherRecord.Timestamp l1); try assumption.
  pose proof (String.leb_antisym _ _ H12 H21). assumption.
Qed.

(** C8: when some items of a scan fail to unmarshal and others succeed,
    [GetWeatherHistory] returns no error and exactly the records that
    unmarshalled; a scan of one malformed item and two valid ones returns
    exactly the two valid records. *)
Theorem C8_history_skips_malformed_items
    (h : handlers.DynamoDBHandler) (city : string) (startTime endTime : time.Time)
    (w : World) (ps : list dynamodb.ScanOutput) :
  dynamodb.scan_answer (handlers.client h)
    (handlers.history_scan_input h city (time.Format startTime time.RFC3339)
                                 (time.Format endTime time.RFC3339))
  = dynamodb.mkScanResult ps None ->
  exists records : list WeatherRecord.t,
    fst (handlers.GetWeatherHistory h city startTime endTime w) = Return (inr records)
    /\ records ≡ₚ unmarshalled (scanned_items ps)
    /\ (forall (bad good1 good2 : dynamodb.Item) (err : error)
               (r1 r2 : WeatherRecord.t),
          scanned_items ps ≡ₚ [bad; good1; good2] ->
          UnmarshalMap bad = inl err ->
          UnmarshalMap good1 = inr r1 ->
          UnmarshalMap good2 = inr r2 ->
          records ≡ₚ [r1; r2]).
Proof.
  intros Hscan. eexists. split; [exact (history_result _ _ _ _ w _ Hscan)|].
  split; [apply sort_Slice_perm|].
  intros bad good1 good2 err r1 r2 Hitems Hbad Hgood1 Hgood2.
  rewrite sort_Slice_perm. unfold unmarshalled. rewrite Hitems.
  simpl. now rewrite Hbad, Hgood1, Hgood2.
Qed.

End HistoryClaims.

Section HistoryRuns.
#[local] Existing Instance Sample.utc_Formatter.
#[local] Existing Instance insertion_Sorter.
#[local] Existing Instance Sample.codec.

Lemma C7_history_sorted_by_timestamp_witness :
  exists l1 l2 : list models.WeatherRecord.t,
    Scenario.history [dynamodb.mkScanOutput
                        [Scenario.item "Tokyo-2" "2023-11-14T21:00:00Z";
                         Scenario.item "Tokyo-1" "2023-11-14T19:00:00Z"]]
    = Return (inr l1)
    /\ Scenario.history [dynamodb.mkScanOutput
                           [Scenario.item "Tokyo-1" "2023-11-14T19:00:00Z"];
                         dynamodb.mkScanOutput
                           [Scenario.item "Tokyo-2" "2023-11-14T21:00:00Z"]]
       = Return (inr l2)
    /\ l1 = l2.
Proof.
  destruct (C7_history_sorted_by_timestamp
              (Scenario.history_handler
                 [dynamodb.mkScanOutput
                    [Scenario.item "Tokyo-2" "2023-11-14T21:00:00Z";
                     Scenario.item "Tokyo-1" "2023-11-14T19:00:00Z"]])
              (Scenario.history_handler
                 [dynamodb.mkScanOutput
                    [Scenario.item "Tokyo-1" "2023-11-14T19:00:00Z"];
                  dynamodb.mkScanOutput
                    [Scenario.item "Tokyo-2" "2023-11-14T21:00:00Z"]])
              "Tokyo" "Tokyo"
              (time.mkTime (1700000000 - 21600) 0) (time.mkTime 1700000000 0)
              (time.mkTime (1700000000 - 21600) 0) (time.mkTime 1700000000 0)
              Scenario.world0 Scenario.world0 _ _ eq_refl eq_refl)
    as (l1 & l2 & H1 & H2 & Hp1 & _ & _ & _ & Hsame).
  - vm_compute. apply perm_swap.
  - exists l1, l2. split; [exact H1|]. split; [exact H2|].
    apply Hsame. rewrite Hp1. vm_compute.
    repeat constructor; rewrite ?list_elem_of_In; simpl; intuition discriminate.
Defined.

(** C7, as stated, fails: two records with the same timestamp come back
    in the order the store delivered them. *)
Lemma C7_counterexample :
  [Scenario.item "Tokyo-1" "2023-11-14T21:00:00Z";
   Scenario.item "Tokyo-2" "2023-11-14T21:00:00Z"]
  ≡ₚ [Scenario.item "Tokyo-2" "2023-11-14T21:00:00Z";
      Scenario.item "Tokyo-1" "2023-11-14T21:00:00Z"]
  /\ Scenario.history [dynamodb.mkScanOutput
                         [Scenario.item "Tokyo-1" "2023-11-14T21:00:00Z";
                          Scenario.item "Tokyo-2" "2023-11-14T21:00:00Z"]]
     = Return (inr [Scenario.record "Tokyo-1" "2023-11-14T21:00:00Z";
                    Scenario.record "Tokyo-2" "2023-11-14T21:00:00Z"])
  /\ Scenario.history [dynamodb.mkScanOutput
                         [Scenario.item "Tokyo-2" "2023-11-14T21:00:00Z";
                          Scenario.item "Tokyo-1" "2023-11-14T21:00:00Z"]]
     = Return (inr [Scenario.record "Tokyo-2" "2023-11-14T21:00:00Z";
                    Scenario.record "Tokyo-1" "2023-11-14T21:00:00Z"])
  /\ Scenario.history [dynamodb.mkScanOutput
                         [Scenario.item "Tokyo-1" "2023-11-14T21:00:00Z";
                          Scenario.item "Tokyo-2" "2023-11-14T21:00:00Z"]]
     <> Scenario.history [dynamodb.mkScanOutput
                            [Scenario.item "Tokyo-2" "2023-11-14T21:00:00Z";
                             Scenario.item "Tokyo-1" "2023-11-14T21:00:00Z"]].
Proof.
  split; [apply perm_swap|].
  split; [vm_compute; reflexivity|].
  split; [vm_compute; reflexivity|].
  vm_compute. intros [=].
Qed.

Lemma C8_history_skips_malformed_items_witness :
  exists records : list models.WeatherRecord.t,
    Scenario.history [dynamodb.mkScanOutput
                        [Scenario.item "Tokyo-2" "2023-11-14T21:00:00Z";
                         Scenario.malformed];
                      dynamodb.mkScanOutput
                        [Scenario.item "Tokyo-1" "2023-11-14T19:00:00Z"]]
    = Return (inr records)
    /\ records ≡ₚ [Scenario.record "Tokyo-2" "2023-11-14T21:00:00Z";
                    Scenario.record "Tokyo-1" "2023-11-14T19:00:00Z"].
Proof.
  destruct (C8_history_skips_malformed_items
              (Scenario.history_handler
                 [dynamodb.mkScanOutput
                    [Scenario.item "Tokyo-2" "2023-11-14T21:00:00Z";
                     Scenario.malformed];
                  dynamodb.mkScanOutput
                    [Scenario.item "Tokyo-1" "2023-11-14T19:00:00Z"]])
              "Tokyo" (time.mkTime (1700000000 - 21600) 0)
              (time.mkTime 1700000000 0) Scenario.world0 _ eq_refl)
    as (records & Hrun & _ & Hexact).
  exists records. split; [exact Hrun|].
  apply (Hexact Scenario.malformed
                (Scenario.item "Tokyo-2" "2023-11-14T21:00:00Z")
                (Scenario.item "Tokyo-1" "2023-11-14T19:00:00Z")
                "cannot unmarshal attribute humidity into an int").
  - apply perm_swap.
  - vm_compute. reflexivity.
  - vm_compute. reflexivity.
  - vm_compute. reflexivity.
Defined.

End HistoryRuns.

(** ** The period parameter *)

(** Texts whose runes are all ASCII are decoded byte by byte. *)
Lemma runes_ascii (s : string) :
  Forall (fun r => r < 128) (utf8.runes s) ->
  utf8.runes s = map utf8.byte (list_ascii_of_string s).
Proof.
  unfold utf8.runes. intros Hall.
  rewrite <- (decode_concat (list_ascii_of_string s)) at 2.
  pose proof (decode_seg_ok (list_ascii_of_string s)) as Hok.
  induction Hok as [|[r seg] segs Hseg _ IH]; [reflexivity|].
  simpl in Hall. apply Forall_cons in Hall as [Hr Hall].
  destruct Hseg as [Hbig|(c & [= -> ->] & _)]; [simpl in Hbig; lia|].
  simpl. now rewrite IH.
Qed.

Definition ascii_range (lo hi : Z) : list ascii :=
  (fun z => ascii_of_N (Z.to_N z)) <$> seqZ lo (hi - lo + 1).

Lemma ascii_range_spec (lo hi : Z) (c : ascii) :
  lo <= utf8.byte c <= hi -> c ∈ ascii_range lo hi.
Proof.
  intros Hc. unfold ascii_range. apply list_elem_of_fmap.
  exists (utf8.byte c). split.
  - unfold utf8.byte. now rewrite N2Z.id, ascii_N_embedding.
  - apply elem_of_seqZ. lia.
Qed.

(** The texts the pattern of [isValidPeriod] can match. *)
Definition period_candidates : list string :=
  ["6h"; "24h"; "1d"]
  ++ (a ← ascii_range 49 57; [String a EmptyString])
  ++ (a ← ascii_range 49 57; b ← ascii_range 48 57;
      [String a (String b EmptyString)])
  ++ (b ← ascii_range 48 54; c ← ascii_range 48 56;
      [String "1" (String b (String c EmptyString))]).

Ltac byte_literals :=
  repeat match goal with
  | |- context [utf8.byte (Ascii ?b0 ?b1 ?b2 ?b3 ?b4 ?b5 ?b6 ?b7)] =>
    let v := eval vm_compute in (utf8.byte (Ascii b0 b1 b2 b3 b4 b5 b6 b7)) in
    change (utf8.byte (Ascii b0 b1 b2 b3 b4 b5 b6 b7)) with v
  end.

Lemma periodPattern_bytes (cs : list ascii) :
  regexp.matchK Validation.periodPattern (map utf8.byte cs) regexp.is_nil = true ->
  string_of_list_ascii cs ∈ period_candidates.
Proof.
  assert (Hb : forall c z, utf8.byte c = z -> c = ascii_of_N (Z.to_N z)).
  { intros c z <-. unfold utf8.byte. now rewrite N2Z.id, ascii_N_embedding. }
  unfold Validation.periodPattern, Validation.digit_1_9, Validation.digit_0_9,
    regexp.range, regexp.class_matches, regexp.in_ranges.
  destruct cs as [|a [|b [|c [|d rest]]]]; cbn -[Z.eqb Z.leb period_candidates];
    byte_literals;
    rewrite ?andb_false_r, ?orb_false_r, ?andb_true_r; try discriminate;
    rewrite ?orb_true_iff, ?andb_true_iff, ?Z.eqb_eq, ?Z.leb_le; intros Hm.
  - (* one character *)
    destruct Hm as [?|[?|[?|Hm]]]; try discriminate.
    unfold period_candidates. rewrite !elem_of_app. right. left.
    apply list_elem_of_bind. exists a. split; [apply list_elem_of_singleton; reflexivity|].
    apply ascii_range_spec. lia.
  - (* two characters *)
    unfold period_candidates. rewrite !elem_of_app.
    destruct Hm as [[Ha Hb']|[?|[[Ha Hb']|[?|[Ha Hb']]]]]; try discriminate.
    + left. apply (Hb a) in Ha as ->. apply (Hb b) in Hb' as ->.
      apply list_elem_of_In. simpl. auto.
    + left. apply (Hb a) in Ha as ->. apply (Hb b) in Hb' as ->.
      apply list_elem_of_In. simpl. auto.
    + right. right. left.
      apply list_elem_of_bind. exists a. split; [|apply ascii_range_spec; lia].
      apply list_elem_of_bind. exists b. split; [|apply ascii_range_spec; lia].
      apply list_elem_of_singleton. reflexivity.
  - (* three characters *)
    unfold period_candidates. rewrite !elem_of_app.
    destruct Hm as [?|[(Ha & Hb' & Hc)|[?|[?|[?|(Ha & Hb' & Hc)]]]]]; try discriminate.
    + left. apply (Hb a) in Ha as ->. apply (Hb b) in Hb' as ->.
      apply (Hb c) in Hc as ->. apply list_elem_of_In. simpl. auto.
    + right. right. right. apply (Hb a) in Ha as ->.
      apply list_elem_of_bind. exists b. split; [|apply ascii_range_spec; lia].
      apply list_elem_of_bind. exists c. split; [|apply ascii_range_spec; lia].
      apply list_elem_of_singleton. reflexivity.
Qed.

Lemma periodPattern_ascii (rs : list Z) :
  regexp.matchK Validation.periodPattern rs regexp.is_nil = true ->
  Forall (fun r => r < 128) rs.
Proof.
  unfold Validation.periodPattern, Validation.digit_1_9, Validation.digit_0_9,
    regexp.range, regexp.class_matches, regexp.in_ranges.
  destruct rs as [|a [|b [|c [|d rest]]]]; cbn -[Z.eqb Z.leb];
    byte_literals;
    rewrite ?andb_false_r, ?orb_false_r, ?andb_true_r; try discriminate;
    rewrite ?orb_true_iff, ?andb_true_iff, ?Z.eqb_eq, ?Z.leb_le; intros Hm;
    repeat constructor; intuition (try discriminate; lia).
Qed.

Lemma isValidPeriod_candidates (period : string) :
  Validation.isValidPeriod period = true <-> period ∈ period_candidates.
Proof.
  split.
  - unfold Validation.isValidPeriod, regexp.MatchString_anchored. intros Hm.
    pose proof (periodPattern_ascii _ Hm) as Hascii.
    rewrite (runes_ascii _ Hascii) in Hm.
    apply periodPattern_bytes in Hm.
    now rewrite string_of_list_ascii_of_string in Hm.
  - intros Hin.
    assert (forallb Validation.isValidPeriod period_candidates = true) as Hall
      by (vm_compute; reflexivity).
    rewrite forallb_forall in Hall. apply Hall. now apply list_elem_of_In.
Qed.

(** The integers whose decimal text the pattern accepts: those from 1 to
    168 that are below 100 or do not end in 9. *)
Definition accepted_hours (n : Z) : bool :=
  (1 <=? n) && (n <=? 168) && ((n <? 100) || negb (n mod 10 =? 9)).

Lemma period_candidates_eq :
  period_candidates
  = (["6h"; "24h"; "1d"] ++ (strconv.Itoa <$> filter (fun n => accepted_hours n = true)
                                                     (seqZ 1 168)))%list.
Proof. vm_compute. reflexivity. Qed.

Lemma isValidPeriod_spec (period : string) :
  Validation.isValidPeriod period = true <->
  period = "6h" \/ period = "24h" \/ period = "1d"
  \/ exists n : Z, accepted_hours n = true /\ period = strconv.Itoa n.
Proof.
  rewrite isValidPeriod_candidates, period_candidates_eq.
  rewrite elem_of_app, list_elem_of_fmap, !elem_of_cons, elem_of_nil.
  split.
  - intros [[->|[->|[->|[]]]]|(n & -> & Hn)]; auto.
    apply list_elem_of_filter in Hn as [Hn _]. eauto 6.
  - intros [->|[->|[->|(n & Hn & ->)]]]; auto.
    right. exists n. split; [reflexivity|]. apply list_elem_of_filter. split; [exact Hn|].
    apply elem_of_seqZ. unfold accepted_hours in Hn.
    rewrite !andb_true_iff, !Z.leb_le in Hn. lia.
Qed.

(** The duration a period token stands for, in hours, in the words of
    the specification: [6h] is 6 hours, [24h] and [1d] are 24 hours, and the
    decimal text of an integer from 1 to 168 is that many hours. *)
Definition resolved_hours (period : string) : option Z :=
  if String.eqb period "6h" then Some 6
  else if String.eqb period "24h" || String.eqb period "1d" then Some 24
  else List.find (fun n => String.eqb (strconv.Itoa n) period) (seqZ 1 168).

Section Period.
Context `{!time.Formatter, !Sorter, !Codec}.
Import models.

(** The duration the [switch period] of the handler passes on, if it
    accepts the period. *)
Definition period_duration (period : string) : option Z :=
  if String.eqb period "6h" then Some (-6 * time.Hour)
  else if String.eqb period "24h" || String.eqb period "1d" then Some (-24 * time.Hour)
  else
    match strconv.Atoi period with
    | Some hours =>
      if (0 <? hours) && (hours <=? 168)
      then Some (time.mul (time.neg hours) time.Hour) else None
    | None => None
    end.

Lemma query_period_eq (h : weather_history_api.Handler) (period city : string) :
  weather_history_api.query_period h period city =
  match period_duration period with
  | Some d => inr <$> weather_history_api.query_window h city d
  | None =>
    mret (inl (weather_history_api.error_response http.StatusBadRequest
                 "Invalid period. Use '6h', '24h', or number of hours (1-168)"))
  end.
Proof.
  unfold weather_history_api.query_period, period_duration.
  repeat case_match; reflexivity.
Qed.

End Period.

Lemma valid_period_duration (period : string) :
  Validation.isValidPeriod period = true ->
  exists n : Z,
    1 <= n <= 168
    /\ resolved_hours period = Some n
    /\ period_duration period = Some (- n * time.Hour).
Proof.
  intros Hvalid. apply isValidPeriod_candidates in Hvalid.
  set (check := fun p =>
         match resolved_hours p, period_duration p with
         | Some n, Some d => (1 <=? n) && (n <=? 168) && (d =? - n * time.Hour)
         | _, _ => false
         end).
  assert (forallb check period_candidates = true) as Hall by (vm_compute; reflexivity).
  rewrite forallb_forall in Hall. apply list_elem_of_In, Hall in Hvalid.
  unfold check in Hvalid.
  destruct (resolved_hours period) as [n|]; [|discriminate].
  destruct (period_duration period) as [d|]; [|discriminate].
  rewrite !andb_true_iff, !Z.leb_le, Z.eqb_eq in Hvalid.
  exists n. intuition congruence.
Qed.

(** ** The history endpoint *)

(** A request carries an API key when one of the two header names the
    handler reads has a non-empty value. *)
Definition api_key_present (request : weather_history_api.APIGatewayProxyRequest) : Prop :=
  exists v : string,
    v <> EmptyString
    /\ (weather_history_api.Headers request !! "X-API-Key" = Some v
        \/ weather_history_api.Headers request !! "x-api-key" = Some v).

(** The period of a request: the parameter, or [6h] when it is absent or
    empty. *)
Definition requested_period (request : weather_history_api.APIGatewayProxyRequest)
    : string :=
  match weather_history_api.QueryStringParameters request !! "period" with
  | Some p => if String.eqb p EmptyString then "6h" else p
  | None => "6h"
  end.

Section Endpoint.
Context `{!time.Formatter, !Sorter, !Codec}.
Import models.

(** The city of a request: the sanitized parameter, or the sanitized
    configured city when the parameter is absent or empty. *)
Definition requested_city (h : weather_history_api.Handler)
    (request : weather_history_api.APIGatewayProxyRequest) : string :=
  Validation.sanitizeCityName
    match weather_history_api.QueryStringParameters request !! "city" with
    | Some c =>
      if String.eqb c EmptyString
      then config.CityName (config.Weather (weather_history_api.config h)) else c
    | None => config.CityName (config.Weather (weather_history_api.config h))
    end.

(** The scan for the window of [n] hours that ends at the next reading of
    the clock of [w]. *)
Definition window_scan (h : weather_history_api.Handler)
    (request : weather_history_api.APIGatewayProxyRequest) (w : World) (n : Z)
    : dynamodb.ScanInput :=
  let now := clock w (ticks w) in
  handlers.history_scan_input (weather_history_api.dynamoHandler h)
    (requested_city h request)
    (time.Format (time.Add now (- n * time.Hour)) time.RFC3339)
    (time.Format now time.RFC3339).

Lemma key_check (request : weather_history_api.APIGatewayProxyRequest) :
  api_key_present request ->
  String.eqb (weather_history_api.Headers request !!! "X-API-Key") EmptyString
  && String.eqb (weather_history_api.Headers request !!! "x-api-key") EmptyString
  = false.
Proof.
  intros (v & Hv & [Hk|Hk]); rewrite (lookup_total_correct _ _ _ Hk);
    apply String.eqb_neq in Hv; rewrite Hv; [reflexivity | apply andb_false_r].
Qed.

Lemma period_param (request : weather_history_api.APIGatewayProxyRequest) :
  (let period := weather_history_api.QueryStringParameters request !!! "period" in
   if String.eqb period EmptyString then "6h" else period)
  = requested_period request.
Proof.
  unfold requested_period. rewrite lookup_total_alt.
  destruct (weather_history_api.QueryStringParameters request !! "period"); reflexivity.
Qed.

Lemma city_param (h : weather_history_api.Handler)
    (request : weather_history_api.APIGatewayProxyRequest) :
  Validation.sanitizeCityName
    (let city := weather_history_api.QueryStringParameters request !!! "city" in
     if String.eqb city EmptyString
     then config.CityName (config.Weather (weather_history_api.config h)) else city)
  = requested_city h request.
Proof.
  unfold requested_city. rewrite lookup_total_alt.
  destruct (weather_history_api.QueryStringParameters request !! "city"); reflexivity.
Qed.

(** A request that passes the method and key checks with an invalid
    period is answered 400 and touches nothing. *)
Lemma HandleRequest_invalid_period (h : weather_history_api.Handler)
    (request : weather_history_api.APIGatewayProxyRequest) (w : World) :
  weather_history_api.HTTPMethod request = "GET" ->
  api_key_present request ->
  Validation.isValidPeriod (requested_period request) = false ->
  weather_history_api.HandleRequest h request w
  = (Return (weather_history_api.error_response http.StatusBadRequest
               "Invalid period parameter"), w).
Proof.
  intros Hget Hkey Hinvalid. unfold weather_history_api.HandleRequest.
  rewrite Hget, (key_check _ Hkey). cbn [String.eqb Ascii.eqb Bool.eqb negb].
  cbv zeta. rewrite period_param, Hinvalid. reflexivity.
Qed.

(** A request that passes the three checks queries the window of the
    resolved duration that ends now, and answers from the scan. *)
Lemma HandleRequest_accepted (h : weather_history_api.Handler)
    (request : weather_history_api.APIGatewayProxyRequest) (w : World) (n : Z) :
  weather_history_api.HTTPMethod request = "GET" ->
  api_key_present request ->
  Validation.isValidPeriod (requested_period request) = true ->
  resolved_hours (requested_period request) = Some n ->
  let now := clock w (ticks w) in
  let startTime := time.Add now (- n * time.Hour) in
  let answer := dynamodb.scan_answer
                  (handlers.client (weather_history_api.dynamoHandler h))
                  (window_scan h request w n) in
  let w' := add_call (tick w) (CallScan (window_scan h request w n)) in
  weather_history_api.HandleRequest h request w =
  match dynamodb.failure answer with
  | Some err =>
    (Return (weather_history_api.error_response http.StatusInternalServerError
               "Failed to retrieve weather history"),
     add_log w' "Error getting weather history: %v"
             [AStr (Errorf "failed to scan weather history: " err)])
  | None =>
    let records := sort_Slice handlers.timestamp_less
                     (unmarshalled (scanned_items (dynamodb.pages answer))) in
    let response := {|
      weather_history_api.StatusCode := http.StatusOK;
      weather_history_api.Message := "Weather history retrieved successfully";
      weather_history_api.Data := records;
      weather_history_api.Count := Z.of_nat (length records);
      weather_history_api.Period := requested_period request;
      weather_history_api.StartTime := time.Format startTime time.RFC3339;
      weather_history_api.EndTime := time.Format now time.RFC3339 |} in
    match weather_history_api.json_Marshal response with
    | inl err =>
      (Return (weather_history_api.error_response http.StatusInternalServerError
                 "Failed to create response"),
       add_log w' "Error marshaling response: %v" [AStr err])
    | inr body =>
      (Return (weather_history_api.mkProxyResponse http.StatusOK
                 weather_history_api.cors_headers body), w')
    end
  end.
Proof.
  intros Hget Hkey Hvalid Hhours now startTime answer w'.
  destruct (valid_period_duration _ Hvalid) as (n' & _ & Hn' & Hduration).
  assert (n' = n) as -> by congruence.
  unfold weather_history_api.HandleRequest.
  rewrite Hget, (key_check _ Hkey). cbn [String.eqb Ascii.eqb Bool.eqb negb].
  cbv zeta. rewrite period_param, Hvalid, city_param. cbn [negb].
  rewrite bind_run, query_period_eq, Hduration.
  assert (Hquery : weather_history_api.query_window h (requested_city h request)
                     (- n * time.Hour) w
                   = (Return (match dynamodb.failure answer with
                              | Some err => inl (Errorf "failed to scan weather history: " err)
                              | None => inr (sort_Slice handlers.timestamp_less
                                               (unmarshalled (scanned_items
                                                                (dynamodb.pages answer))))
                              end, startTime, now), w')).
  { unfold weather_history_api.query_window.
    rewrite (bind_return _ _ _ _ _ (now_run w)).
    rewrite (bind_return _ _ _ _ _ (GetWeatherHistory_run _ _ _ _ _)).
    reflexivity. }
  rewrite (fmap_run _ _ _ _ _ Hquery).
  destruct (dynamodb.failure answer) as [err|]; [reflexivity|].
  cbv zeta. destruct (weather_history_api.json_Marshal _); reflexivity.
Qed.

End Endpoint.

Section EndpointClaims.
Context `{!time.Formatter, !Sorter, !Codec}.
Import models.

(** C1 (the code departs from it): a period of 109 hours lies between 1 and
    168, yet a GET request carrying an API key and [period=109] is answered
    400 [Invalid period parameter]; the same holds for 119, 129, 139, 149
    and 159. *)
Theorem C1_period_109_rejected (h : weather_history_api.Handler) (w : World) :
  resolved_hours "109" = Some 109
  /\ Forall (fun period : string =>
              weather_history_api.HandleRequest h
                (weather_history_api.mkRequest "GET"
                   {[ "X-API-Key" := "secret" ]} {[ "period" := period ]}) w
              = (Return (weather_history_api.error_response http.StatusBadRequest
                           "Invalid period parameter"), w))
            ["109"; "119"; "129"; "139"; "149"; "159"].
Proof.
  split; [vm_compute; reflexivity|].
  repeat constructor; apply HandleRequest_invalid_period;
    solve [ vm_compute; reflexivity
          | exists "secret"; split; [discriminate | left; vm_compute; reflexivity] ].
Qed.

(** The part of C1 that holds: a GET request with an API key whose period
    the pattern accepts is answered from the scan of the window that ends
    now and starts the resolved number of hours earlier; every other period
    is answered 400 [Invalid period parameter]. *)
Lemma period_window (h : weather_history_api.Handler)
    (request : weather_history_api.APIGatewayProxyRequest) (w : World) :
  weather_history_api.HTTPMethod request = "GET" ->
  api_key_present request ->
  if Validation.isValidPeriod (requested_period request) then
    exists n : Z,
      resolved_hours (requested_period request) = Some n
      /\ calls (snd (weather_history_api.HandleRequest h request w))
         = (calls w ++ [CallScan (window_scan h request w n)])%list
  else
    weather_history_api.HandleRequest h request w
    = (Return (weather_history_api.error_response http.StatusBadRequest
                 "Invalid period parameter"), w).
Proof.
  intros Hget Hkey.
  destruct (Validation.isValidPeriod (requested_period request)) eqn:Hvalid;
    [|now apply HandleRequest_invalid_period].
  destruct (valid_period_duration _ Hvalid) as (n & _ & Hn & _).
  exists n. split; [exact Hn|].
  rewrite (HandleRequest_accepted h request w n Hget Hkey Hvalid Hn).
  cbv zeta. repeat case_match; reflexivity.
Qed.

(** C2 (amended): for each of the period values [0], [169], [abc] and [-5]
    a GET request carrying an API key is answered 400. *)
Theorem C2_invalid_periods_rejected (h : weather_history_api.Handler)
    (request : weather_history_api.APIGatewayProxyRequest) (w : World)
    (period : string) :
  weather_history_api.HTTPMethod request = "GET" ->
  api_key_present request ->
  weather_history_api.QueryStringParameters request !! "period" = Some period ->
  period ∈ ["0"; "169"; "abc"; "-5"] ->
  weather_history_api.HandleRequest h request w
  = (Return (weather_history_api.error_response http.StatusBadRequest
               "Invalid period parameter"), w)
  /\ weather_history_api.resp_StatusCode
       (weather_history_api.error_response http.StatusBadRequest
          "Invalid period parameter") = 400.
Proof.
  intros Hget Hkey Hparam Hin. split; [|reflexivity].
  apply HandleRequest_invalid_period; try assumption.
  unfold requested_period. rewrite Hparam.
  rewrite !elem_of_cons, elem_of_nil in Hin.
  destruct Hin as [->|[->|[->|[->|[]]]]]; vm_compute; reflexivity.
Qed.

(** The part of C5 that holds: a GET request with neither of the two
    header names the handler reads is answered 401 whatever its period and
    city, and nothing is queried. *)
Lemma missing_key_unauthorized (h : weather_history_api.Handler)
    (request : weather_history_api.APIGatewayProxyRequest) (w : World) :
  weather_history_api.HTTPMethod request = "GET" ->
  weather_history_api.Headers request !! "X-API-Key" = None ->
  weather_history_api.Headers request !! "x-api-key" = None ->
  weather_history_api.HandleRequest h request w
  = (Return (weather_history_api.error_response http.StatusUnauthorized
               "API key required"),
     add_log w "Missing API key in request" []).
Proof.
  intros Hget Hk1 Hk2. unfold weather_history_api.HandleRequest.
  rewrite Hget, !lookup_total_alt, Hk1, Hk2. reflexivity.
Qed.

(** C5 (the code departs from it): a GET request that carries the key
    under the header name [X-Api-Key] is answered 401. *)
Theorem C5_mixed_case_header_unauthorized (h : weather_history_api.Handler)
    (w : World) (key : string) (params : gmap string string) :
  weather_history_api.HandleRequest h
    (weather_history_api.mkRequest "GET" {[ "X-Api-Key" := key ]} params) w
  = (Return (weather_history_api.error_response http.StatusUnauthorized
               "API key required"),
     add_log w "Missing API key in request" []).
Proof.
  apply missing_key_unauthorized; [reflexivity | vm_compute; reflexivity ..].
Qed.

(** C10: when the scan of the requested window succeeds and yields no
    record, the history handler answers 200 with a count of 0. *)
Theorem C10_empty_history_is_success (h : weather_history_api.Handler)
    (request : weather_history_api.APIGatewayProxyRequest) (w : World) (n : Z) :
  weather_history_api.HTTPMethod request = "GET" ->
  api_key_present request ->
  Validation.isValidPeriod (requested_period request) = true ->
  resolved_hours (requested_period request) = Some n ->
  let answer := dynamodb.scan_answer
                  (handlers.client (weather_history_api.dynamoHandler h))
                  (window_scan h request w n) in
  dynamodb.failure answer = None ->
  unmarshalled (scanned_items (dynamodb.pages answer)) = [] ->
  exists r : weather_history_api.WeatherHistoryResponse,
    fst (weather_history_api.HandleRequest h request w)
    = Return (weather_history_api.mkProxyResponse 200
                weather_history_api.cors_headers (weather_history_api.JSON r))
    /\ weather_history_api.StatusCode r = 200
    /\ weather_history_api.Count r = 0
    /\ weather_history_api.Data r = [].
Proof.
  intros Hget Hkey Hvalid Hn answer Hok Hnone.
  rewrite (HandleRequest_accepted h request w n Hget Hkey Hvalid Hn).
  fold answer. rewrite Hok, Hnone.
  assert (sort_Slice handlers.timestamp_less (@nil WeatherRecord.t) = []) as ->
    by (apply Permutation_nil_r, sort_Slice_perm).
  cbv zeta. eexists. split; [reflexivity|]. repeat split.
Qed.

End EndpointClaims.

Section EndpointRuns.
#[local] Existing Instance Sample.utc_Formatter.
#[local] Existing Instance insertion_Sorter.
#[local] Existing Instance Sample.codec.

(** C2, as stated, fails: the period [6] is a number of hours between 1
    and 168 and is accepted. *)
Lemma C2_counterexample :
  exists r : weather_history_api.WeatherHistoryResponse,
    Scenario.serve [] (Scenario.get [("X-API-Key", "secret")] [("period", "6")])
    = Return (weather_history_api.mkProxyResponse 200
                weather_history_api.cors_headers (weather_history_api.JSON r))
    /\ weather_history_api.Period r = "6"
    /\ weather_history_api.StartTime r = "2023-11-14T16:13:20Z"
    /\ weather_history_api.EndTime r = "2023-11-14T22:13:20Z".
Proof. eexists. vm_compute. repeat split. Qed.

Lemma C2_invalid_periods_rejected_witness :
  Scenario.serve [] (Scenario.get [("x-api-key", "secret")] [("period", "169")])
  = Return (weather_history_api.error_response 400 "Invalid period parameter").
Proof.
  assert (Hkey : api_key_present
                   (Scenario.get [("x-api-key", "secret")] [("period", "169")])).
  { exists "secret". split; [discriminate|]. right. vm_compute. reflexivity. }
  assert (Hparam : weather_history_api.QueryStringParameters
                     (Scenario.get [("x-api-key", "secret")] [("period", "169")])
                   !! "period" = Some "169") by (vm_compute; reflexivity).
  assert (Hin : "169" ∈ ["0"; "169"; "abc"; "-5"])
    by (apply list_elem_of_In; simpl; auto).
  pose proof (C2_invalid_periods_rejected (Scenario.api [])
                (Scenario.get [("x-api-key", "secret")] [("period", "169")])
                Scenario.world0 "169" eq_refl Hkey Hparam Hin) as [Hrun _].
  unfold Scenario.serve. rewrite Hrun. reflexivity.
Defined.

Lemma C10_empty_history_is_success_witness :
  exists r : weather_history_api.WeatherHistoryResponse,
    Scenario.serve [dynamodb.mkScanOutput []]
      (Scenario.get [("X-API-Key", "secret")] [("period", "24h"); ("city", "Osaka")])
    = Return (weather_history_api.mkProxyResponse 200
                weather_history_api.cors_headers (weather_history_api.JSON r))
    /\ weather_history_api.Count r = 0.
Proof.
  assert (Hkey : api_key_present
                   (Scenario.get [("X-API-Key", "secret")]
                                 [("period", "24h"); ("city", "Osaka")])).
  { exists "secret". split; [discriminate|]. left. vm_compute. reflexivity. }
  assert (Hvalid : Validation.isValidPeriod
                     (requested_period
                        (Scenario.get [("X-API-Key", "secret")]
                                      [("period", "24h"); ("city", "Osaka")])) = true)
    by (vm_compute; reflexivity).
  assert (Hhours : resolved_hours
                     (requested_period
                        (Scenario.get [("X-API-Key", "secret")]
                                      [("period", "24h"); ("city", "Osaka")])) = Some 24)
    by (vm_compute; reflexivity).
  destruct (C10_empty_history_is_success (Scenario.api [dynamodb.mkScanOutput []])
              (Scenario.get [("X-API-Key", "secret")]
                            [("period", "24h"); ("city", "Osaka")])
              Scenario.world0 24 eq_refl Hkey Hvalid Hhours eq_refl eq_refl)
    as (r & Hrun & _ & Hcount & _).
  exists r. split; [exact Hrun | exact Hcount].
Defined.

End EndpointRuns.

(** ** The collector *)

Definition commit_item (w : World) (input : dynamodb.PutItemInput) : World :=
  mkWorld (clock w) (ticks w) (table w ++ [input]) (bucket w) (calls w) (logs w).

Definition commit_object (w : World) (input : s3.PutObjectInput) : World :=
  mkWorld (clock w) (ticks w) (table w) (bucket w ++ [input]) (calls w) (logs w).

Lemma http_Get_run (c : http.Client) (url : string) (w : World) :
  http_Get c url w = (Return (http.get_answer c url), add_call w (CallGet url)).
Proof. reflexivity. Qed.

Lemma PutItem_run (c : dynamodb.DynamoDB) (input : dynamodb.PutItemInput) (w : World) :
  PutItem c input w =
  match dynamodb.put_error c input with
  | Some err => (Return (Some err), add_call w (CallPutItem input))
  | None => (Return None, commit_item (add_call w (CallPutItem input)) input)
  end.
Proof.
  unfold PutItem. rewrite bind_run. cbn [record_call].
  destruct (dynamodb.put_error c input); reflexivity.
Qed.

Lemma PutObject_run (c : s3.S3) (input : s3.PutObjectInput) (w : World) :
  PutObject c input w =
  match s3.put_error c input with
  | Some err => (Return (Some err), add_call w (CallPutObject input))
  | None => (Return None, commit_object (add_call w (CallPutObject input)) input)
  end.
Proof.
  unfold PutObject. rewrite bind_run. cbn [record_call].
  destruct (s3.put_error c input); reflexivity.
Qed.

Section Collector.
Context `{!time.Formatter, !Sorter, !Codec}.
Import models.

(** The provider answers the request of the service with a document that
    parses to [response]. *)
Definition provider_returns (ws : services.WeatherService)
    (url : string) (response : WeatherResponse.t) : Prop :=
  let cfg := config.Weather (services.config ws) in
  url_with_query (config.APIURL cfg)
    [("q", config.CityName cfg); ("appid", config.APIKey cfg); ("units", "metric")]
  = inr url
  /\ exists body : string,
       http.get_answer (services.client ws) url = inr (http.mkResponse 200 body None)
       /\ json_Unmarshal body = inr response.

Lemma GetWeatherData_ok (ws : services.WeatherService) (url : string)
    (response : WeatherResponse.t) (w : World) :
  provider_returns ws url response ->
  services.GetWeatherData ws w = (Return (inr response), add_call w (CallGet url)).
Proof.
  intros (Hurl & body & Hget & Hparse). unfold services.GetWeatherData.
  cbv zeta. rewrite Hurl.
  rewrite (bind_return _ _ _ _ _ (http_Get_run _ _ _)), Hget.
  cbn [http.StatusCode http.ReadErr http.Body].
  change (200 =? http.StatusOK) with true. cbn [negb]. now rewrite Hparse.
Qed.

(** The record [ConvertToWeatherRecord] builds from a reading at the
    instant [now]. *)
Definition converted (response : WeatherResponse.t) (now : time.Time)
    : WeatherRecord.t := {|
  WeatherRecord.ID :=
    WeatherResponse.Name response ++ "-" ++ strconv.Itoa (time.Unix now);
  WeatherRecord.Timestamp := time.Format now time.RFC3339;
  WeatherRecord.CityName := WeatherResponse.Name response;
  WeatherRecord.Temperature := Main.Temp (WeatherResponse.Main response);
  WeatherRecord.Description :=
    match WeatherResponse.Weather response with
    | first :: _ => Weather.Description first
    | [] => EmptyString
    end;
  WeatherRecord.Humidity := Main.Humidity (WeatherResponse.Main response);
  WeatherRecord.Pressure := Main.Pressure (WeatherResponse.Main response);
  WeatherRecord.WindSpeed := Wind.Speed (WeatherResponse.Wind response);
  WeatherRecord.Country := Sys.Country (WeatherResponse.Sys response);
  WeatherRecord.CreatedAt := now;
  WeatherRecord.TTL := time.Unix (time.Add now (30 * 24 * time.Hour)) |}.

(** The conversion always returns: the condition list is only indexed
    when it is not empty. *)
Lemma ConvertToWeatherRecord_run (ws : services.WeatherService)
    (response : WeatherResponse.t) (w : World) :
  services.ConvertToWeatherRecord ws response w
  = (Return (converted response (clock w (ticks w))), tick w).
Proof.
  unfold services.ConvertToWeatherRecord, converted.
  rewrite (bind_return _ _ _ _ _ (now_run w)).
  destruct (WeatherResponse.Weather response) as [|first rest]; reflexivity.
Qed.

Definition put_item_input (h : handlers.DynamoDBHandler) (av : dynamodb.Item)
    : dynamodb.PutItemInput :=
  {| dynamodb.put_TableName := handlers.tableName h; dynamodb.put_Item := av |}.

Lemma StoreWeatherRecord_run (h : handlers.DynamoDBHandler)
    (record : WeatherRecord.t) (w : World) :
  handlers.StoreWeatherRecord h record w =
  match MarshalMap record with
  | inl err => (Return (Some (Errorf "failed to marshal weather record: " err)), w)
  | inr av =>
    let input := put_item_input h av in
    match dynamodb.put_error (handlers.client h) input with
    | Some err =>
      (Return (Some (Errorf "failed to put item to DynamoDB: " err)),
       add_call w (CallPutItem input))
    | None => (Return None, commit_item (add_call w (CallPutItem input)) input)
    end
  end.
Proof.
  unfold handlers.StoreWeatherRecord.
  destruct (MarshalMap record) as [err|av]; [reflexivity|].
  fold (put_item_input h av). cbv zeta.
  rewrite bind_run, PutItem_run.
  destruct (dynamodb.put_error _ _); reflexivity.
Qed.

(** The object [StoreWeatherData] uploads at the instant [now]. *)
Definition put_object_input (h : handlers.S3Handler) (data : S3WeatherData.t)
    (now : time.Time) (jsonData : string) : s3.PutObjectInput :=
  let record := S3WeatherData.WeatherRecord data in
  {| s3.Bucket := handlers.bucket h;
     s3.Key := "weather-data/" ++ time.Format now "2006" ++ "/"
               ++ time.Format now "01-02" ++ "/" ++ WeatherRecord.ID record ++ ".json";
     s3.Body := jsonData;
     s3.ContentType := "application/json";
     s3.Metadata :=
       {[ "city" := WeatherRecord.CityName record;
          "country" := WeatherRecord.Country record;
          "temperature" := Sprintf_2f (WeatherRecord.Temperature record);
          "timestamp" := WeatherRecord.Timestamp record ]} |}.

Lemma StoreWeatherData_run (h : handlers.S3Handler) (data : S3WeatherData.t)
    (w : World) :
  handlers.StoreWeatherData h data w =
  match json_MarshalIndent data with
  | inl err => (Return (Some (Errorf "failed to marshal weather data: " err)), w)
  | inr jsonData =>
    let input := put_object_input h data (clock w (ticks w)) jsonData in
    match s3.put_error (handlers.s3_client h) input with
    | Some err =>
      (Return (Some (Errorf "failed to upload to S3: " err)),
       add_call (tick w) (CallPutObject input))
    | None =>
      (Return None, commit_object (add_call (tick w) (CallPutObject input)) input)
    end
  end.
Proof.
  unfold handlers.StoreWeatherData.
  destruct (json_MarshalIndent data) as [err|jsonData]; [reflexivity|].
  rewrite (bind_return _ _ _ _ _ (now_run w)). cbv zeta.
  fold (put_object_input h data (clock w (ticks w)) jsonData).
  rewrite bind_run, PutObject_run.
  destruct (s3.put_error _ _); reflexivity.
Qed.

End Collector.

Section CollectorClaims.
Context `{!time.Formatter, !Sorter, !Codec}.
Import models.

Lemma index_head {A} (first : A) (rest : list A) (w : World) :
  index (first :: rest) 0 w = (Return first, w).
Proof. reflexivity. Qed.

Lemma index_empty {A} (w : World) :
  index (@nil A) 0 w = (Panic "runtime error: index out of range", w).
Proof. reflexivity. Qed.

(** C3 (the code departs from it): when the provider's response has an
    empty condition list the collector handler panics, before anything is
    stored, on the condition it indexes for its log line; the record
    mapper on the same response returns a record with an empty
    description. *)
Theorem C3_empty_conditions_panic (h : weather_lambda.Handler)
    (event : weather_lambda.Event) (w : World) (url : string)
    (response : WeatherResponse.t) :
  provider_returns (weather_lambda.weatherService h) url response ->
  WeatherResponse.Weather response = [] ->
  fst (weather_lambda.HandleRequest h event w)
  = Panic "runtime error: index out of range"
  /\ table (snd (weather_lambda.HandleRequest h event w)) = table w
  /\ bucket (snd (weather_lambda.HandleRequest h event w)) = bucket w
  /\ exists record : WeatherRecord.t,
       fst (services.ConvertToWeatherRecord (weather_lambda.weatherService h)
              response w) = Return record
       /\ WeatherRecord.Description record = EmptyString.
Proof.
  intros Hprov Hempty.
  assert (Hrun : weather_lambda.HandleRequest h event w
                 = (Panic "runtime error: index out of range",
                    add_call (add_log w "Processing weather data collection for city: %s"
                                [AStr (config.CityName
                                         (config.Weather (weather_lambda.config h)))])
                             (CallGet url))).
  { unfold weather_lambda.HandleRequest.
    rewrite (bind_return _ _ _ _ _ (log_run _ _ _)).
    rewrite (bind_return _ _ _ _ _ (GetWeatherData_ok _ _ _ _ Hprov)).
    rewrite Hempty, bind_run, index_empty. reflexivity. }
  rewrite Hrun. repeat split.
  rewrite ConvertToWeatherRecord_run. eexists. split; [reflexivity|].
  unfold converted. now rewrite Hempty.
Qed.

(** C4: [ConvertToWeatherRecord] at the collection time [now] produces a
    record whose identifier is the city name, a hyphen and the Unix
    seconds of [now], whose TTL is those seconds plus 2592000, whose
    temperature, humidity, pressure, wind speed and country are those of
    the reading, and whose description is that of the first condition when
    there is one; the reading of the unit test maps to the identifier
    [Tokyo-<seconds>], the temperature 25.5 and the description
    [Clear sky]. *)
Theorem C4_ConvertToWeatherRecord (ws : services.WeatherService)
    (response : WeatherResponse.t) (w : World) :
  let now := clock w (ticks w) in
  0 <= time.nsec now < time.Second ->
  exists record : WeatherRecord.t,
    services.ConvertToWeatherRecord ws response w = (Return record, tick w)
    /\ WeatherRecord.ID record
       = WeatherResponse.Name response ++ "-" ++ strconv.Itoa (time.Unix now)
    /\ WeatherRecord.TTL record = time.Unix now + 2592000
    /\ WeatherRecord.Temperature record = Main.Temp (WeatherResponse.Main response)
    /\ WeatherRecord.Humidity record = Main.Humidity (WeatherResponse.Main response)
    /\ WeatherRecord.Pressure record = Main.Pressure (WeatherResponse.Main response)
    /\ WeatherRecord.WindSpeed record = Wind.Speed (WeatherResponse.Wind response)
    /\ WeatherRecord.Country record = Sys.Country (WeatherResponse.Sys response)
    /\ (forall first rest,
          WeatherResponse.Weather response = first :: rest ->
          WeatherRecord.Description record = Weather.Description first)
    /\ (response = Sample.tokyo_reading ->
        WeatherRecord.ID record = "Tokyo-" ++ strconv.Itoa (time.Unix now)
        /\ WeatherRecord.Temperature record = 25.5%float
        /\ WeatherRecord.Description record = "Clear sky"
        /\ WeatherRecord.TTL record = time.Unix now + 2592000).
Proof.
  intros now Hnsec. exists (converted response now).
  assert (Httl : time.Unix (time.Add now (30 * 24 * time.Hour)) = time.Unix now + 2592000).
  { unfold time.Add. change (30 * 24 * time.Hour) with (2592000 * time.Second).
    rewrite Z.quot_mul, Z.rem_mul by discriminate. rewrite Z.add_0_r.
    destruct (time.Second <=? time.nsec now) eqn:Hhi; [lia|].
    destruct (time.nsec now <? 0) eqn:Hlo; [lia|]. reflexivity. }
  split; [apply ConvertToWeatherRecord_run|].
  split; [reflexivity|]. split; [exact Httl|].
  do 5 (split; [reflexivity|]). split.
  - intros first rest Hweather. unfold converted. simpl. now rewrite Hweather.
  - intros ->. repeat split; try reflexivity. exact Httl.
Qed.

(** C9: the collector writes to the table store before it writes to the
    blob store; when the blob write fails after the table write succeeded
    it returns status 500 with the error of the failing step and the item
    stays in the table; when both writes succeed it returns status 200
    with the city, temperature, description, timestamp and record id. *)
Theorem C9_collector_writes (h : weather_lambda.Handler)
    (event : weather_lambda.Event) (w : World) (url : string)
    (response : WeatherResponse.t) (first : Weather.t) (rest : list Weather.t) :
  provider_returns (weather_lambda.weatherService h) url response ->
  WeatherResponse.Weather response = first :: rest ->
  let record := converted response (clock w (ticks w)) in
  let data := services.ConvertToS3Data (weather_lambda.weatherService h)
                response record in
  let out := weather_lambda.HandleRequest h event w in
  match MarshalMap record with
  | inl err =>
    fst out = Return (weather_lambda.mkResponse 500
                ("Failed to store to DynamoDB: failed to marshal weather record: "
                 ++ err) None)
    /\ table (snd out) = table w /\ bucket (snd out) = bucket w
    /\ calls (snd out) = (calls w ++ [CallGet url])%list
  | inr av =>
    let put := put_item_input (weather_lambda.dynamoDBHandler h) av in
    match dynamodb.put_error
            (handlers.client (weather_lambda.dynamoDBHandler h)) put with
    | Some err =>
      fst out = Return (weather_lambda.mkResponse 500
                  ("Failed to store to DynamoDB: failed to put item to DynamoDB: "
                   ++ err) None)
      /\ table (snd out) = table w /\ bucket (snd out) = bucket w
      /\ calls (snd out) = (calls w ++ [CallGet url; CallPutItem put])%list
    | None =>
      table (snd out) = (table w ++ [put])%list
      /\ match json_MarshalIndent data with
         | inl err =>
           fst out = Return (weather_lambda.mkResponse 500
                       ("Failed to store to S3: failed to marshal weather data: "
                        ++ err) None)
           /\ bucket (snd out) = bucket w
           /\ calls (snd out) = (calls w ++ [CallGet url; CallPutItem put])%list
         | inr jsonData =>
           let object := put_object_input (weather_lambda.s3Handler h) data
                           (clock w (S (ticks w))) jsonData in
           calls (snd out)
           = (calls w ++ [CallGet url; CallPutItem put; CallPutObject object])%list
           /\ match s3.put_error
                       (handlers.s3_client (weather_lambda.s3Handler h)) object with
              | Some err =>
                fst out = Return (weather_lambda.mkResponse 500
                            ("Failed to store to S3: failed to upload to S3: "
                             ++ err) None)
                /\ bucket (snd out) = bucket w
              | None =>
                fst out = Return (weather_lambda.mkResponse 200
                            "Weather data processed successfully"
                            (Some {[ "city" := AStr (WeatherRecord.CityName record);
                                     "temperature" :=
                                       AFloat (WeatherRecord.Temperature record);
                                     "description" :=
                                       AStr (WeatherRecord.Description record);
                                     "timestamp" :=
                                       AStr (WeatherRecord.Timestamp record);
                                     "recordId" := AStr (WeatherRecord.ID record) ]}))
                /\ bucket (snd out) = (bucket w ++ [object])%list
              end
         end
    end
  end.
Proof.
  intros Hprov Hweather record data out. unfold out, weather_lambda.HandleRequest.
  rewrite (bind_return _ _ _ _ _ (log_run _ _ _)).
  rewrite (bind_return _ _ _ _ _ (GetWeatherData_ok _ _ _ _ Hprov)).
  rewrite Hweather, (bind_return _ _ _ _ _ (index_head _ _ _)).
  rewrite (bind_return _ _ _ _ _ (log_run _ _ _)).
  rewrite (bind_return _ _ _ _ _ (ConvertToWeatherRecord_run _ _ _)).
  cbn [clock ticks add_log add_call tick]. fold record. cbv zeta. fold data.
  rewrite bind_run, StoreWeatherRecord_run.
  destruct (MarshalMap record) as [err|av].
  { rewrite (bind_return _ _ _ _ _ (log_run _ _ _)). cbn.
    rewrite <- ?app_assoc. repeat split. }
  cbv zeta. destruct (dynamodb.put_error _ _) as [err|].
  { rewrite (bind_return _ _ _ _ _ (log_run _ _ _)). cbn.
    rewrite <- ?app_assoc. repeat split. }
  rewrite (bind_return _ _ _ _ _ (log_run _ _ _)).
  rewrite bind_run, StoreWeatherData_run.
  cbn [clock ticks add_log add_call tick commit_item].
  destruct (json_MarshalIndent data) as [err|jsonData].
  { rewrite (bind_return _ _ _ _ _ (log_run _ _ _)). cbn.
    rewrite <- ?app_assoc. repeat split. }
  cbv zeta. destruct (s3.put_error _ _) as [err|].
  { rewrite (bind_return _ _ _ _ _ (log_run _ _ _)). cbn.
    rewrite <- ?app_assoc. repeat split. }
  rewrite (bind_return _ _ _ _ _ (log_run _ _ _)). cbn.
  rewrite <- ?app_assoc. repeat split.
Qed.

End CollectorClaims.

Section CollectorRuns.
#[local] Existing Instance Sample.utc_Formatter.
#[local] Existing Instance insertion_Sorter.
#[local] Existing Instance Sample.codec.

Lemma sample_provider (document : string) (response : models.WeatherResponse.t)
    (table_error bucket_error : option error) :
  Sample.unmarshal_document document = inr response ->
  provider_returns
    (weather_lambda.weatherService
       (Scenario.collector document table_error bucket_error))
    "https://api.openweathermap.org/data/2.5/weather?q=Tokyo&appid=secret&units=metric"
    response.
Proof.
  intros Hdoc. split; [vm_compute; reflexivity|].
  exists document. split; [reflexivity | exact Hdoc].
Qed.

Lemma C3_empty_conditions_panic_witness :
  fst (Scenario.collect Sample.tokyo_no_conditions_document None None)
  = Panic "runtime error: index out of range".
Proof.
  exact (proj1 (C3_empty_conditions_panic
                  (Scenario.collector Sample.tokyo_no_conditions_document None None)
                  (weather_lambda.mkEvent EmptyString) Scenario.world0 _
                  Sample.tokyo_no_conditions
                  (sample_provider Sample.tokyo_no_conditions_document
                     Sample.tokyo_no_conditions None None
                     ltac:(vm_compute; reflexivity))
                  eq_refl)).
Defined.

Lemma C4_ConvertToWeatherRecord_witness :
  exists record : models.WeatherRecord.t,
    fst (Scenario.convert Sample.tokyo_reading) = Return record
    /\ models.WeatherRecord.ID record = "Tokyo-1700000000"
    /\ models.WeatherRecord.TTL record = 1702592000
    /\ models.WeatherRecord.Temperature record = 25.5%float
    /\ models.WeatherRecord.Description record = "Clear sky".
Proof.
  destruct (C4_ConvertToWeatherRecord
              (services.mkWeatherService Scenario.cfg
                 (http.mkClient (fun _ => inl "offline")))
              Sample.tokyo_reading Scenario.world0
              ltac:(cbn; unfold time.Second; lia))
    as (record & Hrun & Hid & Httl & Htemp & _ & _ & _ & _ & Hdesc & _).
  exists record. unfold Scenario.convert. rewrite Hrun.
  split; [reflexivity|]. split; [rewrite Hid; vm_compute; reflexivity|].
  split; [rewrite Httl; reflexivity|]. split; [rewrite Htemp; reflexivity|].
  exact (Hdesc _ _ eq_refl).
Defined.

Lemma C9_collector_writes_witness :
  fst (Scenario.collect Sample.tokyo_document None (Some "AccessDenied"))
  = Return (weather_lambda.mkResponse 500
              "Failed to store to S3: failed to upload to S3: AccessDenied" None)
  /\ length (table (snd (Scenario.collect Sample.tokyo_document None
                            (Some "AccessDenied")))) = 1%nat
  /\ bucket (snd (Scenario.collect Sample.tokyo_document None
                     (Some "AccessDenied"))) = [].
Proof.
  pose proof (C9_collector_writes
                (Scenario.collector Sample.tokyo_document None (Some "AccessDenied"))
                (weather_lambda.mkEvent EmptyString) Scenario.world0 _
                Sample.tokyo_reading _ _
                (sample_provider Sample.tokyo_document Sample.tokyo_reading
                                 None (Some "AccessDenied")
                                 ltac:(vm_compute; reflexivity))
                eq_refl) as Hrun.
  cbv zeta in Hrun. cbn [MarshalMap Sample.codec Sample.marshal_map] in Hrun.
  cbn [dynamodb.put_error Scenario.collector weather_lambda.dynamoDBHandler
       handlers.client json_MarshalIndent Sample.marshal_document
       s3.put_error handlers.s3_client weather_lambda.s3Handler] in Hrun.
  destruct Hrun as (Htable & _ & Hresp & Hbucket).
  unfold Scenario.collect. rewrite Hresp, Htable, Hbucket.
  split; [reflexivity|]. split; reflexivity.
Defined.

End CollectorRuns.

(** * Further properties of the history endpoint *)

Section EndpointPaths.
Context `{!time.Formatter, !Sorter, !Codec}.
Import models.

Lemma key_check_absent (request : weather_history_api.APIGatewayProxyRequest) :
  ~ api_key_present request ->
  String.eqb (weather_history_api.Headers request !!! "X-API-Key") EmptyString
  && String.eqb (weather_history_api.Headers request !!! "x-api-key") EmptyString
  = true.
Proof.
  intros Habsent. rewrite !lookup_total_alt. apply andb_true_iff. split.
  - destruct (weather_history_api.Headers request !! "X-API-Key") as [v|] eqn:Hk;
      [|reflexivity].
    apply String.eqb_eq. destruct (String.eqb_spec v EmptyString) as [->|Hv];
      [reflexivity|]. exfalso. apply Habsent. exists v. auto.
  - destruct (weather_history_api.Headers request !! "x-api-key") as [v|] eqn:Hk;
      [|reflexivity].
    apply String.eqb_eq. destruct (String.eqb_spec v EmptyString) as [->|Hv];
      [reflexivity|]. exfalso. apply Habsent. exists v. auto.
Qed.

Lemma api_key_present_dec (request : weather_history_api.APIGatewayProxyRequest) :
  api_key_present request \/ ~ api_key_present request.
Proof.
  destruct (String.eqb (weather_history_api.Headers request !!! "X-API-Key") EmptyString
            && String.eqb (weather_history_api.Headers request !!! "x-api-key")
                          EmptyString) eqn:Hcheck.
  - right. intros Hkey. rewrite (key_check _ Hkey) in Hcheck. discriminate.
  - left. rewrite !lookup_total_alt in Hcheck. apply andb_false_iff in Hcheck.
    destruct Hcheck as [Hk|Hk]; apply String.eqb_neq in Hk.
    + destruct (weather_history_api.Headers request !! "X-API-Key") as [v|] eqn:Hv;
        [exists v; auto | now destruct Hk].
    + destruct (weather_history_api.Headers request !! "x-api-key") as [v|] eqn:Hv;
        [exists v; auto | now destruct Hk].
Qed.

(** The four early exits of the handler, and the requests that get past
    them. *)
Lemma HandleRequest_paths (h : weather_history_api.Handler)
    (request : weather_history_api.APIGatewayProxyRequest) (w : World) :
  (weather_history_api.HTTPMethod request = "OPTIONS"
   /\ weather_history_api.HandleRequest h request w
      = (Return (weather_history_api.mkProxyResponse http.StatusOK
                   weather_history_api.cors_headers
                   (weather_history_api.Text EmptyString)), w))
  \/ (weather_history_api.HTTPMethod request <> "OPTIONS"
      /\ weather_history_api.HTTPMethod request <> "GET"
      /\ weather_history_api.HandleRequest h request w
         = (Return (weather_history_api.error_response http.StatusMethodNotAllowed
                      "Method not allowed"), w))
  \/ (weather_history_api.HTTPMethod request = "GET"
      /\ ~ api_key_present request
      /\ weather_history_api.HandleRequest h request w
         = (Return (weather_history_api.error_response http.StatusUnauthorized
                      "API key required"),
            add_log w "Missing API key in request" []))
  \/ (weather_history_api.HTTPMethod request = "GET"
      /\ api_key_present request
      /\ Validation.isValidPeriod (requested_period request) = false
      /\ weather_history_api.HandleRequest h request w
         = (Return (weather_history_api.error_response http.StatusBadRequest
                      "Invalid period parameter"), w))
  \/ (weather_history_api.HTTPMethod request = "GET"
      /\ api_key_present request
      /\ Validation.isValidPeriod (requested_period request) = true
      /\ exists n : Z,
           1 <= n <= 168 /\ resolved_hours (requested_period request) = Some n).
Proof.
  destruct (String.eqb_spec (weather_history_api.HTTPMethod request) "OPTIONS")
    as [Hoptions|Hoptions].
  { left. split; [exact Hoptions|]. unfold weather_history_api.HandleRequest.
    now rewrite Hoptions. }
  right.
  destruct (String.eqb_spec (weather_history_api.HTTPMethod request) "GET")
    as [Hget|Hget].
  2:{ left. repeat split; try assumption.
      unfold weather_history_api.HandleRequest.
      apply String.eqb_neq in Hoptions, Hget. now rewrite Hoptions, Hget. }
  right. destruct (api_key_present_dec request) as [Hkey|Hkey].
  2:{ left. repeat split; try assumption.
      unfold weather_history_api.HandleRequest.
      rewrite Hget, (key_check_absent _ Hkey). reflexivity. }
  right.
  destruct (Validation.isValidPeriod (requested_period request)) eqn:Hvalid.
  - right. repeat split; try assumption.
    destruct (valid_period_duration _ Hvalid) as (n & Hn & Hhours & _). eauto.
  - left. repeat split; try assumption. now apply HandleRequest_invalid_period.
Qed.

End EndpointPaths.

Section EndpointExtras.
Context `{!time.Formatter, !Sorter, !Codec}.
Import models.

(** What a request that got past the checks produces. *)
Lemma HandleRequest_accepted_shape (h : weather_history_api.Handler)
    (request : weather_history_api.APIGatewayProxyRequest) (w : World) (n : Z) :
  weather_history_api.HTTPMethod request = "GET" ->
  api_key_present request ->
  Validation.isValidPeriod (requested_period request) = true ->
  resolved_hours (requested_period request) = Some n ->
  exists (resp : weather_history_api.APIGatewayProxyResponse) (w' : World),
    weather_history_api.HandleRequest h request w = (Return resp, w')
    /\ weather_history_api.resp_Headers resp = weather_history_api.cors_headers
    /\ (weather_history_api.resp_StatusCode resp = 500
        /\ (weather_history_api.resp_Body resp
            = weather_history_api.resp_Body
                (weather_history_api.error_response 500
                   "Failed to retrieve weather history")
            \/ weather_history_api.resp_Body resp
               = weather_history_api.resp_Body
                   (weather_history_api.error_response 500
                      "Failed to create response"))
        \/ weather_history_api.resp_StatusCode resp = 200
           /\ exists r, weather_history_api.resp_Body resp = weather_history_api.JSON r)
    /\ table w' = table w /\ bucket w' = bucket w /\ clock w' = clock w
    /\ ticks w' = S (ticks w)
    /\ calls w' = (calls w ++ [CallScan (window_scan h request w n)])%list.
Proof.
  intros Hget Hkey Hvalid Hn.
  rewrite (HandleRequest_accepted h request w n Hget Hkey Hvalid Hn). cbv zeta.
  destruct (dynamodb.failure _) as [err|].
  { eexists _, _. split; [reflexivity|]. split; [reflexivity|].
    split; [left; split; [reflexivity | left; reflexivity]|]. repeat split. }
  destruct (weather_history_api.json_Marshal _) as [err|body] eqn:Hjson.
  { eexists _, _. split; [reflexivity|]. split; [reflexivity|].
    split; [left; split; [reflexivity | right; reflexivity]|]. repeat split. }
  eexists _, _. split; [reflexivity|]. split; [reflexivity|].
  split; [|repeat split].
  right. split; [reflexivity|]. unfold weather_history_api.json_Marshal in Hjson.
  destruct (list_find _ _) as [[? ?]|]; [discriminate|]. injection Hjson as <-. eauto.
Qed.

(** X1: the history handler never panics; every response carries the CORS
    headers and one of the statuses 200, 400, 401, 405, 500; the checks
    are made in the order method, API key, period: OPTIONS is answered 200
    with an empty body, any other method than GET 405, a GET without key
    401 and a GET with a key and an invalid period 400. *)
Theorem history_response_shape (h : weather_history_api.Handler)
    (request : weather_history_api.APIGatewayProxyRequest) (w : World) :
  exists resp : weather_history_api.APIGatewayProxyResponse,
    fst (weather_history_api.HandleRequest h request w) = Return resp
    /\ weather_history_api.resp_Headers resp = weather_history_api.cors_headers
    /\ weather_history_api.resp_StatusCode resp ∈ [200; 400; 401; 405; 500]
    /\ (weather_history_api.HTTPMethod request = "OPTIONS" ->
        weather_history_api.resp_StatusCode resp = 200
        /\ weather_history_api.resp_Body resp = weather_history_api.Text EmptyString)
    /\ (weather_history_api.HTTPMethod request <> "OPTIONS" ->
        weather_history_api.HTTPMethod request <> "GET" ->
        weather_history_api.resp_StatusCode resp = 405)
    /\ (weather_history_api.HTTPMethod request = "GET" ->
        ~ api_key_present request ->
        weather_history_api.resp_StatusCode resp = 401)
    /\ (weather_history_api.HTTPMethod request = "GET" ->
        api_key_present request ->
        Validation.isValidPeriod (requested_period request) = false ->
        weather_history_api.resp_StatusCode resp = 400)
    /\ (weather_history_api.HTTPMethod request = "GET" ->
        api_key_present request ->
        Validation.isValidPeriod (requested_period request) = true ->
        weather_history_api.resp_StatusCode resp = 200
        \/ weather_history_api.resp_StatusCode resp = 500).
Proof.
  destruct (HandleRequest_paths h request w)
    as [[Hm Hrun]|[(Hm1 & Hm2 & Hrun)|[(Hm & Hkey & Hrun)|[(Hm & Hkey & Hp & Hrun)
       |(Hm & Hkey & Hp & n & _ & Hn)]]]].
  - rewrite Hrun. eexists. split; [reflexivity|]. split; [reflexivity|].
    split; [apply list_elem_of_In; simpl; auto 10|]. repeat split; intros; try congruence.
  - rewrite Hrun. eexists. split; [reflexivity|]. split; [reflexivity|].
    split; [apply list_elem_of_In; simpl; auto 10|]. repeat split; intros; try congruence.
  - rewrite Hrun. eexists. split; [reflexivity|]. split; [reflexivity|].
    split; [apply list_elem_of_In; simpl; auto 10|]. repeat split; intros; try congruence; try contradiction.
  - rewrite Hrun. eexists. split; [reflexivity|]. split; [reflexivity|].
    split; [apply list_elem_of_In; simpl; auto 10|]. repeat split; intros; try congruence; try contradiction.
  - destruct (HandleRequest_accepted_shape h request w n Hm Hkey Hp Hn)
      as (resp & w' & Hrun & Hheaders & Hstatus & _).
    rewrite Hrun. exists resp. split; [reflexivity|]. split; [exact Hheaders|].
    assert (weather_history_api.resp_StatusCode resp = 200
            \/ weather_history_api.resp_StatusCode resp = 500) as Hs
      by (destruct Hstatus as [[-> _]|[-> _]]; auto).
    split; [destruct Hs as [Hs'|Hs']; rewrite Hs'; apply list_elem_of_In; simpl; auto 10|].
    repeat split; intros; try congruence; try contradiction; try assumption.
Qed.

(** X2: the history handler only reads: it leaves the table and the bucket
    as they are, and either calls no service at all or, for a GET request
    with a key and a valid period, reads the clock once and issues one scan,
    for the window of the resolved hours. *)
Theorem history_read_only (h : weather_history_api.Handler)
    (request : weather_history_api.APIGatewayProxyRequest) (w : World) :
  table (snd (weather_history_api.HandleRequest h request w)) = table w
  /\ bucket (snd (weather_history_api.HandleRequest h request w)) = bucket w
  /\ clock (snd (weather_history_api.HandleRequest h request w)) = clock w
  /\ (calls (snd (weather_history_api.HandleRequest h request w)) = calls w
      /\ ticks (snd (weather_history_api.HandleRequest h request w)) = ticks w
      \/ exists n : Z,
           weather_history_api.HTTPMethod request = "GET"
           /\ api_key_present request
           /\ resolved_hours (requested_period request) = Some n
           /\ ticks (snd (weather_history_api.HandleRequest h request w))
              = S (ticks w)
           /\ calls (snd (weather_history_api.HandleRequest h request w))
              = (calls w ++ [CallScan (window_scan h request w n)])%list).
Proof.
  destruct (HandleRequest_paths h request w)
    as [[Hm Hrun]|[(Hm1 & Hm2 & Hrun)|[(Hm & Hkey & Hrun)|[(Hm & Hkey & Hp & Hrun)
       |(Hm & Hkey & Hp & n & _ & Hn)]]]]; try (rewrite Hrun; simpl; auto 6; fail).
  destruct (HandleRequest_accepted_shape h request w n Hm Hkey Hp Hn)
    as (resp & w' & Hrun & _ & _ & Ht & Hb & Hc & Hticks & Hcalls).
  rewrite Hrun. simpl. repeat split; try assumption. right. exists n. auto.
Qed.

(** X4: a period [isValidPeriod] accepts is always resolved by the switch of
    the handler: [strconv.Atoi] succeeds on it with an hour count from 1 to
    168, so the rejection of the switch itself ([Invalid period. Use ...])
    is never the answer. *)
Theorem validated_period_is_queried (h : weather_history_api.Handler)
    (period city : string) :
  Validation.isValidPeriod period = true ->
  exists n : Z,
    1 <= n <= 168
    /\ resolved_hours period = Some n
    /\ weather_history_api.query_period h period city
       = inr <$> weather_history_api.query_window h city (- n * time.Hour)
    /\ (String.eqb period "6h" || String.eqb period "24h" || String.eqb period "1d"
        = false -> strconv.Atoi period = Some n).
Proof.
  intros Hvalid. apply isValidPeriod_candidates in Hvalid.
  set (check := fun p =>
         match resolved_hours p, period_duration p with
         | Some n, Some d =>
           (1 <=? n) && (n <=? 168) && (d =? - n * time.Hour)
           && (String.eqb p "6h" || String.eqb p "24h" || String.eqb p "1d"
               || bool_decide (strconv.Atoi p = Some n))
         | _, _ => false
         end).
  assert (forallb check period_candidates = true) as Hall by (vm_compute; reflexivity).
  rewrite forallb_forall in Hall. apply list_elem_of_In, Hall in Hvalid.
  unfold check in Hvalid.
  destruct (resolved_hours period) as [n|]; [|discriminate].
  destruct (period_duration period) as [d|] eqn:Hd; [|discriminate].
  rewrite !andb_true_iff, !Z.leb_le, Z.eqb_eq in Hvalid.
  destruct Hvalid as [[[Hlo Hhi] ->] Hatoi].
  exists n. split; [lia|]. split; [reflexivity|]. split.
  - now rewrite query_period_eq, Hd.
  - intros Htoken. rewrite Htoken in Hatoi. simpl in Hatoi.
    now apply bool_decide_eq_true in Hatoi.
Qed.

(** X5: when the scan of the window succeeds and every record it yields
    can be encoded, the answer is 200 with all the records that
    unmarshalled, sorted ascending by timestamp, their count, the period as
    requested, and the start and end of the window as RFC 3339 texts. *)
Theorem history_success_body (h : weather_history_api.Handler)
    (request : weather_history_api.APIGatewayProxyRequest) (w : World) (n : Z) :
  weather_history_api.HTTPMethod request = "GET" ->
  api_key_present request ->
  Validation.isValidPeriod (requested_period request) = true ->
  resolved_hours (requested_period request) = Some n ->
  let now := clock w (ticks w) in
  let answer := dynamodb.scan_answer
                  (handlers.client (weather_history_api.dynamoHandler h))
                  (window_scan h request w n) in
  let found := unmarshalled (scanned_items (dynamodb.pages answer)) in
  dynamodb.failure answer = None ->
  Forall (fun record => json_unsupported record = None) found ->
  exists r : weather_history_api.WeatherHistoryResponse,
    fst (weather_history_api.HandleRequest h request w)
    = Return (weather_history_api.mkProxyResponse 200
                weather_history_api.cors_headers (weather_history_api.JSON r))
    /\ weather_history_api.Data r ≡ₚ found
    /\ StronglySorted timestamp_le (weather_history_api.Data r)
    /\ weather_history_api.Count r = Z.of_nat (length found)
    /\ weather_history_api.Period r = requested_period request
    /\ weather_history_api.StartTime r
       = time.Format (time.Add now (- n * time.Hour)) time.RFC3339
    /\ weather_history_api.EndTime r = time.Format now time.RFC3339.
Proof.
  intros Hget Hkey Hvalid Hn now answer found Hok Hencodable.
  rewrite (HandleRequest_accepted h request w n Hget Hkey Hvalid Hn).
  fold answer. rewrite Hok. fold found. cbv zeta.
  assert (Hperm : sort_Slice handlers.timestamp_less found ≡ₚ found)
    by apply sort_Slice_perm.
  unfold weather_history_api.json_Marshal. cbn [weather_history_api.Data].
  destruct (list_find _ (sort_Slice handlers.timestamp_less found))
    as [[i bad]|] eqn:Hfind.
  { exfalso. apply list_find_Some in Hfind as (Hi & Hbad & _).
    apply bool_decide_unpack in Hbad.
    apply list_elem_of_lookup_2 in Hi. rewrite Hperm in Hi.
    rewrite Forall_forall in Hencodable. rewrite (Hencodable _ Hi) in Hbad.
    now destruct Hbad. }
  eexists. split; [reflexivity|]. cbn.
  split; [exact Hperm|]. split; [apply history_sorted|].
  split; [now rewrite Hperm|]. repeat split.
Qed.

(** X6: when the scan fails, the answer is 500 with the fixed text
    [Failed to retrieve weather history]; the error of the store goes to
    the log only. *)
Theorem history_store_failure (h : weather_history_api.Handler)
    (request : weather_history_api.APIGatewayProxyRequest) (w : World) (n : Z)
    (err : error) :
  weather_history_api.HTTPMethod request = "GET" ->
  api_key_present request ->
  Validation.isValidPeriod (requested_period request) = true ->
  resolved_hours (requested_period request) = Some n ->
  dynamodb.failure
    (dynamodb.scan_answer (handlers.client (weather_history_api.dynamoHandler h))
       (window_scan h request w n)) = Some err ->
  fst (weather_history_api.HandleRequest h request w)
  = Return (weather_history_api.error_response 500 "Failed to retrieve weather history")
  /\ logs (snd (weather_history_api.HandleRequest h request w))
     = (logs w ++ [("Error getting weather history: %v",
                    [AStr ("failed to scan weather history: " ++ err)])])%list.
Proof.
  intros Hget Hkey Hvalid Hn Hfail.
  rewrite (HandleRequest_accepted h request w n Hget Hkey Hvalid Hn). cbv zeta.
  rewrite Hfail. split; reflexivity.
Qed.

Lemma history_read_only_calls (h : weather_history_api.Handler)
    (request : weather_history_api.APIGatewayProxyRequest) (w : World) :
  calls (snd (weather_history_api.HandleRequest h request w)) = calls w
  \/ exists n : Z,
       calls (snd (weather_history_api.HandleRequest h request w))
       = (calls w ++ [CallScan (window_scan h request w n)])%list.
Proof.
  destruct (HandleRequest_paths h request w)
    as [[Hm Hrun]|[(Hm1 & Hm2 & Hrun)|[(Hm & Hkey & Hrun)|[(Hm & Hkey & Hp & Hrun)
       |(Hm & Hkey & Hp & n & _ & Hn)]]]]; try (rewrite Hrun; simpl; auto; fail).
  destruct (HandleRequest_accepted_shape h request w n Hm Hkey Hp Hn)
    as (resp & w' & Hrun & _ & _ & _ & _ & _ & _ & Hcalls).
  rewrite Hrun. simpl. eauto.
Qed.

(** X8: whatever the request, the city a scan filters by is made of ASCII
    letters, whitespace and hyphens only and is at most 50 bytes long: a
    stored record whose city name holds any other character is matched by
    no request. *)
Theorem scan_city_is_sanitized (h : weather_history_api.Handler)
    (request : weather_history_api.APIGatewayProxyRequest) (w : World)
    (input : dynamodb.ScanInput) :
  CallScan input ∈ calls (snd (weather_history_api.HandleRequest h request w)) ->
  CallScan input ∉ calls w ->
  exists city : string,
    dynamodb.ExpressionAttributeValues input !! ":city" = Some (dynamodb.AttrS city)
    /\ Forall (fun c => city_char c = true) (list_ascii_of_string city)
    /\ (String.length city <= 50)%nat
    /\ forall record : WeatherRecord.t,
         ~ Forall (fun c => city_char c = true)
                  (list_ascii_of_string (WeatherRecord.CityName record)) ->
         WeatherRecord.CityName record <> city.
Proof.
  intros Hin Hfresh.
  destruct (history_read_only_calls h request w) as [Hsame|(n & Hcalls)].
  { rewrite Hsame in Hin. contradiction. }
  rewrite Hcalls, elem_of_app, list_elem_of_singleton in Hin.
  destruct Hin as [Hin|[= ->]]; [contradiction|].
  exists (requested_city h request). split; [reflexivity|].
  split; [apply sanitize_chars|]. split; [apply sanitize_length|].
  intros record Hbad Heq. apply Hbad. rewrite Heq. apply sanitize_chars.
Qed.

End EndpointExtras.

(** * Further properties of the input validation *)

(** X3: [isValidPeriod] accepts the tokens [6h], [24h] and [1d] and the
    decimal text, without sign or leading zero, of the integers from 1 to
    168 except 109, 119, 129, 139, 149 and 159; it accepts nothing else. *)
Theorem isValidPeriod_accepted_texts (period : string) :
  Validation.isValidPeriod period = true <->
  period ∈ ["6h"; "24h"; "1d"]
  \/ exists n : Z,
       1 <= n <= 168 /\ (n ∉ [109; 119; 129; 139; 149; 159])
       /\ period = strconv.Itoa n.
Proof.
  rewrite isValidPeriod_spec.
  assert (forall n, accepted_hours n = true <->
                    1 <= n <= 168 /\ (n ∉ [109; 119; 129; 139; 149; 159])) as Hacc.
  { intros n. unfold accepted_hours.
    rewrite !andb_true_iff, orb_true_iff, negb_true_iff, !Z.leb_le, Z.ltb_lt, Z.eqb_neq.
    rewrite !not_elem_of_cons. split.
    - intros [[Hlo Hhi] Hn]. split; [lia|].
      repeat split; try (intros ->; vm_compute in Hn; destruct Hn as [Hn|Hn];
                         [discriminate Hn | now apply Hn]).
      apply not_elem_of_nil.
    - intros [Hn (H1 & H2 & H3 & H4 & H5 & H6 & _)]. split; [lia|].
      destruct (Z.ltb_spec n 100); [now left | right].
      intros Hmod. assert (n = 109 \/ n = 119 \/ n = 129 \/ n = 139 \/ n = 149
                           \/ n = 159) by (Z.div_mod_to_equations; lia).
      intuition congruence. }
  split.
  - intros [->|[->|[->|(n & Hn & ->)]]];
      try (left; apply list_elem_of_In; simpl; auto; fail).
    right. exists n. apply Hacc in Hn. destruct Hn. auto.
  - intros [Hin|(n & Hn1 & Hn2 & ->)].
    + apply list_elem_of_In in Hin. simpl in Hin. intuition auto.
    + do 3 right. exists n. split; [|reflexivity]. apply Hacc. auto.
Qed.

(** Bytes that are white space for [strings.TrimSpace]: tab, line feed,
    vertical tab, form feed, carriage return and space below 128. *)
Definition ascii_space (c : ascii) : bool := unicode.IsSpace (utf8.byte c).

(** A list of bytes without its leading and trailing white space. *)
Definition trim_ascii (l : list ascii) : list ascii :=
  rev (strings.drop_while ascii_space (rev (strings.drop_while ascii_space l))).

Definition is_ascii (c : ascii) : Prop := utf8.byte c < 128.

Lemma decode_ascii (l : list ascii) :
  Forall is_ascii l -> utf8.decode l = map (fun c => (utf8.byte c, [c])) l.
Proof.
  induction 1 as [|c l Hc _ IH]; [reflexivity|].
  cbn [utf8.decode map]. rewrite IH. unfold is_ascii in Hc. unfold utf8.RuneSelf.
  destruct (utf8.byte c <? 128) eqn:Hlt; [reflexivity|]. lia.
Qed.

Lemma drop_while_map {A B} (f : B -> bool) (g : A -> B) (l : list A) :
  strings.drop_while f (map g l) = map g (strings.drop_while (fun x => f (g x)) l).
Proof.
  induction l as [|x l IH]; [reflexivity|]. simpl. now destruct (f (g x)).
Qed.

Lemma drop_while_Forall {A} (P : A -> Prop) (f : A -> bool) (l : list A) :
  Forall P l -> Forall P (strings.drop_while f l).
Proof.
  induction 1 as [|x l Hx Hl IH]; [constructor|]. simpl.
  destruct (f x); [exact IH | now constructor].
Qed.

Lemma trim_ascii_Forall (P : ascii -> Prop) (l : list ascii) :
  Forall P l -> Forall P (trim_ascii l).
Proof.
  intros Hl. unfold trim_ascii.
  apply Forall_rev, drop_while_Forall, Forall_rev, drop_while_Forall, Hl.
Qed.

Lemma TrimSpace_ascii (s : string) :
  Forall is_ascii (list_ascii_of_string s) ->
  strings.TrimSpace s = string_of_list_ascii (trim_ascii (list_ascii_of_string s)).
Proof.
  intros Hs. unfold strings.TrimSpace, utf8.encoded, trim_ascii.
  rewrite (decode_ascii _ Hs). cbn zeta.
  rewrite (drop_while_map (fun seg : Z * list ascii => unicode.IsSpace (fst seg))).
  rewrite <- map_rev.
  rewrite (drop_while_map (fun seg : Z * list ascii => unicode.IsSpace (fst seg))).
  rewrite <- map_rev, concat_singletons. reflexivity.
Qed.

Lemma replace_class_ascii (l : list ascii) :
  Forall is_ascii l ->
  regexp.ReplaceAllString_class true Validation.cityKeep (string_of_list_ascii l)
    EmptyString
  = string_of_list_ascii (List.filter city_char l).
Proof.
  intros Hl. unfold regexp.ReplaceAllString_class.
  rewrite list_ascii_of_string_of_list_ascii, (decode_ascii _ Hl). f_equal.
  clear Hl. induction l as [|c l IH]; [reflexivity|].
  cbn [map concat List.filter]. rewrite IH. unfold regexp.class_matches.
  destruct (city_char c) eqn:Hc.
  - apply city_char_spec in Hc. rewrite Hc. reflexivity.
  - destruct (regexp.in_ranges Validation.cityKeep (utf8.byte c)) eqn:Hin;
      [|reflexivity].
    apply city_char_spec in Hin. congruence.
Qed.

Lemma length_string_of_list (l : list ascii) :
  String.length (string_of_list_ascii l) = length l.
Proof. induction l; simpl; congruence. Qed.

Lemma truncate_take (l : list ascii) :
  (if 50 <? Z.of_nat (String.length (string_of_list_ascii l))
   then String.substring 0 50 (string_of_list_ascii l)
   else string_of_list_ascii l)
  = string_of_list_ascii (take 50 l).
Proof.
  rewrite length_string_of_list.
  destruct (Z.ltb_spec 50 (Z.of_nat (length l))).
  - rewrite <- (string_of_list_ascii_of_string (String.substring _ _ _)).
    now rewrite substring_firstn, list_ascii_of_string_of_list_ascii.
  - rewrite take_ge by lia. reflexivity.
Qed.

Lemma sanitize_ascii (city : string) :
  Forall is_ascii (list_ascii_of_string city) ->
  Validation.sanitizeCityName city
  = string_of_list_ascii
      (take 50 (List.filter city_char (trim_ascii (list_ascii_of_string city)))).
Proof.
  intros Hcity. unfold Validation.sanitizeCityName.
  rewrite (TrimSpace_ascii _ Hcity).
  rewrite (replace_class_ascii _ (trim_ascii_Forall _ _ Hcity)).
  apply truncate_take.
Qed.

(** X7: on a text of ASCII bytes [sanitizeCityName] works byte by byte: it
    drops the leading and trailing white space (tab, line feed, vertical
    tab, form feed, carriage return, space), then every byte that is not a
    letter, tab, line feed, form feed, carriage return, space or hyphen,
    and keeps the first 50 bytes of what is left. *)
Theorem sanitizeCityName_ascii (city : string) :
  Forall is_ascii (list_ascii_of_string city) ->
  Validation.sanitizeCityName city
  = string_of_list_ascii
      (take 50 (List.filter city_char (trim_ascii (list_ascii_of_string city)))).
Proof. apply sanitize_ascii. Qed.

Lemma sanitizeCityName_ascii_witness :
  Forall is_ascii (list_ascii_of_string "  New-York 10001 ")
  /\ Validation.sanitizeCityName "  New-York 10001 " = "New-York ".
Proof.
  assert (Forall is_ascii (list_ascii_of_string "  New-York 10001 ")) as Hascii
    by (repeat constructor).
  split; [exact Hascii|].
  rewrite (sanitizeCityName_ascii "  New-York 10001 " Hascii).
  vm_compute. reflexivity.
Defined.

Lemma city_char_ascii (c : ascii) : city_char c = true -> is_ascii c.
Proof.
  intros Hc. apply city_char_spec, cityKeep_spec in Hc. unfold is_ascii. lia.
Qed.

Lemma filter_all {A} (f : A -> bool) (l : list A) :
  Forall (fun x => f x = true) l -> List.filter f l = l.
Proof. induction 1 as [|x l Hx _ IH]; simpl; [reflexivity|]. now rewrite Hx, IH. Qed.

Lemma drop_while_head {A} (f : A -> bool) (l : list A) :
  (forall x, head l = Some x -> f x = false) -> strings.drop_while f l = l.
Proof.
  destruct l as [|x l]; [reflexivity|]. intros Hx. simpl.
  now rewrite (Hx x eq_refl).
Qed.

Lemma head_rev_last {A} (l : list A) : head (rev l) = last l.
Proof.
  induction l as [|x l _] using rev_ind; [reflexivity|].
  now rewrite rev_app_distr, last_snoc.
Qed.

(** X9: [sanitizeCityName] returns unchanged every text of at most 50
    bytes that is made of ASCII letters, white space and hyphens and
    neither starts nor ends with white space. *)
Theorem sanitizeCityName_fixed_point (city : string) :
  Forall (fun c => city_char c = true) (list_ascii_of_string city) ->
  (String.length city <= 50)%nat ->
  (forall c, head (list_ascii_of_string city) = Some c -> is_whitespace c = false) ->
  (forall c, last (list_ascii_of_string city) = Some c -> is_whitespace c = false) ->
  Validation.sanitizeCityName city = city.
Proof.
  intros Hchars Hlen Hhead Hlast.
  assert (forall c, city_char c = true -> is_whitespace c = false ->
                    ascii_space c = false) as Hspace.
  { intros c Hc Hw. apply city_char_spec, cityKeep_spec in Hc.
    unfold is_whitespace in Hw. unfold ascii_space, unicode.IsSpace.
    rewrite !orb_false_iff, !Z.eqb_neq in Hw.
    repeat case_match; lia. }
  rewrite sanitize_ascii
    by (eapply Forall_impl; [exact Hchars | apply city_char_ascii]).
  rewrite <- (string_of_list_ascii_of_string city) at 2.
  rewrite <- length_list_ascii in Hlen.
  set (l := list_ascii_of_string city) in *.
  assert (trim_ascii l = l) as ->.
  { unfold trim_ascii. rewrite (drop_while_head ascii_space l).
    - rewrite (drop_while_head ascii_space (rev l)); [apply rev_involutive|].
      intros c Hc. rewrite head_rev_last in Hc.
      apply Hspace; [|now apply Hlast].
      rewrite Forall_forall in Hchars. apply Hchars.
      apply last_Some in Hc as [l' ->]. set_solver.
    - intros c Hc. apply Hspace; [|now apply Hhead].
      rewrite Forall_forall in Hchars. apply Hchars.
      destruct l; [discriminate|]. injection Hc as ->. set_solver. }
  rewrite (filter_all _ _ Hchars), take_ge by lia. reflexivity.
Qed.

Lemma sanitizeCityName_fixed_point_witness :
  Validation.sanitizeCityName "New York" = "New York".
Proof.
  apply (sanitizeCityName_fixed_point "New York").
  - repeat constructor.
  - simpl. lia.
  - intros c [= <-]. reflexivity.
  - intros c [= <-]. reflexivity.
Defined.

Lemma list_ascii_of_string_app (a b : string) :
  list_ascii_of_string (a ++ b)
  = (list_ascii_of_string a ++ list_ascii_of_string b)%list.
Proof.
  induction a as [|c a IH]; [reflexivity|].
  change (String c a ++ b) with (String c (a ++ b)).
  cbn [list_ascii_of_string app]. now rewrite IH.
Qed.

Lemma drop_while_app_none {A} (f : A -> bool) (l t : list A) :
  Forall (fun x => f x = false) l -> l <> [] ->
  strings.drop_while f (l ++ t)%list = (l ++ t)%list.
Proof.
  destruct 1 as [|x l Hx _]; [congruence|]. intros _. simpl. now rewrite Hx.
Qed.

Lemma trim_ascii_inner (l t : list ascii) :
  Forall (fun c => ascii_space c = false) l -> l <> [] ->
  trim_ascii (l ++ t)%list = (l ++ rev (strings.drop_while ascii_space (rev t)))%list.
Proof.
  intros Hl Hne. unfold trim_ascii. rewrite (drop_while_app_none _ _ _ Hl Hne).
  rewrite rev_app_distr.
  induction (rev t) as [|c r IH].
  - cbn [app strings.drop_while rev].
    rewrite (drop_while_none _ _ (Forall_rev Hl)), rev_involutive.
    now rewrite app_nil_r.
  - cbn [app strings.drop_while]. destruct (ascii_space c) eqn:Hc.
    + exact IH.
    + change (c :: r ++ rev l)%list with ((c :: r) ++ rev l)%list.
      now rewrite rev_app_distr, rev_involutive.
Qed.

(** X10: [sanitizeCityName] trims before it filters, so its result can
    end in white space that a second pass would remove: for a text of
    ASCII letters followed by a space and a digit the result is the
    letters and the space, and the function is not idempotent there. *)
Theorem sanitizeCityName_not_idempotent (name : string) (d : ascii) :
  Forall (fun c => is_letter c = true) (list_ascii_of_string name) ->
  (0 < String.length name < 50)%nat ->
  strconv.digit d <> None ->
  Validation.sanitizeCityName (name ++ " " ++ String d EmptyString) = name ++ " "
  /\ Validation.sanitizeCityName (name ++ " ") = name
  /\ name ++ " " <> name.
Proof.
  intros Hletters Hlen Hd.
  assert (Forall (fun c => city_char c = true) (list_ascii_of_string name)) as Hcity.
  { eapply Forall_impl; [exact Hletters|]. intros c Hc. unfold city_char.
    now rewrite Hc. }
  assert (Forall (fun c => ascii_space c = false) (list_ascii_of_string name))
    as Hnospace.
  { eapply Forall_impl; [exact Hletters|]. intros c Hc.
    unfold is_letter in Hc. unfold ascii_space, unicode.IsSpace.
    rewrite orb_true_iff, !andb_true_iff, !Z.leb_le in Hc.
    repeat case_match; lia. }
  assert (is_ascii d /\ city_char d = false /\ ascii_space d = false)
    as (Hd1 & Hd2 & Hd3).
  { unfold strconv.digit in Hd. cbn zeta in Hd.
    destruct ((48 <=? utf8.byte d) && (utf8.byte d <=? 57)) eqn:Hr; [|congruence].
    rewrite andb_true_iff, !Z.leb_le in Hr.
    split; [unfold is_ascii; lia|]. split.
    - destruct (city_char d) eqn:Hc; [|reflexivity].
      apply city_char_spec, cityKeep_spec in Hc. lia.
    - unfold ascii_space, unicode.IsSpace. repeat case_match; lia. }
  rewrite <- length_list_ascii in Hlen.
  assert (list_ascii_of_string name <> []) as Hne
    by (intros Hnil; rewrite Hnil in Hlen; simpl in Hlen; lia).
  assert (Forall is_ascii (list_ascii_of_string name)) as Hascii
    by (eapply Forall_impl; [exact Hcity | apply city_char_ascii]).
  split; [|split].
  - rewrite sanitize_ascii; rewrite !list_ascii_of_string_app.
    + rewrite (trim_ascii_inner _ _ Hnospace Hne).
      cbn [list_ascii_of_string app rev strings.drop_while]. rewrite Hd3.
      cbn [rev app]. rewrite List.filter_app. cbn [List.filter].
      rewrite Hd2. change (city_char " ") with true. cbv iota.
      rewrite (filter_all _ _ Hcity), take_ge by (rewrite length_app; simpl; lia).
      rewrite <- (string_of_list_ascii_of_string (name ++ " ")).
      now rewrite list_ascii_of_string_app.
    + apply Forall_app. split; [exact Hascii|]. repeat constructor. exact Hd1.
  - rewrite sanitize_ascii; rewrite !list_ascii_of_string_app.
    + rewrite (trim_ascii_inner _ _ Hnospace Hne).
      cbn [list_ascii_of_string app rev strings.drop_while].
      change (ascii_space " ") with true. cbv iota. cbn [rev]. rewrite app_nil_r.
      rewrite (filter_all _ _ Hcity), take_ge by lia.
      apply string_of_list_ascii_of_string.
    + apply Forall_app. split; [exact Hascii|]. repeat constructor.
  - intros Heq. apply (f_equal String.length) in Heq.
    rewrite <- !length_list_ascii, list_ascii_of_string_app, length_app in Heq.
    simpl in Heq. lia.
Qed.

Lemma sanitizeCityName_not_idempotent_witness :
  Validation.sanitizeCityName "Osaka 7" = "Osaka "
  /\ Validation.sanitizeCityName "Osaka " = "Osaka"
  /\ "Osaka " <> "Osaka".
Proof.
  apply (sanitizeCityName_not_idempotent "Osaka" "7").
  - repeat constructor.
  - simpl. lia.
  - discriminate.
Defined.

Section EndpointExtraRuns.
#[local] Existing Instance Sample.utc_Formatter.
#[local] Existing Instance insertion_Sorter.
#[local] Existing Instance Sample.codec.

(** The history endpoint over a table whose scans fail with [err]. *)
Definition failing_api (err : error) : weather_history_api.Handler :=
  weather_history_api.mkHandler
    (handlers.mkDynamoDBHandler
       (dynamodb.mkDynamoDB (fun _ => dynamodb.mkScanResult [] (Some err))
                            (fun _ => None)) "weather")
    Scenario.cfg.

Lemma validated_period_is_queried_witness :
  exists n : Z,
    resolved_hours "72" = Some n /\ strconv.Atoi "72" = Some n
    /\ weather_history_api.query_period (Scenario.api []) "72" "Tokyo"
       = inr <$> weather_history_api.query_window (Scenario.api []) "Tokyo"
                   (- n * time.Hour).
Proof.
  assert (Hvalid : Validation.isValidPeriod "72" = true) by (vm_compute; reflexivity).
  destruct (validated_period_is_queried (Scenario.api []) "72" "Tokyo" Hvalid)
    as (n & _ & Hn & Hquery & Hatoi).
  exists n. split; [exact Hn|]. split; [|exact Hquery].
  apply Hatoi. vm_compute. reflexivity.
Defined.

Lemma history_success_body_witness :
  exists r : weather_history_api.WeatherHistoryResponse,
    Scenario.serve [dynamodb.mkScanOutput
                      [Scenario.item "Tokyo-2" "2023-11-14T21:00:00Z";
                       Scenario.malformed;
                       Scenario.item "Tokyo-1" "2023-11-14T19:00:00Z"]]
      (Scenario.get [("X-API-Key", "secret")] [("period", "6h")])
    = Return (weather_history_api.mkProxyResponse 200
                weather_history_api.cors_headers (weather_history_api.JSON r))
    /\ weather_history_api.Count r = 2
    /\ weather_history_api.StartTime r = "2023-11-14T16:13:20Z"
    /\ weather_history_api.EndTime r = "2023-11-14T22:13:20Z".
Proof.
  set (pages := [dynamodb.mkScanOutput
                   [Scenario.item "Tokyo-2" "2023-11-14T21:00:00Z";
                    Scenario.malformed;
                    Scenario.item "Tokyo-1" "2023-11-14T19:00:00Z"]]).
  set (request := Scenario.get [("X-API-Key", "secret")] [("period", "6h")]).
  assert (Hkey : api_key_present request).
  { exists "secret". split; [discriminate|]. left. vm_compute. reflexivity. }
  assert (Hvalid : Validation.isValidPeriod (requested_period request) = true)
    by (vm_compute; reflexivity).
  assert (Hhours : resolved_hours (requested_period request) = Some 6)
    by (vm_compute; reflexivity).
  assert (Hencodable :
            Forall (fun record => json_unsupported record = None)
              (unmarshalled
                 (scanned_items
                    (dynamodb.pages
                       (dynamodb.scan_answer
                          (handlers.client
                             (weather_history_api.dynamoHandler (Scenario.api pages)))
                          (window_scan (Scenario.api pages) request
                             Scenario.world0 6)))))).
  { vm_compute. repeat constructor. }
  destruct (history_success_body (Scenario.api pages) request Scenario.world0 6
              eq_refl Hkey Hvalid Hhours eq_refl Hencodable)
    as (r & Hrun & _ & _ & Hcount & _ & Hstart & Hend).
  exists r. split; [exact Hrun|]. split; [|split].
  - rewrite Hcount. vm_compute. reflexivity.
  - rewrite Hstart. vm_compute. reflexivity.
  - rewrite Hend. vm_compute. reflexivity.
Defined.

Lemma history_store_failure_witness :
  fst (weather_history_api.HandleRequest (failing_api "throttled")
         (Scenario.get [("X-API-Key", "secret")] [("period", "6h")]) Scenario.world0)
  = Return (weather_history_api.error_response 500 "Failed to retrieve weather history").
Proof.
  set (request := Scenario.get [("X-API-Key", "secret")] [("period", "6h")]).
  assert (Hkey : api_key_present request).
  { exists "secret". split; [discriminate|]. left. vm_compute. reflexivity. }
  assert (Hvalid : Validation.isValidPeriod (requested_period request) = true)
    by (vm_compute; reflexivity).
  assert (Hhours : resolved_hours (requested_period request) = Some 6)
    by (vm_compute; reflexivity).
  exact (proj1 (history_store_failure (failing_api "throttled") request
                  Scenario.world0 6 "throttled" eq_refl Hkey Hvalid Hhours eq_refl)).
Defined.

Lemma scan_city_is_sanitized_witness :
  exists city : string,
    dynamodb.ExpressionAttributeValues
      (window_scan (Scenario.api [])
         (Scenario.get [("X-API-Key", "secret")] [("city", "São Paulo <1>")])
         Scenario.world0 6) !! ":city" = Some (dynamodb.AttrS city)
    /\ (String.length city <= 50)%nat.
Proof.
  set (request := Scenario.get [("X-API-Key", "secret")] [("city", "São Paulo <1>")]).
  assert (Hin : CallScan (window_scan (Scenario.api []) request Scenario.world0 6)
                ∈ calls (snd (weather_history_api.HandleRequest (Scenario.api [])
                                request Scenario.world0))).
  { assert (Hkey : api_key_present request).
    { exists "secret". split; [discriminate|]. left. vm_compute. reflexivity. }
    assert (Hvalid : Validation.isValidPeriod (requested_period request) = true)
      by (vm_compute; reflexivity).
    assert (Hhours : resolved_hours (requested_period request) = Some 6)
      by (vm_compute; reflexivity).
    destruct (HandleRequest_accepted_shape (Scenario.api []) request Scenario.world0
                6 eq_refl Hkey Hvalid Hhours)
      as (resp & w' & Hrun & _ & _ & _ & _ & _ & _ & Hcalls).
    rewrite Hrun. cbn [snd]. rewrite Hcalls. apply elem_of_app. right.
    apply list_elem_of_here. }
  assert (Hfresh : CallScan (window_scan (Scenario.api []) request Scenario.world0 6)
                   ∉ calls Scenario.world0) by apply not_elem_of_nil.
  destruct (scan_city_is_sanitized (Scenario.api []) request Scenario.world0
              (window_scan (Scenario.api []) request Scenario.world0 6) Hin Hfresh)
    as (city & Hcity & _ & Hlen & _).
  exists city. split; [exact Hcity | exact Hlen].
Defined.

End EndpointExtraRuns.

(** * Further properties of the collector *)

Section CollectorExtras.
Context `{!time.Formatter, !Sorter, !Codec}.
Import models.

(** The three ways [GetWeatherData] ends: before the request, after a
    request that gave no reading, and with a reading. *)
Lemma GetWeatherData_cases (ws : services.WeatherService) (w : World) :
  (exists err, services.GetWeatherData ws w = (Return (inl err), w))
  \/ (exists url err,
        services.GetWeatherData ws w = (Return (inl err), add_call w (CallGet url)))
  \/ (exists url response,
        provider_returns ws url response
        /\ services.GetWeatherData ws w
           = (Return (inr response), add_call w (CallGet url))).
Proof.
  unfold services.GetWeatherData. cbv zeta.
  destruct (url_with_query _ _) as [err|url] eqn:Hurl; [left; eauto|].
  rewrite (bind_return _ _ _ _ _ (http_Get_run _ _ _)).
  destruct (http.get_answer _ url) as [err|[status body readErr]] eqn:Hget;
    [right; left; eauto|].
  cbn [http.StatusCode http.ReadErr http.Body].
  destruct (Z.eqb_spec status http.StatusOK) as [->|Hstatus]; cbn [negb];
    [|right; left; eauto].
  destruct readErr as [err|]; [right; left; eauto|].
  destruct (json_Unmarshal body) as [err|response] eqn:Hparse;
    [right; left; eauto|].
  right. right. exists url, response. split; [|reflexivity].
  split; [exact Hurl|]. exists body. split; [exact Hget | exact Hparse].
Qed.

Lemma GetWeatherData_any_world (ws : services.WeatherService) (w w' : World) :
  fst (services.GetWeatherData ws w) = fst (services.GetWeatherData ws w').
Proof.
  unfold services.GetWeatherData. cbv zeta.
  destruct (url_with_query _ _) as [err|url]; [reflexivity|].
  rewrite !(bind_return _ _ _ _ _ (http_Get_run _ _ _)).
  destruct (http.get_answer _ url) as [err|resp]; [reflexivity|].
  destruct (negb _); [reflexivity|].
  destruct (http.ReadErr resp); [reflexivity|].
  destruct (json_Unmarshal _); reflexivity.
Qed.

(** X11: [GetWeatherData] never panics, makes at most one request and
    touches nothing else; it returns a reading exactly when the URL is
    well formed and the provider answers it with status 200 and a body
    that is read in full and parses to that reading. *)
Theorem GetWeatherData_reading_iff (ws : services.WeatherService) (w : World) :
  exists (res : error + WeatherResponse.t) (w' : World),
    services.GetWeatherData ws w = (Return res, w')
    /\ table w' = table w /\ bucket w' = bucket w /\ clock w' = clock w
    /\ ticks w' = ticks w /\ logs w' = logs w
    /\ (calls w' = calls w \/ exists url, calls w' = (calls w ++ [CallGet url])%list)
    /\ forall response : WeatherResponse.t,
         res = inr response <-> exists url, provider_returns ws url response.
Proof.
  destruct (GetWeatherData_cases ws w)
    as [(err & Hrun)|[(url & err & Hrun)|(url & response & Hprov & Hrun)]];
    rewrite Hrun; eexists _, _; (split; [reflexivity|]); repeat (split; [reflexivity|]).
  - split; [now left|]. intros response. split; [discriminate|].
    intros (url & Hprov). rewrite (GetWeatherData_ok _ _ _ _ Hprov) in Hrun.
    congruence.
  - split; [right; eauto|]. intros response. split; [discriminate|].
    intros (url' & Hprov). rewrite (GetWeatherData_ok _ _ _ _ Hprov) in Hrun.
    congruence.
  - split; [right; eauto|]. intros response'. split.
    + intros [= <-]. eauto.
    + intros (url' & Hprov'). rewrite (GetWeatherData_ok _ _ _ _ Hprov') in Hrun.
      congruence.
Qed.

Definition processing_line (h : weather_lambda.Handler) : string * list Any :=
  ("Processing weather data collection for city: %s",
   [AStr (config.CityName (config.Weather (weather_lambda.config h)))]).

Lemma HandleRequest_fetch_failed (h : weather_lambda.Handler)
    (event : weather_lambda.Event) (w w' : World) (err : error) :
  services.GetWeatherData (weather_lambda.weatherService h)
    (add_log w (fst (processing_line h)) (snd (processing_line h)))
  = (Return (inl err), w') ->
  weather_lambda.HandleRequest h event w
  = (Return (weather_lambda.mkResponse 500 ("Failed to fetch weather data: " ++ err)
               None),
     add_log w' "Error fetching weather data: %v" [AStr err]).
Proof.
  intros Hfetch. unfold weather_lambda.HandleRequest.
  rewrite (bind_return _ _ _ _ _ (log_run _ _ _)).
  rewrite (bind_return _ _ _ _ _ Hfetch).
  now rewrite (bind_return _ _ _ _ _ (log_run _ _ _)).
Qed.


(** X12: any status other than 200 is an error whose text carries the
    status and the body the provider sent, and the collector hands that
    text on to its caller in its 500 response. *)
Theorem provider_error_is_echoed (h : weather_lambda.Handler)
    (event : weather_lambda.Event) (w : World) (url : string) (resp : http.Response) :
  let cfg := config.Weather (services.config (weather_lambda.weatherService h)) in
  url_with_query (config.APIURL cfg)
    [("q", config.CityName cfg); ("appid", config.APIKey cfg); ("units", "metric")]
  = inr url ->
  http.get_answer (services.client (weather_lambda.weatherService h)) url = inr resp ->
  http.StatusCode resp <> 200 ->
  fst (weather_lambda.HandleRequest h event w)
  = Return (weather_lambda.mkResponse 500
              ("Failed to fetch weather data: weather API returned status "
               ++ strconv.Itoa (http.StatusCode resp) ++ ": " ++ http.Body resp) None).
Proof.
  intros cfg Hurl Hget Hstatus. unfold weather_lambda.HandleRequest.
  rewrite (bind_return _ _ _ _ _ (log_run _ _ _)).
  assert (forall w0, services.GetWeatherData (weather_lambda.weatherService h) w0
                     = (Return (inl ("weather API returned status "
                                     ++ strconv.Itoa (http.StatusCode resp) ++ ": "
                                     ++ http.Body resp)),
                        add_call w0 (CallGet url))) as Hfetch.
  { intros w0. unfold services.GetWeatherData. cbv zeta. fold cfg. rewrite Hurl.
    rewrite (bind_return _ _ _ _ _ (http_Get_run _ _ _)), Hget.
    destruct (Z.eqb_spec (http.StatusCode resp) http.StatusOK) as [Heq|_];
      [contradiction|reflexivity]. }
  rewrite (bind_return _ _ _ _ _ (Hfetch _)).
  rewrite (bind_return _ _ _ _ _ (log_run _ _ _)). reflexivity.
Qed.

(** X13: when the reading cannot be fetched the collector answers 500
    with [Failed to fetch weather data: ] and the error, without data;
    it stores nothing, calls neither store, does not read the clock and
    logs the city and the error. *)
Theorem collector_fetch_failure (h : weather_lambda.Handler)
    (event : weather_lambda.Event) (w : World) (err : error) :
  fst (services.GetWeatherData (weather_lambda.weatherService h) w)
  = Return (inl err) ->
  let out := weather_lambda.HandleRequest h event w in
  fst out = Return (weather_lambda.mkResponse 500
                      ("Failed to fetch weather data: " ++ err) None)
  /\ table (snd out) = table w /\ bucket (snd out) = bucket w
  /\ ticks (snd out) = ticks w
  /\ (calls (snd out) = calls w
      \/ exists url, calls (snd out) = (calls w ++ [CallGet url])%list)
  /\ logs (snd out)
     = (logs w ++ [("Processing weather data collection for city: %s",
                    [AStr (config.CityName (config.Weather (weather_lambda.config h)))]);
                   ("Error fetching weather data: %v", [AStr err])])%list.
Proof.
  intros Hfetch out. unfold out.
  rewrite (GetWeatherData_any_world _ w
             (add_log w (fst (processing_line h)) (snd (processing_line h)))) in Hfetch.
  destruct (GetWeatherData_cases (weather_lambda.weatherService h)
              (add_log w (fst (processing_line h)) (snd (processing_line h))))
    as [(err' & Hrun)|[(url & err' & Hrun)|(url & response & _ & Hrun)]];
    rewrite Hrun in Hfetch; cbn [fst] in Hfetch; try discriminate;
    injection Hfetch as ->;
    rewrite (HandleRequest_fetch_failed _ _ _ _ _ Hrun);
    cbn; rewrite <- ?app_assoc; repeat split; eauto.
Qed.



End CollectorExtras.

Lemma Itoa_inj (n m : Z) : strconv.Itoa n = strconv.Itoa m -> n = m.
Proof.
  assert (forall k, NilZero.int_of_string (strconv.Itoa k) = Some (Z.to_int k)) as Hparse.
  { intros k. apply NilZero.isi; destruct k; simpl; try discriminate;
      intros [= Hnil]; now apply DecimalPos.Unsigned.to_uint_nonnil in Hnil. }
  intros Heq. apply DecimalZ.to_int_inj.
  pose proof (Hparse n) as Hn. rewrite Heq, Hparse in Hn. congruence.
Qed.

Lemma append_cancel (prefix a b : string) : prefix ++ a = prefix ++ b -> a = b.
Proof.
  induction prefix as [|c prefix IH]; [trivial|].
  change (String c prefix ++ a) with (String c (prefix ++ a)).
  change (String c prefix ++ b) with (String c (prefix ++ b)).
  intros [= Heq]. auto.
Qed.

Section RecordIdentifiers.
Context `{!time.Formatter, !Codec}.
Import models.

(** X15: the identifier of a record is determined by the city name and
    the Unix second of the conversion: two conversions of readings of the
    same city yield the same identifier exactly when they happen within
    the same second. *)
Theorem record_id_same_second (ws1 ws2 : services.WeatherService)
    (response1 response2 : WeatherResponse.t) (w1 w2 : World)
    (record1 record2 : WeatherRecord.t) :
  WeatherResponse.Name response1 = WeatherResponse.Name response2 ->
  fst (services.ConvertToWeatherRecord ws1 response1 w1) = Return record1 ->
  fst (services.ConvertToWeatherRecord ws2 response2 w2) = Return record2 ->
  WeatherRecord.ID record1 = WeatherRecord.ID record2
  <-> time.Unix (clock w1 (ticks w1)) = time.Unix (clock w2 (ticks w2)).
Proof.
  intros Hname Hrun1 Hrun2.
  rewrite ConvertToWeatherRecord_run in Hrun1, Hrun2.
  injection Hrun1 as <-. injection Hrun2 as <-.
  cbn [WeatherRecord.ID converted]. rewrite Hname. split.
  - intros Hid. now apply append_cancel, append_cancel, Itoa_inj in Hid.
  - now intros ->.
Qed.

End RecordIdentifiers.

Section CollectorExtraRuns.
#[local] Existing Instance Sample.utc_Formatter.
#[local] Existing Instance insertion_Sorter.
#[local] Existing Instance Sample.codec.
Import models.

(** The collector against a provider that answers every request with
    [answer]; its stores accept every write. *)
Definition collector_of (answer : error + http.Response) : weather_lambda.Handler :=
  weather_lambda.mkHandler
    (services.mkWeatherService Scenario.cfg (http.mkClient (fun _ => answer)))
    (handlers.mkS3Handler (s3.mkS3 (fun _ => None)) "weather-bucket")
    (handlers.mkDynamoDBHandler
       (dynamodb.mkDynamoDB (fun _ => dynamodb.mkScanResult [] None)
                            (fun _ => None)) "weather")
    Scenario.cfg.

Lemma provider_error_is_echoed_witness :
  fst (weather_lambda.HandleRequest
         (collector_of (inr (http.mkResponse 401 "Invalid API key" None)))
         (weather_lambda.mkEvent EmptyString) Scenario.world0)
  = Return (weather_lambda.mkResponse 500
              "Failed to fetch weather data: weather API returned status 401: Invalid API key"
              None).
Proof.
  set (h := collector_of (inr (http.mkResponse 401 "Invalid API key" None))).
  assert (Hurl : exists url,
             url_with_query "https://api.openweathermap.org/data/2.5/weather"
               [("q", "Tokyo"); ("appid", "secret"); ("units", "metric")] = inr url)
    by (eexists; vm_compute; reflexivity).
  destruct Hurl as [url Hurl].
  assert (Hstatus : http.StatusCode (http.mkResponse 401 "Invalid API key" None) <> 200)
    by discriminate.
  exact (provider_error_is_echoed h (weather_lambda.mkEvent EmptyString)
           Scenario.world0 url (http.mkResponse 401 "Invalid API key" None)
           Hurl eq_refl Hstatus).
Defined.

Lemma collector_fetch_failure_witness :
  fst (weather_lambda.HandleRequest (collector_of (inl "dial tcp: i/o timeout"))
         (weather_lambda.mkEvent EmptyString) Scenario.world0)
  = Return (weather_lambda.mkResponse 500
              "Failed to fetch weather data: failed to make weather API request: dial tcp: i/o timeout"
              None)
  /\ table (snd (weather_lambda.HandleRequest (collector_of (inl "dial tcp: i/o timeout"))
                   (weather_lambda.mkEvent EmptyString) Scenario.world0)) = [].
Proof.
  assert (Hfetch : fst (services.GetWeatherData
                          (weather_lambda.weatherService
                             (collector_of (inl "dial tcp: i/o timeout")))
                          Scenario.world0)
                   = Return (inl "failed to make weather API request: dial tcp: i/o timeout"))
    by (vm_compute; reflexivity).
  destruct (collector_fetch_failure (collector_of (inl "dial tcp: i/o timeout"))
              (weather_lambda.mkEvent EmptyString) Scenario.world0
              "failed to make weather API request: dial tcp: i/o timeout" Hfetch)
    as (Hres & Htable & _).
  split; [exact Hres | exact Htable].
Defined.

Lemma record_id_same_second_witness :
  WeatherRecord.ID (converted Sample.tokyo_reading (time.mkTime 1700000000 250))
  = WeatherRecord.ID (converted Sample.tokyo_reading (time.mkTime 1700000000 999000000)).
Proof.
  set (ws := services.mkWeatherService Scenario.cfg (http.mkClient (fun _ => inl "offline"))).
  set (early := mkWorld (fun _ => time.mkTime 1700000000 250) 0 [] [] [] []).
  set (late := mkWorld (fun _ => time.mkTime 1700000000 999000000) 0 [] [] [] []).
  assert (H1 : fst (services.ConvertToWeatherRecord ws Sample.tokyo_reading early)
               = Return (converted Sample.tokyo_reading (time.mkTime 1700000000 250)))
    by (rewrite ConvertToWeatherRecord_run; reflexivity).
  assert (H2 : fst (services.ConvertToWeatherRecord ws Sample.tokyo_reading late)
               = Return (converted Sample.tokyo_reading
                           (time.mkTime 1700000000 999000000)))
    by (rewrite ConvertToWeatherRecord_run; reflexivity).
  apply (proj2 (record_id_same_second ws ws Sample.tokyo_reading Sample.tokyo_reading
                  early late _ _ eq_refl H1 H2)).
  reflexivity.
Defined.

End CollectorExtraRuns.

(** * The history endpoint before its input checks *)

Section Unvalidated.
Context `{!time.Formatter, !Sorter, !Codec}.
Import models.

(** The city of a request as it arrives: the parameter, or the configured
    city when the parameter is absent or empty. *)
Definition raw_city (h : weather_history_api.Handler)
    (request : weather_history_api.APIGatewayProxyRequest) : string :=
  match weather_history_api.QueryStringParameters request !! "city" with
  | Some c =>
    if String.eqb c EmptyString
    then config.CityName (config.Weather (weather_history_api.config h)) else c
  | None => config.CityName (config.Weather (weather_history_api.config h))
  end.

Lemma raw_city_param (h : weather_history_api.Handler)
    (request : weather_history_api.APIGatewayProxyRequest) :
  (let city := weather_history_api.QueryStringParameters request !!! "city" in
   if String.eqb city EmptyString
   then config.CityName (config.Weather (weather_history_api.config h)) else city)
  = raw_city h request.
Proof.
  unfold raw_city. rewrite lookup_total_alt.
  destruct (weather_history_api.QueryStringParameters request !! "city"); reflexivity.
Qed.

Lemma int64_small (z : Z) : - 2 ^ 63 <= z < 2 ^ 63 -> time.int64 z = z.
Proof. intros Hz. unfold time.int64. rewrite Z.mod_small; lia. Qed.

Lemma hours_duration (n : Z) :
  1 <= n <= 168 -> time.mul (time.neg n) time.Hour = - n * time.Hour.
Proof.
  intros Hn. unfold time.mul, time.neg.
  rewrite (int64_small (- n)) by lia.
  apply int64_small. unfold time.Hour, time.Second. lia.
Qed.

(** The earlier handler on a GET request whose period the switch
    resolves to the duration [d]. *)
Lemma v1_accepted (h : weather_history_api.Handler)
    (request : weather_history_api.APIGatewayProxyRequest) (w : World) (d : Z) :
  weather_history_api.HTTPMethod request = "GET" ->
  period_duration (requested_period request) = Some d ->
  let now := clock w (ticks w) in
  let startTime := time.Add now d in
  let input := handlers.history_scan_input (weather_history_api.dynamoHandler h)
                 (raw_city h request)
                 (time.Format startTime time.RFC3339) (time.Format now time.RFC3339) in
  let answer := dynamodb.scan_answer
                  (handlers.client (weather_history_api.dynamoHandler h)) input in
  let w' := add_call (tick w) (CallScan input) in
  weather_history_api_v1.HandleRequest h request w =
  match dynamodb.failure answer with
  | Some err =>
    (Return (weather_history_api.error_response http.StatusInternalServerError
               "Failed to retrieve weather history"),
     add_log w' "Error getting weather history: %v"
             [AStr (Errorf "failed to scan weather history: " err)])
  | None =>
    let records := sort_Slice handlers.timestamp_less
                     (unmarshalled (scanned_items (dynamodb.pages answer))) in
    let response := {|
      weather_history_api.StatusCode := http.StatusOK;
      weather_history_api.Message := "Weather history retrieved successfully";
      weather_history_api.Data := records;
      weather_history_api.Count := Z.of_nat (length records);
      weather_history_api.Period := requested_period request;
      weather_history_api.StartTime := time.Format startTime time.RFC3339;
      weather_history_api.EndTime := time.Format now time.RFC3339 |} in
    match weather_history_api.json_Marshal response with
    | inl err =>
      (Return (weather_history_api.error_response http.StatusInternalServerError
                 "Failed to create response"),
       add_log w' "Error marshaling response: %v" [AStr err])
    | inr body =>
      (Return (weather_history_api.mkProxyResponse http.StatusOK
                 weather_history_api.cors_headers body), w')
    end
  end.
Proof.
  intros Hget Hduration now startTime input answer w'.
  unfold weather_history_api_v1.HandleRequest.
  rewrite Hget. cbn [String.eqb Ascii.eqb Bool.eqb negb].
  cbv zeta. rewrite period_param, raw_city_param.
  rewrite bind_run, query_period_eq, Hduration.
  assert (Hquery : weather_history_api.query_window h (raw_city h request) d w
                   = (Return (match dynamodb.failure answer with
                              | Some err => inl (Errorf "failed to scan weather history: " err)
                              | None => inr (sort_Slice handlers.timestamp_less
                                               (unmarshalled (scanned_items
                                                                (dynamodb.pages answer))))
                              end, startTime, now), w')).
  { unfold weather_history_api.query_window.
    rewrite (bind_return _ _ _ _ _ (now_run w)).
    rewrite (bind_return _ _ _ _ _ (GetWeatherHistory_run _ _ _ _ _)).
    reflexivity. }
  rewrite (fmap_run _ _ _ _ _ Hquery).
  destruct (dynamodb.failure answer) as [err|]; [reflexivity|].
  cbv zeta. destruct (weather_history_api.json_Marshal _); reflexivity.
Qed.

Lemma v1_rejected (h : weather_history_api.Handler)
    (request : weather_history_api.APIGatewayProxyRequest) (w : World) :
  weather_history_api.HTTPMethod request = "GET" ->
  period_duration (requested_period request) = None ->
  weather_history_api_v1.HandleRequest h request w
  = (Return (weather_history_api.error_response http.StatusBadRequest
               "Invalid period. Use '6h', '24h', or number of hours (1-168)"), w).
Proof.
  intros Hget Hduration. unfold weather_history_api_v1.HandleRequest.
  rewrite Hget. cbn [String.eqb Ascii.eqb Bool.eqb negb].
  cbv zeta. rewrite period_param, raw_city_param.
  rewrite bind_run, query_period_eq, Hduration. reflexivity.
Qed.

(** X16: the input checks only restrict: on a GET request that carries an
    API key and a valid period and whose city is not changed by
    [sanitizeCityName], the handler with the checks and the earlier handler
    without them make the same calls and give the same answer. *)
Theorem checks_only_restrict (h : weather_history_api.Handler)
    (request : weather_history_api.APIGatewayProxyRequest) (w : World) :
  weather_history_api.HTTPMethod request = "GET" ->
  api_key_present request ->
  Validation.isValidPeriod (requested_period request) = true ->
  Validation.sanitizeCityName (raw_city h request) = raw_city h request ->
  weather_history_api.HandleRequest h request w
  = weather_history_api_v1.HandleRequest h request w.
Proof.
  intros Hget Hkey Hvalid Hcity.
  destruct (valid_period_duration _ Hvalid) as (n & _ & Hn & Hduration).
  rewrite (HandleRequest_accepted h request w n Hget Hkey Hvalid Hn).
  rewrite (v1_accepted h request w _ Hget Hduration).
  unfold window_scan, requested_city. fold (raw_city h request). rewrite Hcity.
  reflexivity.
Qed.

(** X17: the earlier handler asks for no API key and takes every period
    [strconv.Atoi] reads as 1 to 168 hours, with a sign or leading zeros
    and also 109, 119, ..., 159: it reads the clock once and scans the
    window of that many hours for the city exactly as it arrived, and
    answers 200 or 500. *)
Theorem unvalidated_hours_are_queried (h : weather_history_api.Handler)
    (request : weather_history_api.APIGatewayProxyRequest) (w : World) (n : Z) :
  weather_history_api.HTTPMethod request = "GET" ->
  requested_period request ∉ ["6h"; "24h"; "1d"] ->
  strconv.Atoi (requested_period request) = Some n ->
  1 <= n <= 168 ->
  let now := clock w (ticks w) in
  let input := handlers.history_scan_input (weather_history_api.dynamoHandler h)
                 (raw_city h request)
                 (time.Format (time.Add now (- n * time.Hour)) time.RFC3339)
                 (time.Format now time.RFC3339) in
  let out := weather_history_api_v1.HandleRequest h request w in
  calls (snd out) = (calls w ++ [CallScan input])%list
  /\ ticks (snd out) = S (ticks w)
  /\ exists resp,
       fst out = Return resp
       /\ (weather_history_api.resp_StatusCode resp = 200
           \/ weather_history_api.resp_StatusCode resp = 500).
Proof.
  intros Hget Htoken Hatoi Hn now input out.
  assert (period_duration (requested_period request) = Some (- n * time.Hour))
    as Hduration.
  { unfold period_duration. rewrite !not_elem_of_cons in Htoken.
    destruct Htoken as (Ha & Hb & Hc & _).
    apply String.eqb_neq in Ha, Hb, Hc. rewrite Ha, Hb, Hc, Hatoi. cbn [orb].
    destruct (Z.ltb_spec 0 n); [|lia]. destruct (Z.leb_spec n 168); [|lia].
    cbn [andb]. now rewrite hours_duration. }
  unfold out. rewrite (v1_accepted h request w _ Hget Hduration). cbv zeta.
  fold now. fold input.
  destruct (dynamodb.failure _) as [err|].
  { repeat split. eexists. split; [reflexivity|]. now right. }
  destruct (weather_history_api.json_Marshal _) as [err|body].
  { repeat split. eexists. split; [reflexivity|]. now right. }
  repeat split. eexists. split; [reflexivity|]. now left.
Qed.

(** X18: in the earlier handler the rejection of the switch is live: a
    GET request whose period is none of the three tokens and is not read
    by [strconv.Atoi] as 1 to 168 is answered 400 with
    [Invalid period. Use '6h', '24h', or number of hours (1-168)], and
    nothing is read or logged. *)
Theorem unvalidated_rejection (h : weather_history_api.Handler)
    (request : weather_history_api.APIGatewayProxyRequest) (w : World) :
  weather_history_api.HTTPMethod request = "GET" ->
  requested_period request ∉ ["6h"; "24h"; "1d"] ->
  (forall n, strconv.Atoi (requested_period request) = Some n -> n < 1 \/ 168 < n) ->
  weather_history_api_v1.HandleRequest h request w
  = (Return (weather_history_api.error_response 400
               "Invalid period. Use '6h', '24h', or number of hours (1-168)"), w).
Proof.
  intros Hget Htoken Hatoi. apply v1_rejected; [exact Hget|].
  unfold period_duration. rewrite !not_elem_of_cons in Htoken.
  destruct Htoken as (Ha & Hb & Hc & _).
  apply String.eqb_neq in Ha, Hb, Hc. rewrite Ha, Hb, Hc. cbn [orb].
  destruct (strconv.Atoi _) as [n|]; [|reflexivity].
  destruct (Hatoi n eq_refl); [destruct (Z.ltb_spec 0 n); [lia|reflexivity]|].
  destruct (Z.leb_spec n 168); [lia|]. now rewrite andb_false_r.
Qed.

End Unvalidated.

Section UnvalidatedRuns.
#[local] Existing Instance Sample.utc_Formatter.
#[local] Existing Instance insertion_Sorter.
#[local] Existing Instance Sample.codec.

Lemma checks_only_restrict_witness :
  weather_history_api.HandleRequest (Scenario.api [])
    (Scenario.get [("x-api-key", "secret")] [("period", "48"); ("city", "New York")])
    Scenario.world0
  = weather_history_api_v1.HandleRequest (Scenario.api [])
      (Scenario.get [("x-api-key", "secret")] [("period", "48"); ("city", "New York")])
      Scenario.world0.
Proof.
  set (request := Scenario.get [("x-api-key", "secret")]
                    [("period", "48"); ("city", "New York")]).
  assert (Hkey : api_key_present request).
  { exists "secret". split; [discriminate|]. right. vm_compute. reflexivity. }
  assert (Hvalid : Validation.isValidPeriod (requested_period request) = true)
    by (vm_compute; reflexivity).
  assert (Hcity : Validation.sanitizeCityName (raw_city (Scenario.api []) request)
                  = raw_city (Scenario.api []) request)
    by (vm_compute; reflexivity).
  exact (checks_only_restrict (Scenario.api []) request Scenario.world0
           eq_refl Hkey Hvalid Hcity).
Defined.

Lemma unvalidated_hours_are_queried_witness :
  exists resp,
    fst (weather_history_api_v1.HandleRequest (Scenario.api [])
           (Scenario.get [] [("period", "+109"); ("city", "Tokyo; DROP")])
           Scenario.world0) = Return resp
    /\ (weather_history_api.resp_StatusCode resp = 200
        \/ weather_history_api.resp_StatusCode resp = 500).
Proof.
  set (request := Scenario.get [] [("period", "+109"); ("city", "Tokyo; DROP")]).
  assert (Htoken : requested_period request ∉ ["6h"; "24h"; "1d"]).
  { rewrite !not_elem_of_cons. repeat split; try discriminate. apply not_elem_of_nil. }
  assert (Hatoi : strconv.Atoi (requested_period request) = Some 109)
    by (vm_compute; reflexivity).
  assert (Hn : 1 <= 109 <= 168) by lia.
  exact (proj2 (proj2 (unvalidated_hours_are_queried (Scenario.api []) request
                         Scenario.world0 109 eq_refl Htoken Hatoi Hn))).
Defined.

Lemma unvalidated_rejection_witness :
  weather_history_api_v1.HandleRequest (Scenario.api [])
    (Scenario.get [] [("period", "169")]) Scenario.world0
  = (Return (weather_history_api.error_response 400
               "Invalid period. Use '6h', '24h', or number of hours (1-168)"),
     Scenario.world0).
Proof.
  set (request := Scenario.get [] [("period", "169")]).
  assert (Htoken : requested_period request ∉ ["6h"; "24h"; "1d"]).
  { rewrite !not_elem_of_cons. repeat split; try discriminate. apply not_elem_of_nil. }
  assert (Hatoi : forall n, strconv.Atoi (requested_period request) = Some n ->
                            n < 1 \/ 168 < n).
  { intros n Hn. vm_compute in Hn. injection Hn as <-. right. lia. }
  exact (unvalidated_rejection (Scenario.api []) request Scenario.world0
           eq_refl Htoken Hatoi).
Defined.

End UnvalidatedRuns.

(** * The readers of the table store *)

Section Readers.
Context `{!time.Formatter, !Sorter, !Codec}.
Context (api : dynamodbiface.DynamoDBAPI).
Import models dynamodbiface.

Definition queried_items (ps : list QueryOutput.t) : list dynamodb.Item :=
  concat (QueryOutput.Items <$> ps).

(** The scan [QueryWeatherRecordsByCity] issues. *)
Definition city_scan (h : handlers.DynamoDBHandler) (cityName : string) (limit : Z)
    : ScanInput.t := {|
  ScanInput.Input := {|
    dynamodb.TableName := handlers.tableName h;
    dynamodb.FilterExpression := "cityName = :city";
    dynamodb.ExpressionAttributeNames := ∅;
    dynamodb.ExpressionAttributeValues := {[ ":city" := dynamodb.AttrS cityName ]} |};
  ScanInput.Limit := if 0 <? limit then Some limit else None |}.

(** The query [QueryRecentWeatherRecords] issues. *)
Definition recent_query (h : handlers.DynamoDBHandler) (id : string) (limit : Z)
    : QueryInput.t := {|
  QueryInput.TableName := handlers.tableName h;
  QueryInput.KeyConditionExpression := "id = :id";
  QueryInput.ExpressionAttributeNames := ∅;
  QueryInput.ExpressionAttributeValues := {[ ":id" := dynamodb.AttrS id ]};
  QueryInput.ScanIndexForward := false;
  QueryInput.Limit := if 0 <? limit then Some limit else None |}.

(** The request [GetWeatherRecord] issues. *)
Definition record_key (h : handlers.DynamoDBHandler) (id timestamp : string)
    : GetItemInput.t := {|
  GetItemInput.TableName := handlers.tableName h;
  GetItemInput.Key := {[ "id" := dynamodb.AttrS id;
                         "timestamp" := dynamodb.AttrS timestamp ]} |}.

Lemma unmarshalled_length (items : list dynamodb.Item) :
  (length (unmarshalled items) <= length items)%nat.
Proof.
  induction items as [|item items IH]; [reflexivity|].
  unfold unmarshalled in *. cbn [omap list_omap]. 
  destruct (UnmarshalMap item); simpl; lia.
Qed.

Lemma unmarshalled_drops (items : list dynamodb.Item) (item : dynamodb.Item)
    (err : error) :
  item ∈ items -> UnmarshalMap item = inl err ->
  (length (unmarshalled items) < length items)%nat.
Proof.
  intros Hin Herr. induction items as [|item' items IH]; [now apply elem_of_nil in Hin|].
  unfold unmarshalled in *. cbn [omap list_omap].
  apply elem_of_cons in Hin as [<-|Hin].
  - rewrite Herr. pose proof (unmarshalled_length items) as Hlen.
    unfold unmarshalled in Hlen. simpl. lia.
  - specialize (IH Hin). destruct (UnmarshalMap item'); simpl; lia.
Qed.

Lemma query_each_page_collect (ps : list QueryOutput.t) (failed : bool)
    (acc : list WeatherRecord.t) :
  dynamodbiface.each_page readers.collect_page ps failed acc
  = (acc ++ unmarshalled (queried_items ps))%list.
Proof.
  assert (Hcons : forall p ps,
             unmarshalled (queried_items (p :: ps))
             = (unmarshalled (QueryOutput.Items p) ++ unmarshalled (queried_items ps))%list)
    by (intros; apply unmarshalled_app).
  revert acc. induction ps as [|p ps IH]; intros acc.
  - change (unmarshalled (queried_items [])) with (@nil WeatherRecord.t).
    simpl. now rewrite app_nil_r.
  - rewrite Hcons, app_assoc, <- (collect_items_spec (QueryOutput.Items p) acc).
    destruct ps as [|p' ps'].
    + change (unmarshalled (queried_items [])) with (@nil WeatherRecord.t).
      rewrite app_nil_r. simpl. now destruct failed.
    + rewrite <- IH. reflexivity.
Qed.

Lemma QueryWeatherRecordsByCity_run (h : handlers.DynamoDBHandler) (city : string)
    (limit : Z) :
  readers.QueryWeatherRecordsByCity api h city limit
  = match Scan api (city_scan h city limit) with
    | inl err => inl (Errorf "failed to scan DynamoDB table: " err)
    | inr result => inr (unmarshalled (dynamodb.Items result))
    end.
Proof.
  unfold readers.QueryWeatherRecordsByCity. cbv zeta. fold (city_scan h city limit).
  destruct (Scan api _); [reflexivity|]. now rewrite collect_items_spec.
Qed.

Lemma QueryRecentWeatherRecords_run (h : handlers.DynamoDBHandler) (id : string)
    (limit : Z) :
  readers.QueryRecentWeatherRecords api h id limit
  = match Query api (recent_query h id limit) with
    | inl err => inl (Errorf "failed to query DynamoDB table: " err)
    | inr result => inr (unmarshalled (QueryOutput.Items result))
    end.
Proof.
  unfold readers.QueryRecentWeatherRecords. cbv zeta. fold (recent_query h id limit).
  destruct (Query api _); [reflexivity|]. now rewrite collect_items_spec.
Qed.

Lemma GetWeatherHistoryByCityID_run (h : handlers.DynamoDBHandler) (cityID : string)
    (startTime endTime : time.Time) :
  let answer := query_answer api
                  (readers.history_query_input h cityID
                     (time.Format startTime time.RFC3339)
                     (time.Format endTime time.RFC3339)) in
  readers.GetWeatherHistoryByCityID api h cityID startTime endTime
  = match QueryResult.failure answer with
    | Some err => inl (Errorf "failed to query weather history: " err)
    | None => inr (unmarshalled (queried_items (QueryResult.pages answer)))
    end.
Proof.
  intros answer. unfold readers.GetWeatherHistoryByCityID, QueryPagesWithContext.
  cbv zeta. fold answer. rewrite query_each_page_collect. reflexivity.
Qed.

(** X19: the two list readers never fail on an item: an error comes from
    the service alone, and on success the result holds the items of the
    answer that unmarshal, in the order of the answer, the others being
    dropped.  A limit that is not positive is not passed on: it asks for
    everything, like the limit 0. *)
Theorem list_readers_are_lenient (h : handlers.DynamoDBHandler) (key : string)
    (limit : Z) :
  (forall records,
      readers.QueryWeatherRecordsByCity api h key limit = inr records <->
      exists result, Scan api (city_scan h key limit) = inr result
                     /\ records = unmarshalled (dynamodb.Items result))
  /\ (forall records,
        readers.QueryRecentWeatherRecords api h key limit = inr records <->
        exists result, Query api (recent_query h key limit) = inr result
                       /\ records = unmarshalled (QueryOutput.Items result))
  /\ (limit <= 0 ->
      ScanInput.Limit (city_scan h key limit) = None
      /\ QueryInput.Limit (recent_query h key limit) = None
      /\ readers.QueryWeatherRecordsByCity api h key limit
         = readers.QueryWeatherRecordsByCity api h key 0
      /\ readers.QueryRecentWeatherRecords api h key limit
         = readers.QueryRecentWeatherRecords api h key 0)
  /\ (0 < limit ->
      ScanInput.Limit (city_scan h key limit) = Some limit
      /\ QueryInput.Limit (recent_query h key limit) = Some limit).
Proof.
  split; [|split; [|split]].
  - intros records. rewrite QueryWeatherRecordsByCity_run.
    destruct (Scan api _) as [err|result].
    + split; [discriminate | intros (? & [=] & _)].
    + split; [intros [= <-]; eauto | intros (? & [= <-] & ->); reflexivity].
  - intros records. rewrite QueryRecentWeatherRecords_run.
    destruct (Query api _) as [err|result].
    + split; [discriminate | intros (? & [=] & _)].
    + split; [intros [= <-]; eauto | intros (? & [= <-] & ->); reflexivity].
  - intros Hlimit.
    assert (city_scan h key limit = city_scan h key 0) as Hscan.
    { unfold city_scan. destruct (Z.ltb_spec 0 limit); [lia | reflexivity]. }
    assert (recent_query h key limit = recent_query h key 0) as Hquery.
    { unfold recent_query. destruct (Z.ltb_spec 0 limit); [lia | reflexivity]. }
    rewrite !QueryWeatherRecordsByCity_run, !QueryRecentWeatherRecords_run.
    rewrite Hscan, Hquery. repeat split.
  - intros Hlimit. unfold city_scan, recent_query. cbn.
    destruct (Z.ltb_spec 0 limit); [split; reflexivity | lia].
Qed.

(** X20: [GetWeatherRecord] returns a record exactly when the service
    holds an item under the identifier and timestamp asked for and that
    item unmarshals to the record; an absent item is reported as
    [weather record not found]. *)
Theorem GetWeatherRecord_found_iff (h : handlers.DynamoDBHandler)
    (id timestamp : string) :
  (forall record,
      readers.GetWeatherRecord api h id timestamp = inr record <->
      exists item,
        GetItem api (record_key h id timestamp) = inr (GetItemOutput.mk (Some item))
        /\ UnmarshalMap item = inr record)
  /\ (GetItem api (record_key h id timestamp) = inr (GetItemOutput.mk None) ->
      readers.GetWeatherRecord api h id timestamp = inl "weather record not found").
Proof.
  unfold readers.GetWeatherRecord. fold (record_key h id timestamp). split.
  - intros record. destruct (GetItem api _) as [err|[[item|]]]; cbn.
    + split; [discriminate | intros (? & [=] & _)].
    + destruct (UnmarshalMap item) as [err|record'] eqn:Hitem.
      * split; [discriminate | intros (? & [= <-] & Hun); congruence].
      * split; [intros [= <-]; eauto | intros (? & [= <-] & Hun); congruence].
    + split; [discriminate | intros (? & [=] & _)].
  - intros ->. reflexivity.
Qed.

(** X21: an item that does not unmarshal is an error for [GetWeatherRecord]
    but is passed over in silence by the list readers: where the one fails
    with [failed to unmarshal weather record], the other succeeds with
    fewer records than the service delivered items. *)
Theorem malformed_item_strict_and_lenient (h : handlers.DynamoDBHandler)
    (id timestamp : string) (limit : Z) (item : dynamodb.Item) (err : error)
    (result : QueryOutput.t) :
  UnmarshalMap item = inl err ->
  GetItem api (record_key h id timestamp) = inr (GetItemOutput.mk (Some item)) ->
  Query api (recent_query h id limit) = inr result ->
  item ∈ QueryOutput.Items result ->
  readers.GetWeatherRecord api h id timestamp
  = inl ("failed to unmarshal weather record: " ++ err)
  /\ exists records,
       readers.QueryRecentWeatherRecords api h id limit = inr records
       /\ (length records < length (QueryOutput.Items result))%nat.
Proof.
  intros Hitem Hget Hquery Hin. split.
  - unfold readers.GetWeatherRecord. fold (record_key h id timestamp).
    rewrite Hget. cbn. now rewrite Hitem.
  - rewrite QueryRecentWeatherRecords_run, Hquery. eexists. split; [reflexivity|].
    eapply unmarshalled_drops; eassumption.
Qed.

(** X22: [GetWeatherHistoryByCityID] returns the records in the order the
    service delivered their items and does not sort; over pages with the
    same items, [GetWeatherHistory] returns its records sorted by
    timestamp. *)
Theorem history_by_id_keeps_service_order (h : handlers.DynamoDBHandler)
    (cityID cityName : string) (startTime endTime : time.Time) (w : World) :
  let query := query_answer api
                 (readers.history_query_input h cityID
                    (time.Format startTime time.RFC3339)
                    (time.Format endTime time.RFC3339)) in
  let scan := dynamodb.scan_answer (handlers.client h)
                (handlers.history_scan_input h cityName
                   (time.Format startTime time.RFC3339)
                   (time.Format endTime time.RFC3339)) in
  QueryResult.failure query = None ->
  dynamodb.failure scan = None ->
  scanned_items (dynamodb.pages scan) = queried_items (QueryResult.pages query) ->
  exists records,
    readers.GetWeatherHistoryByCityID api h cityID startTime endTime = inr records
    /\ records = unmarshalled (queried_items (QueryResult.pages query))
    /\ fst (handlers.GetWeatherHistory h cityName startTime endTime w)
       = Return (inr (sort_Slice handlers.timestamp_less records)).
Proof.
  intros query scan Hquery Hscan Hitems.
  rewrite GetWeatherHistoryByCityID_run, GetWeatherHistory_run. cbv zeta.
  fold query. fold scan. rewrite Hquery, Hscan, Hitems. eauto.
Qed.

End Readers.

Section ReaderRuns.
#[local] Existing Instance Sample.utc_Formatter.
#[local] Existing Instance insertion_Sorter.
#[local] Existing Instance Sample.codec.
Import dynamodbiface.

(** A service that holds [held] under every key and answers every scan
    and query with [items], in one page. *)
Definition serving (held : option dynamodb.Item) (items : list dynamodb.Item)
    : DynamoDBAPI := {|
  GetItem := fun _ => inr (GetItemOutput.mk held);
  Scan := fun _ => inr (dynamodb.mkScanOutput items);
  Query := fun _ => inr (QueryOutput.mk items);
  query_answer := fun _ => QueryResult.mk [QueryOutput.mk items] None |}.

Lemma malformed_item_strict_and_lenient_witness :
  readers.GetWeatherRecord
    (serving (Some Scenario.malformed)
       [Scenario.item "Tokyo-1" "2023-11-14T19:00:00Z"; Scenario.malformed])
    (Scenario.history_handler []) "Tokyo-3" "2023-11-14T21:00:00Z"
  = inl "failed to unmarshal weather record: cannot unmarshal attribute humidity into an int"
  /\ exists records,
       readers.QueryRecentWeatherRecords
         (serving (Some Scenario.malformed)
            [Scenario.item "Tokyo-1" "2023-11-14T19:00:00Z"; Scenario.malformed])
         (Scenario.history_handler []) "Tokyo-3" 10 = inr records
       /\ (length records < 2)%nat.
Proof.
  assert (Hitem : UnmarshalMap Scenario.malformed
                  = inl "cannot unmarshal attribute humidity into an int")
    by (vm_compute; reflexivity).
  assert (Hin : Scenario.malformed
                ∈ QueryOutput.Items
                    (QueryOutput.mk [Scenario.item "Tokyo-1" "2023-11-14T19:00:00Z";
                                     Scenario.malformed])).
  { apply list_elem_of_further, list_elem_of_here. }
  exact (malformed_item_strict_and_lenient
           (serving (Some Scenario.malformed)
              [Scenario.item "Tokyo-1" "2023-11-14T19:00:00Z"; Scenario.malformed])
           (Scenario.history_handler []) "Tokyo-3" "2023-11-14T21:00:00Z" 10
           Scenario.malformed "cannot unmarshal attribute humidity into an int"
           (QueryOutput.mk [Scenario.item "Tokyo-1" "2023-11-14T19:00:00Z";
                            Scenario.malformed])
           Hitem eq_refl eq_refl Hin).
Defined.

Lemma history_by_id_keeps_service_order_witness :
  readers.GetWeatherHistoryByCityID
    (serving None [Scenario.item "Tokyo-2" "2023-11-14T21:00:00Z";
                   Scenario.item "Tokyo-1" "2023-11-14T19:00:00Z"])
    (Scenario.history_handler
       [dynamodb.mkScanOutput [Scenario.item "Tokyo-2" "2023-11-14T21:00:00Z";
                               Scenario.item "Tokyo-1" "2023-11-14T19:00:00Z"]])
    "Tokyo-2" (time.mkTime (1700000000 - 21600) 0) (time.mkTime 1700000000 0)
  = inr [Scenario.record "Tokyo-2" "2023-11-14T21:00:00Z";
         Scenario.record "Tokyo-1" "2023-11-14T19:00:00Z"]
  /\ Scenario.history
       [dynamodb.mkScanOutput [Scenario.item "Tokyo-2" "2023-11-14T21:00:00Z";
                               Scenario.item "Tokyo-1" "2023-11-14T19:00:00Z"]]
     = Return (inr [Scenario.record "Tokyo-1" "2023-11-14T19:00:00Z";
                    Scenario.record "Tokyo-2" "2023-11-14T21:00:00Z"]).
Proof.
  set (items := [Scenario.item "Tokyo-2" "2023-11-14T21:00:00Z";
                 Scenario.item "Tokyo-1" "2023-11-14T19:00:00Z"]).
  assert (Hitems : scanned_items [dynamodb.mkScanOutput items]
                   = queried_items [QueryOutput.mk items]) by reflexivity.
  destruct (history_by_id_keeps_service_order (serving None items)
              (Scenario.history_handler [dynamodb.mkScanOutput items])
              "Tokyo-2" "Tokyo"
              (time.mkTime (1700000000 - 21600) 0) (time.mkTime 1700000000 0)
              Scenario.world0 eq_refl eq_refl Hitems)
    as (records & Hby_id & Hrecords & Hhistory).
  assert (Hvalue : records = [Scenario.record "Tokyo-2" "2023-11-14T21:00:00Z";
                              Scenario.record "Tokyo-1" "2023-11-14T19:00:00Z"])
    by (rewrite Hrecords; vm_compute; reflexivity).
  split.
  - rewrite Hby_id, Hvalue. reflexivity.
  - unfold Scenario.history. rewrite Hhistory, Hvalue. vm_compute. reflexivity.
Defined.

End ReaderRuns.

(** * The constructors *)

Section Constructors.
Context (env : Startup).

(** X23: the collector starts exactly when the configuration loads, the
    API key, the bucket and the table are not empty and a session for the
    region can be created.  The handler then uses one configuration for
    the service and for itself and takes the bucket, the table and both
    clients from the configuration and that session.  Otherwise the error
    names the first failing step, in the order load, API key, bucket,
    table, session; the error for the DynamoDB handler cannot occur. *)
Theorem collector_NewHandler_decides :
  match startup.lambda_NewHandler env with
  | inr h =>
    exists cfg sess,
      config_Load env = inr cfg
      /\ config.APIKey (config.Weather cfg) <> EmptyString
      /\ config.S3Bucket (config.AWS cfg) <> EmptyString
      /\ config.DynamoDBTable (config.AWS cfg) <> EmptyString
      /\ session_NewSession env (config.Region (config.AWS cfg)) = inr sess
      /\ weather_lambda.config h = cfg
      /\ services.config (weather_lambda.weatherService h) = cfg
      /\ handlers.bucket (weather_lambda.s3Handler h) = config.S3Bucket (config.AWS cfg)
      /\ handlers.s3_client (weather_lambda.s3Handler h) = session.s3_New sess
      /\ handlers.tableName (weather_lambda.dynamoDBHandler h)
         = config.DynamoDBTable (config.AWS cfg)
      /\ handlers.client (weather_lambda.dynamoDBHandler h) = session.dynamodb_New sess
  | inl err =>
    (exists e, config_Load env = inl e /\ err = "failed to load configuration: " ++ e)
    \/ exists cfg,
         config_Load env = inr cfg
         /\ (config.APIKey (config.Weather cfg) = EmptyString
             /\ err = "WEATHER_API_KEY environment variable is required"
             \/ config.APIKey (config.Weather cfg) <> EmptyString
                /\ (config.S3Bucket (config.AWS cfg) = EmptyString
                    /\ err = "S3_BUCKET environment variable is required"
                    \/ config.S3Bucket (config.AWS cfg) <> EmptyString
                       /\ (config.DynamoDBTable (config.AWS cfg) = EmptyString
                           /\ err = "DYNAMODB_TABLE environment variable is required"
                           \/ config.DynamoDBTable (config.AWS cfg) <> EmptyString
                              /\ exists e,
                                   session_NewSession env
                                     (config.Region (config.AWS cfg)) = inl e
                                   /\ err = "failed to create AWS session: " ++ e)))
  end.
Proof.
  unfold startup.lambda_NewHandler.
  destruct (config_Load env) as [e|cfg]; [left; eauto|].
  destruct (String.eqb_spec (config.APIKey (config.Weather cfg)) EmptyString)
    as [Hkey|Hkey]; [right; eauto 6|].
  destruct (String.eqb_spec (config.S3Bucket (config.AWS cfg)) EmptyString)
    as [Hbucket|Hbucket]; [right; eauto 8|].
  destruct (String.eqb_spec (config.DynamoDBTable (config.AWS cfg)) EmptyString)
    as [Htable|Htable]; [right; eauto 10|].
  destruct (session_NewSession env _) as [e|sess] eqn:Hsess.
  - right. exists cfg. split; [reflexivity|]. right. split; [exact Hkey|].
    right. split; [exact Hbucket|]. right. split; [exact Htable|]. eauto.
  - cbn. exists cfg, sess. repeat split; assumption.
Qed.

(** X24: an environment in which the collector starts also starts the
    history endpoint, on the same table name and the same table client;
    the history endpoint itself checks none of the settings. *)
Theorem collector_start_implies_history_start (h : weather_lambda.Handler) :
  startup.lambda_NewHandler env = inr h ->
  exists h' : weather_history_api.Handler,
    startup.history_NewHandler env = inr h'
    /\ weather_history_api.dynamoHandler h' = weather_lambda.dynamoDBHandler h
    /\ weather_history_api.config h' = weather_lambda.config h.
Proof.
  unfold startup.lambda_NewHandler, startup.history_NewHandler.
  destruct (config_Load env) as [e|cfg]; [discriminate|].
  destruct (String.eqb _ _); [discriminate|].
  destruct (String.eqb _ _); [discriminate|].
  destruct (String.eqb _ _); [discriminate|].
  unfold startup.NewDynamoDBHandler.
  destruct (session_NewSession env _) as [e|sess]; [discriminate|].
  intros [= <-]. eexists. repeat split.
Qed.

End Constructors.

(** An environment with the given settings, in which sessions can be
    created and the network is down. *)
Definition environment (key bucket table : string) : Startup := {|
  config_Load :=
    inr (config.mk (config.mkWeather key "https://api.openweathermap.org/data/2.5/weather" "Tokyo")
                   (config.mkAWS "ap-northeast-1" bucket table));
  session_NewSession := fun _ =>
    inr (session.mkSession
           (dynamodb.mkDynamoDB (fun _ => dynamodb.mkScanResult [] None) (fun _ => None))
           (s3.mkS3 (fun _ => None)));
  http_network := http.mkClient (fun _ => inl "offline") |}.

Lemma collector_start_implies_history_start_witness :
  exists (h : weather_lambda.Handler) (h' : weather_history_api.Handler),
    startup.lambda_NewHandler (environment "secret" "weather-bucket" "weather") = inr h
    /\ startup.history_NewHandler (environment "secret" "weather-bucket" "weather")
       = inr h'
    /\ handlers.tableName (weather_history_api.dynamoHandler h') = "weather".
Proof.
  assert (exists h, startup.lambda_NewHandler
                      (environment "secret" "weather-bucket" "weather") = inr h
                    /\ handlers.tableName (weather_lambda.dynamoDBHandler h) = "weather")
    as (h & Hstart & Htable) by (eexists; split; reflexivity).
  destruct (collector_start_implies_history_start
              (environment "secret" "weather-bucket" "weather") h Hstart)
    as (h' & Hhistory & Hsame & _).
  exists h, h'. split; [exact Hstart|]. split; [exact Hhistory|].
  rewrite Hsame. exact Htable.
Defined.

(** * The two stores and the defaults of the history endpoint *)

Section Stores.
Context `{!time.Formatter, !Sorter, !Codec}.
Import models.

Lemma app_singleton_neq {A} (l : list A) (x : A) : (l ++ [x])%list <> l.
Proof.
  intros Heq. apply (f_equal length) in Heq. rewrite length_app in Heq.
  simpl in Heq. lia.
Qed.

(** X25: the two store functions never panic and write exactly when they
    report success.  [StoreWeatherRecord] returns no error if and only if
    the item of the record has been added to the table, and leaves the
    table as it was otherwise; it touches neither the bucket nor the clock.
    [StoreWeatherData] returns no error if and only if an object has been
    added to the bucket, and leaves the bucket as it was otherwise; it does
    not touch the table, and it reads the clock, once, only after the data
    has been encoded. *)
Theorem stores_write_iff_success (hd : handlers.DynamoDBHandler)
    (hs : handlers.S3Handler) (record : WeatherRecord.t) (data : S3WeatherData.t)
    (w : World) :
  (exists res w',
      handlers.StoreWeatherRecord hd record w = (Return res, w')
      /\ bucket w' = bucket w /\ ticks w' = ticks w /\ logs w' = logs w
      /\ (res = None <->
          exists av, MarshalMap record = inr av
                     /\ table w' = (table w ++ [put_item_input hd av])%list)
      /\ (res <> None -> table w' = table w))
  /\ (exists res w',
        handlers.StoreWeatherData hs data w = (Return res, w')
        /\ table w' = table w /\ logs w' = logs w
        /\ (res = None <->
            exists jsonData,
              json_MarshalIndent data = inr jsonData
              /\ bucket w'
                 = (bucket w
                    ++ [put_object_input hs data (clock w (ticks w)) jsonData])%list)
        /\ (res <> None -> bucket w' = bucket w)
        /\ (ticks w' = ticks w <-> exists err, json_MarshalIndent data = inl err)
        /\ (ticks w' = ticks w \/ ticks w' = S (ticks w))).
Proof.
  split.
  - rewrite StoreWeatherRecord_run.
    destruct (MarshalMap record) as [err|av].
    { eexists _, _. split; [reflexivity|]. repeat split; try discriminate.
      intros (av & [=] & _). }
    cbv zeta. destruct (dynamodb.put_error _ _) as [err|].
    + eexists _, _. split; [reflexivity|]. repeat split; try discriminate.
      intros (av' & _ & Htable). cbn in Htable. symmetry in Htable.
      now apply app_singleton_neq in Htable.
    + eexists _, _. split; [reflexivity|]. repeat split; try congruence.
      intros _. exists av. split; reflexivity.
  - rewrite StoreWeatherData_run.
    destruct (json_MarshalIndent data) as [err|jsonData].
    { eexists _, _. split; [reflexivity|]. repeat split; try discriminate; eauto.
      intros (jsonData & [=] & _). }
    cbv zeta. destruct (s3.put_error _ _) as [err|].
    + eexists _, _. split; [reflexivity|]. cbn. repeat split; try discriminate; auto.
      * intros (jsonData' & _ & Hbucket). symmetry in Hbucket.
        now apply app_singleton_neq in Hbucket.
      * intros Hticks. lia.
      * intros (err' & [=]).
    + eexists _, _. split; [reflexivity|]. cbn. repeat split; try congruence; auto.
      * intros _. exists jsonData. split; reflexivity.
      * intros Hticks. lia.
      * intros (err' & [=]).
Qed.

(** X26: the defaults of the history endpoint are the explicit values:
    a request without a period, or with an empty one, is served exactly as
    the same request with the period [6h], and a request without a city,
    or with an empty one, exactly as the same request with the configured
    city. *)
Theorem history_defaults (h : weather_history_api.Handler)
    (request : weather_history_api.APIGatewayProxyRequest) (w : World) :
  let with_param (name value : string) :=
    weather_history_api.mkRequest
      (weather_history_api.HTTPMethod request)
      (weather_history_api.Headers request)
      (<[name := value]> (weather_history_api.QueryStringParameters request)) in
  (weather_history_api.QueryStringParameters request !!! "period" = EmptyString ->
   weather_history_api.HandleRequest h request w
   = weather_history_api.HandleRequest h (with_param "period" "6h") w)
  /\ (weather_history_api.QueryStringParameters request !!! "city" = EmptyString ->
      weather_history_api.HandleRequest h request w
      = weather_history_api.HandleRequest h
          (with_param "city"
             (config.CityName (config.Weather (weather_history_api.config h)))) w).
Proof.
  intros with_param. split; intros Hparam.
  - unfold weather_history_api.HandleRequest, with_param.
    cbn [weather_history_api.HTTPMethod weather_history_api.Headers
         weather_history_api.QueryStringParameters].
    rewrite Hparam, lookup_total_insert_eq.
    rewrite lookup_total_insert_ne by (intros Heq; discriminate Heq).
    reflexivity.
  - unfold weather_history_api.HandleRequest, with_param.
    cbn [weather_history_api.HTTPMethod weather_history_api.Headers
         weather_history_api.QueryStringParameters].
    rewrite Hparam, lookup_total_insert_eq.
    rewrite lookup_total_insert_ne by (intros Heq; discriminate Heq).
    destruct (String.eqb (config.CityName _) EmptyString) eqn:Hcity; [|reflexivity].
    apply String.eqb_eq in Hcity. rewrite Hcity. reflexivity.
Qed.

End Stores.
